(** * Thrustmaster T500RS force-feedback driver: encoder, sender, scheduler

    A shallow embedding of the driver core (effect encoders,
    [t500rs_send_effect] / [t500rs_send_int], the timer pass
    [t500rs_timer_helper] and the two input-layer entry points
    [t500rs_upload] and [t500rs_play]), followed by the properties of
    the specification that are stated about them.

    C integers are [Z] with the conversions written out ([u8], [ulong],
    [int32]); the [flags] word is a [Z] read and written with
    [Z.testbit], [Z.setbit] and [Z.clearbit]; C arrays are lists read
    with [!!] and written with [<[i:=x]>]; a function that talks to the
    device is a state transformer over the [transport]. *)

From Stdlib Require Import ZArith List Bool Lia.
From stdpp Require Import base list.
Import ListNotations.
Local Open Scope Z_scope.

(** ** Integer conversions *)

(** Conversion to u8, to unsigned long (64 bits wide) and to int. *)
Definition u8 (x : Z) : Z := x mod 256.
Definition ulong (x : Z) : Z := x mod 2 ^ 64.
Definition int32 (x : Z) : Z := (x + 2 ^ 31) mod 2 ^ 32 - 2 ^ 31.

(** ** Constants *)

(** errno values of the kernel. *)
Definition EINVAL : Z := 22.
Definition ENOMEM : Z := 12.

(** Effect type tags of linux/input.h. *)
Definition FF_PERIODIC : Z := 0x51.
Definition FF_CONSTANT : Z := 0x52.
Definition FF_SPRING : Z := 0x53.
Definition FF_FRICTION : Z := 0x54.
Definition FF_DAMPER : Z := 0x55.
Definition FF_INERTIA : Z := 0x56.
Definition FF_RAMP : Z := 0x57.
Definition FF_SQUARE : Z := 0x58.
Definition FF_TRIANGLE : Z := 0x59.
Definition FF_SINE : Z := 0x5a.
Definition FF_SAW_UP : Z := 0x5b.
Definition FF_SAW_DOWN : Z := 0x5c.

(** hid-tmt500rs.h *)
Definition T500RS_MAX_EFFECTS : nat := 16.
Definition T500RS_BUFFER_LENGTH : nat := 64.

Definition T500RS_CMD_UPLOAD_EFFECT : Z := 0x01.
Definition T500RS_CMD_MODIFY_EFFECT : Z := 0x02.
Definition T500RS_CMD_SET_ENVELOPE : Z := 0x02.
Definition T500RS_CMD_SET_CONSTANT : Z := 0x03.
Definition T500RS_CMD_SET_PERIODIC : Z := 0x04.
Definition T500RS_CMD_SET_CONDITION : Z := 0x05.

Definition T500RS_EFFECT_CONSTANT : Z := 0x00.
Definition T500RS_EFFECT_SPRING : Z := 0x40.
Definition T500RS_EFFECT_SQUARE : Z := 0x20.
Definition T500RS_EFFECT_TRIANGLE : Z := 0x21.
Definition T500RS_EFFECT_SINE : Z := 0x22.
Definition T500RS_EFFECT_SAWTOOTH_UP : Z := 0x23.
Definition T500RS_EFFECT_SAWTOOTH_DOWN : Z := 0x24.
Definition T500RS_EFFECT_RAMP : Z := 0x24.
Definition T500RS_EFFECT_FRICTION_2 : Z := 0x0c.
Definition T500RS_EFFECT_DAMPER_2 : Z := 0x0d.
Definition T500RS_EFFECT_COMBINE : Z := 0x0f.
Definition T500RS_EFFECT_INERTIA : Z := 0x41.

(** Bit numbers of [t500rs_effect_state.flags]. *)
Definition FF_EFFECT_QUEUE_UPLOAD : Z := 0.
Definition FF_EFFECT_QUEUE_START : Z := 1.
Definition FF_EFFECT_QUEUE_STOP : Z := 2.
Definition FF_EFFECT_PLAYING : Z := 3.
Definition FF_EFFECT_QUEUE_UPDATE : Z := 4.

(** Modelled from the spec: the macro T500RS_MAX_COMBINED_EFFECTS is
    used by [t500rs_upload_combined] but defined in no source file; the
    data model gives the maximum number of constituents as 16. *)
Definition T500RS_MAX_COMBINED_EFFECTS : Z := 16.

(** ** Bit operations on the flags word *)

Definition test_bit (nr : Z) (addr : Z) : bool := Z.testbit addr nr.
Definition __set_bit (nr : Z) (addr : Z) : Z := Z.setbit addr nr.
Definition __clear_bit (nr : Z) (addr : Z) : Z := Z.clearbit addr nr.

Arguments test_bit : simpl never.
Arguments __set_bit : simpl never.
Arguments __clear_bit : simpl never.

(** ** Data model *)

(** [struct ff_effect] of the input layer, restricted to the fields the
    driver reads. The C union [u] is kept as one field per view: the
    driver only copies [ff_effect] values whole and reads the view that
    goes with the type tag it has just tested. *)
Record ff_envelope := {
  attack_length : Z;
  attack_level : Z;
  fade_length : Z;
  fade_level : Z
}.

Record ff_replay := { replay_length : Z; replay_delay : Z }.

Record ff_constant_effect := {
  constant_level : Z;
  constant_envelope : ff_envelope
}.

Record ff_ramp_effect := {
  start_level : Z;
  end_level : Z;
  ramp_envelope : ff_envelope
}.

Record ff_periodic_effect := {
  waveform : Z;
  period : Z;
  magnitude : Z
}.

Record ff_condition_effect := {
  right_saturation : Z;
  left_saturation : Z;
  right_coeff : Z;
  left_coeff : Z;
  deadband : Z;
  center : Z
}.

Record ff_effect := {
  ff_type : Z;
  ff_id : Z;
  replay : ff_replay;
  u_constant : ff_constant_effect;
  u_ramp : ff_ramp_effect;
  u_periodic : ff_periodic_effect;
  u_condition0 : ff_condition_effect
}.

(** The combined-effect record, as [t500rs_upload_combined] and
    [t500rs_upload_weight] use it. Each array holds
    T500RS_MAX_COMBINED_EFFECTS bytes. *)
Record t500rs_combined_effect := {
  num_effects : Z;
  effect_ids : list Z;
  weights : list Z;
  dynamic_weights : bool;
  min_weights : list Z;
  max_weights : list Z
}.

Record t500rs_weight_update := {
  upd_effect_id : Z;
  new_weight : Z;
  smooth_transition : bool;
  transition_steps : Z
}.

Record t500rs_inertia := { strength : Z; damping : Z; resistance : Z }.

Record t500rs_effect_state := {
  effect : ff_effect;
  old : ff_effect;
  flags : Z;
  start_time : Z;
  count : Z;
  combined : option t500rs_combined_effect
}.

Record t500rs_device_entry := {
  states : list t500rs_effect_state;
  hrtimer_active : bool
}.

(** Constants and tables the driver uses but no source file defines.
    They are parameters of the development. [t500rs_cmd_header] is the
    header table, T500RS_CMD_HEADER_SIZE its length; [duration_params]
    is the payload of the duration command (see
    [t500rs_modify_duration] below). *)
Record protocol := {
  T500RS_CMD_UPDATE : Z;
  T500RS_CMD_PLAY : Z;
  T500RS_CMD_STOP : Z;
  T500RS_CMD_SET_RAMP : Z;
  T500RS_WEIGHT_UPDATE : Z;
  t500rs_cmd_header : list Z;
  duration_params : t500rs_effect_state -> list Z
}.

Definition with_flags (f : Z) (s : t500rs_effect_state) : t500rs_effect_state :=
  {| effect := effect s; old := old s; flags := f;
     start_time := start_time s; count := count s; combined := combined s |}.

Definition with_count (c : Z) (s : t500rs_effect_state) : t500rs_effect_state :=
  {| effect := effect s; old := old s; flags := flags s;
     start_time := start_time s; count := c; combined := combined s |}.

Definition with_start_time (n : Z) (s : t500rs_effect_state) : t500rs_effect_state :=
  {| effect := effect s; old := old s; flags := flags s;
     start_time := n; count := count s; combined := combined s |}.

Definition with_combined (c : option t500rs_combined_effect)
    (s : t500rs_effect_state) : t500rs_effect_state :=
  {| effect := effect s; old := old s; flags := flags s;
     start_time := start_time s; count := count s; combined := c |}.

Definition with_weights (ws : list Z) (c : t500rs_combined_effect) : t500rs_combined_effect :=
  {| num_effects := num_effects c; effect_ids := effect_ids c; weights := ws;
     dynamic_weights := dynamic_weights c;
     min_weights := min_weights c; max_weights := max_weights c |}.

(** [arr[i]] *)
Definition rd (arr : list Z) (i : nat) : Z := default 0 (arr !! i).

(** ** The transport

    Every call of [t500rs_send_effect] meets one [attempt] of the
    environment: whether kzalloc returns memory, whether
    t500rs_get_device finds the device entry, and whether the HID layer
    gets the report to the wheel. An exhausted script means that
    everything works. *)
Record attempt := {
  kzalloc_ok : bool;
  device_found : bool;
  transfer_ok : bool
}.

Definition smooth : attempt :=
  {| kzalloc_ok := true; device_found := true; transfer_ok := true |}.

(** [requests]: the command buffers for which hid_hw_request was
    called, oldest first. [delivered]: the report contents that reached
    the wheel. *)
Record transport := {
  script : list attempt;
  requests : list (list Z);
  delivered : list (list Z)
}.

Definition M (A : Type) : Type := transport -> A * transport.

Definition ret_ {A} (a : A) : M A := fun h => (a, h).
Definition bind {A B} (m : M A) (k : A -> M B) : M B :=
  fun h => let '(a, h1) := m h in k a h1.

Notation "x <- m ;; k" := (bind m (fun x => k))
  (at level 100, m at next level, right associativity).

Definition next_attempt : M attempt := fun h =>
  match script h with
  | [] => (smooth, h)
  | a :: rest =>
      (a, {| script := rest; requests := requests h; delivered := delivered h |})
  end.

Definition all_smooth (h : transport) : Prop :=
  Forall (fun a => kzalloc_ok a = true /\ device_found a = true) (script h).

Definition all_found (h : transport) : Prop :=
  Forall (fun a => device_found a = true) (script h).

(** ** Low-level communication *)

(** The report field takes the first T500RS_BUFFER_LENGTH bytes of the
    buffer. Where the buffer is shorter, the copy loop runs past its
    end; those bytes are left out. *)
Definition report_value (send_buffer : list Z) : list Z :=
  take T500RS_BUFFER_LENGTH send_buffer.

(** hid_hw_request returns nothing: [transfer_ok] decides what the
    wheel receives and plays no part in the value returned. *)
Definition t500rs_send_int (a : attempt) (send_buffer : list Z) : M Z := fun h =>
  if device_found a then
    (0, {| script := script h;
           requests := requests h ++ [send_buffer];
           delivered := if transfer_ok a
                        then delivered h ++ [report_value send_buffer]
                        else delivered h |})
  else (-1, h).

Section Driver.

Context (P : protocol).

Definition T500RS_CMD_HEADER_SIZE : nat := length (t500rs_cmd_header P).

(** [command_id] is accepted and not used, as in the source. *)
Definition t500rs_send_effect (command_id : Z) (params : list Z)
    (params_size : nat) : M Z :=
  a <- next_attempt ;;
  if kzalloc_ok a then
    t500rs_send_int a (t500rs_cmd_header P ++ take params_size params)
  else ret_ (- ENOMEM).

(** ** Basic force feedback effects *)

(** The envelope command is the same nine bytes in every encoder. *)
Definition envelope_params : list Z :=
  [T500RS_CMD_SET_ENVELOPE; 0x1c; 0x00; 0x00; 0x00; 0x00; 0x00; 0x00; 0x00].

(** The upload trailer; [params[2]] is the effect-type code. *)
Definition upload_params (code : Z) : list Z :=
  [T500RS_CMD_UPLOAD_EFFECT; 0x00; u8 code; 0x40; 0x17; 0x25; 0x00;
   0xff; 0xff; 0x0e; 0x00; 0x1c; 0x00].

Definition constant_params (state : t500rs_effect_state) : list Z :=
  [T500RS_CMD_SET_CONSTANT; 0x0e; 0x00;
   u8 (constant_level (u_constant (effect state)))].

Definition t500rs_upload_constant (state : t500rs_effect_state) : M Z :=
  ret <- t500rs_send_effect T500RS_CMD_SET_ENVELOPE envelope_params 9 ;;
  if ret <? 0 then ret_ ret else
  ret <- t500rs_send_effect T500RS_CMD_SET_CONSTANT (constant_params state) 4 ;;
  if ret <? 0 then ret_ ret else
  t500rs_send_effect T500RS_CMD_UPLOAD_EFFECT (upload_params T500RS_EFFECT_CONSTANT) 13.

Definition ramp_params (state : t500rs_effect_state) : list Z :=
  [u8 (T500RS_CMD_SET_RAMP P); 0x0e; 0x00;
   u8 (start_level (u_ramp (effect state)));
   u8 (end_level (u_ramp (effect state)))].

Definition t500rs_upload_ramp (state : t500rs_effect_state) : M Z :=
  ret <- t500rs_send_effect T500RS_CMD_SET_ENVELOPE envelope_params 9 ;;
  if ret <? 0 then ret_ ret else
  ret <- t500rs_send_effect (T500RS_CMD_SET_RAMP P) (ramp_params state) 5 ;;
  if ret <? 0 then ret_ ret else
  t500rs_send_effect T500RS_CMD_UPLOAD_EFFECT (upload_params T500RS_EFFECT_RAMP) 13.

(** The switch of [t500rs_upload_periodic] is on [state->effect.type]. *)
Definition periodic_waveform (type : Z) : option Z :=
  if type =? FF_SINE then Some T500RS_EFFECT_SINE
  else if type =? FF_SQUARE then Some T500RS_EFFECT_SQUARE
  else if type =? FF_TRIANGLE then Some T500RS_EFFECT_TRIANGLE
  else if type =? FF_SAW_UP then Some T500RS_EFFECT_SAWTOOTH_UP
  else if type =? FF_SAW_DOWN then Some T500RS_EFFECT_SAWTOOTH_DOWN
  else None.

Definition periodic_params : list Z :=
  [T500RS_CMD_SET_PERIODIC; 0x0e; 0x00; 0x00; 0x00; 0x00; 0xe8; 0x03].

Definition t500rs_upload_periodic (state : t500rs_effect_state) : M Z :=
  match periodic_waveform (ff_type (effect state)) with
  | None => ret_ (- EINVAL)
  | Some waveform =>
      ret <- t500rs_send_effect T500RS_CMD_SET_ENVELOPE envelope_params 9 ;;
      if ret <? 0 then ret_ ret else
      ret <- t500rs_send_effect T500RS_CMD_SET_PERIODIC periodic_params 8 ;;
      if ret <? 0 then ret_ ret else
      t500rs_send_effect T500RS_CMD_UPLOAD_EFFECT (upload_params waveform) 13
  end.

(** ** Condition-based effects *)

Definition condition_params : list Z :=
  [T500RS_CMD_SET_CONDITION; 0x0e; 0x00; 0x64; 0x64; 0x00; 0x00; 0x00; 0x00;
   0x64; 0x64].

Definition t500rs_upload_condition (state : t500rs_effect_state)
    (effect_type : Z) : M Z :=
  ret <- t500rs_send_effect T500RS_CMD_SET_CONDITION condition_params 11 ;;
  if ret <? 0 then ret_ ret else
  ret <- t500rs_send_effect T500RS_CMD_SET_ENVELOPE envelope_params 9 ;;
  if ret <? 0 then ret_ ret else
  t500rs_send_effect T500RS_CMD_UPLOAD_EFFECT (upload_params effect_type) 13.

Definition condition_extended_params (state : t500rs_effect_state)
    (effect_type : Z) : list Z :=
  let c := u_condition0 (effect state) in
  let velocity_factor :=
    if effect_type =? T500RS_EFFECT_DAMPER_2 then 0x64
    else if effect_type =? T500RS_EFFECT_FRICTION_2 then 0x32 else 0 in
  let acceleration_factor :=
    if effect_type =? T500RS_EFFECT_DAMPER_2 then 0x32 else 0 in
  let position_factor :=
    if effect_type =? T500RS_EFFECT_DAMPER_2 then 0
    else if effect_type =? T500RS_EFFECT_FRICTION_2 then 0x64 else 0 in
  [u8 effect_type; 0x00; 0x00; 0x00; 0x05; 0x0e;
   u8 (Z.shiftr (right_coeff c) 8);
   u8 (Z.shiftr (left_coeff c) 8);
   u8 (Z.shiftr (right_saturation c) 9);
   u8 (Z.shiftr (left_saturation c) 9);
   u8 (Z.shiftr (deadband c) 9);
   u8 (Z.shiftr (center c) 9);
   velocity_factor; acceleration_factor; position_factor].

Definition t500rs_upload_condition_extended (state : t500rs_effect_state)
    (effect_type : Z) : M Z :=
  t500rs_send_effect (T500RS_CMD_UPDATE P)
    (condition_extended_params state effect_type) 15.

(** ** Advanced effects *)

(** One round of the packing loop of [t500rs_upload_combined]. *)
Definition combined_entry (c : t500rs_combined_effect) (params : list Z)
    (i : nat) : list Z :=
  let params := <[(8 + i * 3)%nat := u8 (rd (effect_ids c) i)]> params in
  let params := <[(9 + i * 3)%nat := u8 (rd (weights c) i)]> params in
  if dynamic_weights c then
    <[(10 + i * 3)%nat :=
        u8 (Z.lor (Z.land (rd (min_weights c) i) 0xF0)
                  (Z.land (Z.shiftr (rd (max_weights c) i) 4) 0x0F))]> params
  else params.

(** The array [params] when the loop is over: 8 header bytes, then
    three bytes reserved per possible constituent, all zero at first. *)
Definition combined_params (c : t500rs_combined_effect) : list Z :=
  fold_left (combined_entry c) (seq 0 (Z.to_nat (num_effects c)))
    ([T500RS_EFFECT_COMBINE; 0x00; 0x00; 0x00; 0x05; 0x0e;
      u8 (num_effects c); if dynamic_weights c then 0x01 else 0x00]
     ++ replicate (Z.to_nat (T500RS_MAX_COMBINED_EFFECTS * 3)) 0).

Definition combined_params_size (c : t500rs_combined_effect) : nat :=
  Z.to_nat (8 + num_effects c * (if dynamic_weights c then 3 else 2)).

(** What [t500rs_send_effect] copies behind the header. *)
Definition combined_payload (c : t500rs_combined_effect) : list Z :=
  take (combined_params_size c) (combined_params c).

Definition t500rs_upload_combined (state : t500rs_effect_state) : M Z :=
  match combined state with
  | None => ret_ (- EINVAL)
  | Some c =>
      if (num_effects c =? 0) || (num_effects c >? T500RS_MAX_COMBINED_EFFECTS)
      then ret_ (- EINVAL)
      else t500rs_send_effect (T500RS_CMD_UPDATE P)
             (combined_params c) (combined_params_size c)
  end.

Definition inertia_params (params : t500rs_inertia) : list Z :=
  [T500RS_EFFECT_INERTIA; 0x00; 0x00; 0x00; 0x03; 0x0e;
   u8 (strength params); u8 (damping params)].

Definition t500rs_upload_inertia (params : t500rs_inertia) : M Z :=
  t500rs_send_effect (T500RS_CMD_UPDATE P) (inertia_params params) 8.

(** ** Effect modifiers and parameters *)

Definition t500rs_upload_envelope (state : t500rs_effect_state) : M Z :=
  ret <- t500rs_send_effect T500RS_CMD_SET_ENVELOPE envelope_params 9 ;;
  if ret <? 0 then ret_ ret else
  t500rs_send_effect T500RS_CMD_UPLOAD_EFFECT
    (upload_params (ff_type (effect state))) 13.

(** The search loop of [t500rs_upload_weight]: [i] is the loop
    variable, [remaining] the rounds left before [i] reaches
    [num_effects]; the result is [found]. *)
Fixpoint find_effect (ids : list Z) (effect_id : Z) (i remaining : nat) : Z :=
  match remaining with
  | O => -1
  | S r =>
      if rd ids i =? effect_id then Z.of_nat i
      else find_effect ids effect_id (S i) r
  end.

Definition weight_params (update : t500rs_weight_update) : list Z :=
  [u8 (T500RS_WEIGHT_UPDATE P); 0x00; 0x00; 0x00;
   u8 (upd_effect_id update); u8 (new_weight update);
   if smooth_transition update then u8 (transition_steps update) else 0;
   0x00].

(** The stored weight is written first, the command is sent after. *)
Definition t500rs_upload_weight (state : t500rs_effect_state)
    (update : t500rs_weight_update) : M (Z * t500rs_effect_state) :=
  match combined state with
  | None => ret_ (- EINVAL, state)
  | Some c =>
      if negb (dynamic_weights c) then ret_ (- EINVAL, state) else
      let found :=
        find_effect (effect_ids c) (upd_effect_id update) 0
          (Z.to_nat (num_effects c)) in
      if found <? 0 then ret_ (- EINVAL, state) else
      if (new_weight update <? rd (min_weights c) (Z.to_nat found))
         || (new_weight update >? rd (max_weights c) (Z.to_nat found))
      then ret_ (- EINVAL, state) else
      let state' :=
        with_combined
          (Some (with_weights
                   (<[Z.to_nat found := u8 (new_weight update)]> (weights c)) c))
          state in
      ret <- t500rs_send_effect (T500RS_CMD_UPDATE P) (weight_params update) 8 ;;
      ret_ (ret, state')
  end.

(** Modelled from the spec: t500rs_modify_duration is called by
    [t500rs_upload_effect] and defined in no source file; the duration
    configuration is one further send, appended after the others. The
    command id given here is of no consequence, [t500rs_send_effect]
    does not look at it. *)
Definition t500rs_modify_duration (state : t500rs_effect_state) : M Z :=
  t500rs_send_effect T500RS_CMD_MODIFY_EFFECT (duration_params P state)
    (length (duration_params P state)).

(** ** Core force feedback effect handling *)

Definition nonzero (x : Z) : bool := negb (x =? 0).

(** How the switch of [t500rs_upload_effect] is left: by [return ret]
    or by [break] with the current [ret]. *)
Inductive flow := Return (ret : Z) | Break (ret : Z).

Definition upload_switch (state : t500rs_effect_state) : M flow :=
  let type := ff_type (effect state) in
  if type =? FF_CONSTANT then
    ret <- t500rs_upload_constant state ;;
    if nonzero ret then ret_ (Return ret) else
    let env := constant_envelope (u_constant (effect state)) in
    if nonzero (attack_length env) || nonzero (fade_length env) then
      ret <- t500rs_upload_envelope state ;;
      if nonzero ret then ret_ (Return ret) else ret_ (Break ret)
    else ret_ (Break ret)
  else if type =? FF_RAMP then
    ret <- t500rs_upload_ramp state ;;
    if nonzero ret then ret_ (Return ret) else
    let env := ramp_envelope (u_ramp (effect state)) in
    if nonzero (attack_length env) || nonzero (fade_length env) then
      ret <- t500rs_upload_envelope state ;;
      if nonzero ret then ret_ (Return ret) else ret_ (Break ret)
    else ret_ (Break ret)
  else if type =? FF_SPRING then
    ret <- t500rs_upload_condition state T500RS_EFFECT_SPRING ;;
    ret_ (Break ret)
  else if type =? FF_DAMPER then
    ret <- t500rs_upload_condition_extended state T500RS_EFFECT_DAMPER_2 ;;
    ret_ (Break ret)
  else if type =? FF_FRICTION then
    ret <- t500rs_upload_condition_extended state T500RS_EFFECT_FRICTION_2 ;;
    ret_ (Break ret)
  else if type =? FF_INERTIA then
    let c := u_condition0 (effect state) in
    ret <- t500rs_upload_inertia
             {| strength := Z.shiftr (right_coeff c) 8;
                damping := Z.shiftr (left_coeff c) 8;
                resistance := Z.shiftr (center c) 8 |} ;;
    ret_ (Break ret)
  else if type =? FF_PERIODIC then
    ret <- t500rs_upload_periodic state ;;
    ret_ (Break ret)
  else ret_ (Return (- EINVAL)).

Definition t500rs_upload_effect (state : t500rs_effect_state) : M Z :=
  match combined state with
  | Some _ => t500rs_upload_combined state
  | None =>
      f <- upload_switch state ;;
      match f with
      | Return ret => ret_ ret
      | Break ret =>
          if nonzero (replay_length (replay (effect state)))
          then t500rs_modify_duration state
          else ret_ ret
      end
  end.

(** ** Effect playback control *)

Definition play_params : list Z :=
  [T500RS_EFFECT_CONSTANT; 0x00; 0x00; 0x00; u8 (T500RS_CMD_PLAY P); 0x00;
   0x41; 0x01].

Definition stop_params : list Z :=
  [T500RS_EFFECT_CONSTANT; 0x00; 0x00; 0x00; u8 (T500RS_CMD_PLAY P); 0x00;
   0x00; 0x01].

Definition t500rs_play_effect (state : t500rs_effect_state) : M Z :=
  t500rs_send_effect (T500RS_CMD_PLAY P) play_params 8.

Definition t500rs_stop_effect (state : t500rs_effect_state) : M Z :=
  t500rs_send_effect (T500RS_CMD_STOP P) stop_params 8.

(** ** Timer and scheduling *)

(** One block of the loop body of [t500rs_timer_helper]: the slot it
    leaves behind, and [Some ret] when the block returns from the
    function. *)
Definition stage : Type :=
  t500rs_effect_state -> M (option Z * t500rs_effect_state).

Definition then_stage (a b : stage) : stage := fun state h =>
  let '((r, state1), h1) := a state h in
  match r with
  | Some _ => ((r, state1), h1)
  | None => b state1 h1
  end.

(** [if (PLAYING && replay.length) if (elapsed >= replay.length) ...] *)
Definition expire (jiffies_now : Z) (state : t500rs_effect_state)
    : t500rs_effect_state :=
  let length := replay_length (replay (effect state)) in
  if test_bit FF_EFFECT_PLAYING (flags state) && nonzero length then
    if ulong (jiffies_now - start_time state) >=? length then
      let state :=
        with_flags (__clear_bit FF_EFFECT_QUEUE_UPDATE
                      (__clear_bit FF_EFFECT_PLAYING (flags state))) state in
      let state :=
        if nonzero (count state) then with_count (count state - 1) state
        else state in
      if nonzero (count state)
      then with_flags (__set_bit FF_EFFECT_QUEUE_START (flags state)) state
      else state
    else state
  else state.

Definition stage_expire (jiffies_now : Z) : stage := fun state =>
  ret_ (None, expire jiffies_now state).

Definition stage_upload : stage := fun state =>
  if test_bit FF_EFFECT_QUEUE_UPLOAD (flags state) then
    let state :=
      with_flags (__clear_bit FF_EFFECT_QUEUE_UPLOAD (flags state)) state in
    ret <- t500rs_upload_effect state ;;
    if nonzero ret then ret_ (Some ret, state) else ret_ (None, state)
  else ret_ (None, state).

Definition stage_start : stage := fun state =>
  if test_bit FF_EFFECT_QUEUE_START (flags state) then
    let state :=
      with_flags (__set_bit FF_EFFECT_PLAYING
                    (__clear_bit FF_EFFECT_QUEUE_START (flags state))) state in
    ret <- t500rs_play_effect state ;;
    if nonzero ret then ret_ (Some ret, state) else ret_ (None, state)
  else ret_ (None, state).

Definition stage_stop : stage := fun state =>
  if test_bit FF_EFFECT_QUEUE_STOP (flags state) then
    let state :=
      with_flags (__clear_bit FF_EFFECT_PLAYING
                    (__clear_bit FF_EFFECT_QUEUE_STOP (flags state))) state in
    ret <- t500rs_stop_effect state ;;
    if nonzero ret then ret_ (Some ret, state) else ret_ (None, state)
  else ret_ (None, state).

(** The loop body for one slot, up to the [max_count] update. *)
Definition timer_slot (jiffies_now : Z) : stage :=
  then_stage (stage_expire jiffies_now)
    (then_stage stage_upload (then_stage stage_start stage_stop)).

(** [if (state->count > max_count) max_count = state->count;] with
    [count] an unsigned long and [max_count] an int. *)
Definition track_max (state : t500rs_effect_state) (max_count : Z) : Z :=
  if count state >? ulong max_count then int32 (count state) else max_count.

(** The for loop: [effect_id] runs up to T500RS_MAX_EFFECTS,
    [remaining] counts the rounds left. The slot is written back before
    an early return, as the C code works on [&t500rs->states[effect_id]]. *)
Fixpoint timer_loop (jiffies_now : Z) (remaining effect_id : nat)
    (max_count : Z) (t : t500rs_device_entry) : M (Z * t500rs_device_entry) :=
  match remaining with
  | O => ret_ (max_count, t)
  | S remaining' =>
      match states t !! effect_id with
      | None => timer_loop jiffies_now remaining' (S effect_id) max_count t
      | Some state =>
          rs <- timer_slot jiffies_now state ;;
          let t' := {| states := <[effect_id := snd rs]> (states t);
                       hrtimer_active := hrtimer_active t |} in
          match fst rs with
          | Some ret => ret_ (ret, t')
          | None =>
              timer_loop jiffies_now remaining' (S effect_id)
                (track_max (snd rs) max_count) t'
          end
      end
  end.

(** [jiffies_now] is JIFFIES2MS(jiffies) read at the start of the pass. *)
Definition t500rs_timer_helper (jiffies_now : Z) (t : t500rs_device_entry)
    : M (Z * t500rs_device_entry) :=
  timer_loop jiffies_now T500RS_MAX_EFFECTS 0 0 t.

(** ** Entry points

    [found] is the outcome of t500rs_get_device at the start of the
    entry point. *)

Definition upload_slot (effect_ : ff_effect) (old_ : option ff_effect)
    (state : t500rs_effect_state) : t500rs_effect_state :=
  let f :=
    match old_ with
    | Some _ => __set_bit FF_EFFECT_QUEUE_UPDATE (flags state)
    | None => __clear_bit FF_EFFECT_QUEUE_UPDATE (flags state)
    end in
  {| effect := effect_;
     old := match old_ with Some o => o | None => old state end;
     flags := __set_bit FF_EFFECT_QUEUE_UPLOAD f;
     start_time := start_time state;
     count := count state;
     combined := combined state |}.

(** [effect->id] indexes [states]; the input layer hands out ids below
    T500RS_MAX_EFFECTS. *)
Definition t500rs_upload (found : bool) (effect_ : ff_effect)
    (old_ : option ff_effect) (t : t500rs_device_entry)
    : Z * t500rs_device_entry :=
  if negb found then (-1, t) else
  if (ff_type effect_ =? FF_PERIODIC) && (period (u_periodic effect_) =? 0)
  then (- EINVAL, t) else
  (0, {| states := alter (upload_slot effect_ old_)
                     (Z.to_nat (ff_id effect_)) (states t);
         hrtimer_active := hrtimer_active t |}).

Definition play_slot (jiffies_now : Z) (value : Z)
    (state : t500rs_effect_state) : t500rs_effect_state :=
  if value >? 0 then
    let state := with_start_time jiffies_now (with_count value state) in
    let f := __set_bit FF_EFFECT_QUEUE_START (flags state) in
    with_flags (if test_bit FF_EFFECT_QUEUE_STOP f
                then __clear_bit FF_EFFECT_QUEUE_STOP f else f) state
  else with_flags (__set_bit FF_EFFECT_QUEUE_STOP (flags state)) state.

(** The test [&state->effect == 0] of the source never holds. The
    timer is started when it is not active, so it is active when the
    entry point returns. *)
Definition t500rs_play (found : bool) (jiffies_now : Z) (effect_id : nat)
    (value : Z) (t : t500rs_device_entry) : Z * t500rs_device_entry :=
  if negb found then (-1, t) else
  (0, {| states := alter (play_slot jiffies_now value) effect_id (states t);
         hrtimer_active := true |}).

End Driver.

(** ** Concrete data

    An instance of [protocol] and some slots, to run the definitions
    on. The numbers given to the constants no source file defines are
    arbitrary. *)

Definition sample_protocol : protocol :=
  {| T500RS_CMD_UPDATE := 0x02;
     T500RS_CMD_PLAY := 0x41;
     T500RS_CMD_STOP := 0x41;
     T500RS_CMD_SET_RAMP := 0x04;
     T500RS_WEIGHT_UPDATE := 0x10;
     t500rs_cmd_header := [0x60; 0x00];
     duration_params := fun state =>
       [0x49; 0x00;
        Z.land (replay_length (replay (effect state))) 0xff;
        Z.shiftr (replay_length (replay (effect state))) 8] |}.

Definition no_envelope : ff_envelope :=
  {| attack_length := 0; attack_level := 0; fade_length := 0; fade_level := 0 |}.

(** An all-zero [ff_effect] with the given type, id and replay length. *)
Definition plain_effect (type id length : Z) : ff_effect :=
  {| ff_type := type; ff_id := id;
     replay := {| replay_length := length; replay_delay := 0 |};
     u_constant := {| constant_level := 0; constant_envelope := no_envelope |};
     u_ramp := {| start_level := 0; end_level := 0; ramp_envelope := no_envelope |};
     u_periodic := {| waveform := 0; period := 0; magnitude := 0 |};
     u_condition0 :=
       {| right_saturation := 0; left_saturation := 0; right_coeff := 0;
          left_coeff := 0; deadband := 0; center := 0 |} |}.

Definition constant_effect (id level length : Z) : ff_effect :=
  {| ff_type := FF_CONSTANT; ff_id := id;
     replay := {| replay_length := length; replay_delay := 0 |};
     u_constant := {| constant_level := level; constant_envelope := no_envelope |};
     u_ramp := u_ramp (plain_effect 0 0 0);
     u_periodic := u_periodic (plain_effect 0 0 0);
     u_condition0 := u_condition0 (plain_effect 0 0 0) |}.

(** A slot as kzalloc leaves it. *)
Definition zero_state : t500rs_effect_state :=
  {| effect := plain_effect 0 0 0; old := plain_effect 0 0 0; flags := 0;
     start_time := 0; count := 0; combined := None |}.

Definition slot_of (e : ff_effect) (f start n : Z) : t500rs_effect_state :=
  {| effect := e; old := plain_effect 0 0 0; flags := f;
     start_time := start; count := n; combined := None |}.

(** A device whose slot 0 is [s], the others zeroed. *)
Definition device_with (s : t500rs_effect_state) : t500rs_device_entry :=
  {| states := s :: replicate 15 zero_state; hrtimer_active := true |}.

Definition quiet : transport :=
  {| script := []; requests := []; delivered := [] |}.

(** The next kzalloc fails. *)
Definition out_of_memory : transport :=
  {| script := [{| kzalloc_ok := false; device_found := true; transfer_ok := true |}];
     requests := []; delivered := [] |}.

Definition bit (nr : Z) : Z := Z.shiftl 1 nr.

(** Two constituents, static weights. *)
Definition static_pair : t500rs_combined_effect :=
  {| num_effects := 2;
     effect_ids := [1; 2] ++ replicate 14 0;
     weights := [10; 20] ++ replicate 14 0;
     dynamic_weights := false;
     min_weights := replicate 16 0;
     max_weights := replicate 16 255 |}.

(** Two constituents, dynamic weights, bounds [0x10, 0xf0]. *)
Definition dynamic_pair : t500rs_combined_effect :=
  {| num_effects := 2;
     effect_ids := [1; 2] ++ replicate 14 0;
     weights := [0x20; 0x30] ++ replicate 14 0;
     dynamic_weights := true;
     min_weights := replicate 16 0x10;
     max_weights := replicate 16 0xf0 |}.

(** One constituent more than the maximum. *)
Definition oversized : t500rs_combined_effect :=
  {| num_effects := 17;
     effect_ids := replicate 16 1;
     weights := replicate 16 1;
     dynamic_weights := false;
     min_weights := replicate 16 0;
     max_weights := replicate 16 255 |}.

Definition combined_slot (c : t500rs_combined_effect) : t500rs_effect_state :=
  with_combined (Some c) zero_state.

(** The pass of the timer run once per entry of [nows]; the values the
    passes returned, oldest first, and the device they leave. *)
Fixpoint ticks (P : protocol) (nows : list Z) (t : t500rs_device_entry)
    : M (list Z * t500rs_device_entry) :=
  match nows with
  | [] => ret_ ([], t)
  | jiffies_now :: later =>
      r <- t500rs_timer_helper P jiffies_now t ;;
      rest <- ticks P later (snd r) ;;
      ret_ (fst r :: fst rest, snd rest)
  end.

(** [requests] only grows. *)
Definition extends (h h' : transport) : Prop :=
  exists l, requests h' = requests h ++ l.

(** ** Specifications of the send pipelines

    [framed pre R post m]: started on a transport that satisfies [pre],
    [m] returns a value that satisfies [post] and leaves a transport
    that satisfies [pre] again and is related to the first by [R]. *)
Definition framed (pre : transport -> Prop) (R : transport -> transport -> Prop)
    {A} (post : A -> Prop) (m : M A) : Prop :=
  forall h, pre h -> post (fst (m h)) /\ pre (snd (m h)) /\ R h (snd (m h)).

Definition good_flow (good : Z -> Prop) (f : flow) : Prop :=
  match f with Return ret => good ret | Break ret => good ret end.

(** A block that returns from the pass returns a [good] value other
    than 0. *)
Definition early (good : Z -> Prop) (rs : option Z * t500rs_effect_state) : Prop :=
  forall ret, fst rs = Some ret -> good ret /\ ret <> 0.

(** The flags of a slot after the upload, start and stop blocks of the
    pass, when none of them returns. *)
Definition settle (f : Z) : Z :=
  let f := if test_bit FF_EFFECT_QUEUE_UPLOAD f
           then __clear_bit FF_EFFECT_QUEUE_UPLOAD f else f in
  let f := if test_bit FF_EFFECT_QUEUE_START f
           then __set_bit FF_EFFECT_PLAYING (__clear_bit FF_EFFECT_QUEUE_START f)
           else f in
  if test_bit FF_EFFECT_QUEUE_STOP f
  then __clear_bit FF_EFFECT_PLAYING (__clear_bit FF_EFFECT_QUEUE_STOP f)
  else f.

(** The slot a pass leaves behind when the blocks for it all ran to
    the end. *)
Definition pass_slot (jiffies_now : Z) (state : t500rs_effect_state)
    : t500rs_effect_state :=
  with_flags (settle (flags (expire jiffies_now state))) (expire jiffies_now state).

(** The duration of the slot has run out at [jiffies_now]. *)
Definition elapsed (state : t500rs_effect_state) (jiffies_now : Z) : Prop :=
  replay_length (replay (effect state)) <= ulong (jiffies_now - start_time state).

(** The bytes the packing loop writes for constituent [i], and the
    eight bytes before them. *)
Definition entry_bytes (c : t500rs_combined_effect) (i : nat) : list Z :=
  [u8 (rd (effect_ids c) i); u8 (rd (weights c) i);
   if dynamic_weights c
   then u8 (Z.lor (Z.land (rd (min_weights c) i) 0xF0)
                  (Z.land (Z.shiftr (rd (max_weights c) i) 4) 0x0F))
   else 0].

Definition combined_header (c : t500rs_combined_effect) : list Z :=
  [T500RS_EFFECT_COMBINE; 0x00; 0x00; 0x00; 0x05; 0x0e;
   u8 (num_effects c); if dynamic_weights c then 0x01 else 0x00].

(** What is known of a slot that is being played out, [r] passes
    before its repeat count is used up. *)
Definition playing_out (r : Z) (state : t500rs_effect_state) : Prop :=
  (test_bit FF_EFFECT_PLAYING (flags state) = true ->
   count state = r /\ 0 < r
   /\ (test_bit FF_EFFECT_QUEUE_START (flags state) = false \/ 2 <= r))
  /\ (test_bit FF_EFFECT_PLAYING (flags state) = false ->
      test_bit FF_EFFECT_QUEUE_START (flags state) = false).

(** ** The timer callback *)

Inductive hrtimer_restart := HRTIMER_NORESTART | HRTIMER_RESTART.

(** [t500rs_timer]: the pass, and the decision to run again. A timer
    whose callback returns HRTIMER_NORESTART is no longer active. *)
Definition t500rs_timer (P : protocol) (jiffies_now : Z)
    (t : t500rs_device_entry) : M (hrtimer_restart * t500rs_device_entry) :=
  r <- t500rs_timer_helper P jiffies_now t ;;
  let max_count := fst r in
  if max_count >? 0
  then ret_ (HRTIMER_RESTART,
             {| states := states (snd r); hrtimer_active := true |})
  else ret_ (HRTIMER_NORESTART,
             {| states := states (snd r); hrtimer_active := false |}).

(** ** The sysfs attributes

    The three global levels. [ret] and [value] are what kstrtouint
    returns and stores for the text written to the attribute. *)
Record levels := {
  spring_level : Z;
  damper_level : Z;
  friction_level : Z
}.

Definition spring_level_store (ret value count : Z) (g : levels) : Z * levels :=
  if nonzero ret then (ret, g) else
  let value := if value >? 100 then 100 else value in
  (count, {| spring_level := value; damper_level := damper_level g;
             friction_level := friction_level g |}).

Definition damper_level_store (ret value count : Z) (g : levels) : Z * levels :=
  if nonzero ret then (ret, g) else
  let value := if value >? 100 then 100 else value in
  (count, {| spring_level := spring_level g; damper_level := value;
             friction_level := friction_level g |}).

Definition friction_level_store (ret value count : Z) (g : levels) : Z * levels :=
  if nonzero ret then (ret, g) else
  let value := if value >? 100 then 100 else value in
  (count, {| spring_level := spring_level g; damper_level := damper_level g;
             friction_level := value |}).

(** The fields of the device entry that [range_store] works on:
    [range] (a u16) and the T500RS_BUFFER_LENGTH bytes of
    [send_buffer]. *)
Record t500rs_wheel := {
  range : Z;
  send_buffer : list Z
}.

Definition uint (x : Z) : Z := x mod 2 ^ 32.
Definition u16 (x : Z) : Z := x mod 2 ^ 16.

(** [if (range < 40) range = 40; if (range > 1080) range = 1080;] *)
Definition clamp_range (range : Z) : Z :=
  let range := if range <? 40 then 40 else range in
  if range >? 1080 then 1080 else range.

(** [range_store]. [ret] and [value] come from kstrtouint, [found] from
    t500rs_get_device. [t500rs_send_int] clears the buffer when it has
    made its request; when it fails the bytes written stay in it. *)
Definition range_store (ret value : Z) (found : bool) (count : Z)
    (w : t500rs_wheel) : M (Z * t500rs_wheel) :=
  if nonzero ret then ret_ (ret, w) else
  if negb found then ret_ (-1, w) else
  let range_ := uint (clamp_range value * 0x3c) in
  let buf :=
    <[3%nat := u8 (Z.shiftr range_ 8)]>
      (<[2%nat := u8 (Z.land range_ 0xff)]>
         (<[1%nat := 0x11]> (<[0%nat := 0x08]> (send_buffer w)))) in
  a <- next_attempt ;;
  ret <- t500rs_send_int a buf ;;
  if nonzero ret
  then ret_ (-1, {| range := range w; send_buffer := buf |})
  else ret_ (count,
             {| range := u16 (range_ / 0x3c);
                send_buffer := replicate T500RS_BUFFER_LENGTH 0
                               ++ drop T500RS_BUFFER_LENGTH buf |}).

(** A write to one of the three level attributes, with the outcome of
    kstrtouint for its text, and a run of such writes on the globals. *)
Inductive level_write :=
  | WriteSpring (ret value : Z)
  | WriteDamper (ret value : Z)
  | WriteFriction (ret value : Z).

Definition level_store (wr : level_write) (count : Z) (g : levels) : Z * levels :=
  match wr with
  | WriteSpring ret value => spring_level_store ret value count g
  | WriteDamper ret value => damper_level_store ret value count g
  | WriteFriction ret value => friction_level_store ret value count g
  end.

Definition level_stores (wrs : list level_write) (g : levels) : levels :=
  fold_left (fun g wr => snd (level_store wr 1 g)) wrs g.

Definition levels_capped (g : levels) : Prop :=
  spring_level g <= 100 /\ damper_level g <= 100 /\ friction_level g <= 100.

(** ** Vocabulary of the further properties *)

(** What the timer pass may do to a slot: it keeps the descriptors, the
    start time and the combined record, it leaves the repeat count or
    takes one off it, and it sets none of the flags that only the entry
    points queue. *)
Definition only_consumes (s s' : t500rs_effect_state) : Prop :=
  effect s' = effect s /\ old s' = old s
  /\ start_time s' = start_time s /\ combined s' = combined s
  /\ (count s' = count s \/ count s <> 0 /\ count s' = count s - 1)
  /\ (test_bit FF_EFFECT_QUEUE_UPLOAD (flags s') = true ->
      test_bit FF_EFFECT_QUEUE_UPLOAD (flags s) = true)
  /\ (test_bit FF_EFFECT_QUEUE_STOP (flags s') = true ->
      test_bit FF_EFFECT_QUEUE_STOP (flags s) = true)
  /\ (test_bit FF_EFFECT_QUEUE_UPDATE (flags s') = true ->
      test_bit FF_EFFECT_QUEUE_UPDATE (flags s) = true).

(** Nothing queued and nothing playing. *)
Definition idle (s : t500rs_effect_state) : Prop :=
  test_bit FF_EFFECT_QUEUE_UPLOAD (flags s) = false
  /\ test_bit FF_EFFECT_QUEUE_START (flags s) = false
  /\ test_bit FF_EFFECT_QUEUE_STOP (flags s) = false
  /\ test_bit FF_EFFECT_PLAYING (flags s) = false.

(** A repeat count as [t500rs_play] stores it: a positive int, or 0. *)
Definition count_in_range (s : t500rs_effect_state) : Prop :=
  0 <= count s < 2 ^ 31.

(** The stored weights of the first [num_effects] constituents lie
    within their bounds, and the bounds are bytes. *)
Definition weights_bounded (c : t500rs_combined_effect) : Prop :=
  forall i, (i < Z.to_nat (num_effects c))%nat ->
    0 <= rd (min_weights c) i
    /\ rd (min_weights c) i <= rd (weights c) i <= rd (max_weights c) i
    /\ rd (max_weights c) i <= 255.

(** The three commands of [t500rs_upload_constant], in order. *)
Definition constant_commands (P : protocol) (state : t500rs_effect_state)
    : list (list Z) :=
  [t500rs_cmd_header P ++ envelope_params;
   t500rs_cmd_header P ++ constant_params state;
   t500rs_cmd_header P ++ upload_params T500RS_EFFECT_CONSTANT].

(** * Properties *)

(** ** Flag bits *)

Lemma test_set_bit nr m f :
  0 <= nr -> test_bit m (__set_bit nr f) = (nr =? m) || test_bit m f.
Proof. intros Hnr. unfold test_bit, __set_bit. now apply Z.setbit_eqb. Qed.

Lemma test_clear_bit nr m f :
  test_bit m (__clear_bit nr f) = test_bit m f && negb (nr =? m).
Proof. unfold test_bit, __clear_bit. apply Z.clearbit_eqb. Qed.

(** Rewrites every test of a flag after sets and clears into a boolean
    expression over the tests on the original word. *)
Ltac bits :=
  repeat first [ rewrite test_clear_bit
               | (rewrite test_set_bit by (vm_compute; discriminate)) ];
  change (FF_EFFECT_QUEUE_UPLOAD =? FF_EFFECT_QUEUE_UPLOAD) with true;
  change (FF_EFFECT_QUEUE_UPLOAD =? FF_EFFECT_QUEUE_START) with false;
  change (FF_EFFECT_QUEUE_UPLOAD =? FF_EFFECT_QUEUE_STOP) with false;
  change (FF_EFFECT_QUEUE_UPLOAD =? FF_EFFECT_PLAYING) with false;
  change (FF_EFFECT_QUEUE_UPLOAD =? FF_EFFECT_QUEUE_UPDATE) with false;
  change (FF_EFFECT_QUEUE_START =? FF_EFFECT_QUEUE_UPLOAD) with false;
  change (FF_EFFECT_QUEUE_START =? FF_EFFECT_QUEUE_START) with true;
  change (FF_EFFECT_QUEUE_START =? FF_EFFECT_QUEUE_STOP) with false;
  change (FF_EFFECT_QUEUE_START =? FF_EFFECT_PLAYING) with false;
  change (FF_EFFECT_QUEUE_START =? FF_EFFECT_QUEUE_UPDATE) with false;
  change (FF_EFFECT_QUEUE_STOP =? FF_EFFECT_QUEUE_UPLOAD) with false;
  change (FF_EFFECT_QUEUE_STOP =? FF_EFFECT_QUEUE_START) with false;
  change (FF_EFFECT_QUEUE_STOP =? FF_EFFECT_QUEUE_STOP) with true;
  change (FF_EFFECT_QUEUE_STOP =? FF_EFFECT_PLAYING) with false;
  change (FF_EFFECT_QUEUE_STOP =? FF_EFFECT_QUEUE_UPDATE) with false;
  change (FF_EFFECT_PLAYING =? FF_EFFECT_QUEUE_UPLOAD) with false;
  change (FF_EFFECT_PLAYING =? FF_EFFECT_QUEUE_START) with false;
  change (FF_EFFECT_PLAYING =? FF_EFFECT_QUEUE_STOP) with false;
  change (FF_EFFECT_PLAYING =? FF_EFFECT_PLAYING) with true;
  change (FF_EFFECT_PLAYING =? FF_EFFECT_QUEUE_UPDATE) with false;
  change (FF_EFFECT_QUEUE_UPDATE =? FF_EFFECT_QUEUE_UPLOAD) with false;
  change (FF_EFFECT_QUEUE_UPDATE =? FF_EFFECT_QUEUE_START) with false;
  change (FF_EFFECT_QUEUE_UPDATE =? FF_EFFECT_QUEUE_STOP) with false;
  change (FF_EFFECT_QUEUE_UPDATE =? FF_EFFECT_PLAYING) with false;
  change (FF_EFFECT_QUEUE_UPDATE =? FF_EFFECT_QUEUE_UPDATE) with true;
  cbn [orb andb negb];
  rewrite ?andb_true_r, ?andb_false_r, ?orb_false_r, ?orb_true_r.

(** ** The sender *)

Lemma nonzero_true x : nonzero x = true <-> x <> 0.
Proof. unfold nonzero. destruct (Z.eqb_spec x 0); cbn; split; intros; congruence. Qed.

Lemma nonzero_false x : nonzero x = false <-> x = 0.
Proof. unfold nonzero. destruct (Z.eqb_spec x 0); cbn; split; intros; congruence. Qed.

Lemma extends_refl h : extends h h.
Proof. exists []. now rewrite app_nil_r. Qed.

Lemma extends_trans a b c : extends a b -> extends b c -> extends a c.
Proof.
  intros [l1 H1] [l2 H2]. exists (l1 ++ l2).
  now rewrite H2, H1, app_assoc.
Qed.

Lemma next_attempt_requests h :
  requests (snd (next_attempt h)) = requests h.
Proof. unfold next_attempt. now destruct (script h). Qed.

Lemma next_attempt_script h :
  script h = [] /\ next_attempt h = (smooth, h)
  \/ script h = fst (next_attempt h) :: script (snd (next_attempt h)).
Proof. unfold next_attempt. destruct (script h); [left | right]; easy. Qed.

(** What one send does, by the attempt it meets. *)
Lemma send_effect_outcome P command_id params n h :
  let a := fst (next_attempt h) in
  let h1 := snd (next_attempt h) in
  let cmd := t500rs_cmd_header P ++ take n params in
  let r := t500rs_send_effect P command_id params n h in
  script (snd r) = script h1 /\
  (kzalloc_ok a = false /\ r = (- ENOMEM, h1)
   \/ kzalloc_ok a = true /\ device_found a = false /\ r = (-1, h1)
   \/ kzalloc_ok a = true /\ device_found a = true /\ fst r = 0
      /\ requests (snd r) = requests h ++ [cmd]).
Proof.
  cbn zeta. unfold t500rs_send_effect, bind, ret_, t500rs_send_int.
  pose proof (next_attempt_requests h) as Hreq.
  destruct (next_attempt h) as [a h1]. cbn [fst snd] in *.
  destruct (kzalloc_ok a), (device_found a); cbn [fst snd script requests];
    rewrite <- ?Hreq; intuition congruence.
Qed.

(** ** A frame for the send pipelines

    [pre] is what is assumed of the transport, [R] relates the transport
    before and after, [good] holds of the values returned. Whatever
    holds of one [t500rs_send_effect] in this sense holds of every
    encoder and of every block of the timer pass. *)
Section Frame.

Context (P : protocol).
Variable pre : transport -> Prop.
Variable R : transport -> transport -> Prop.
Variable good : Z -> Prop.

Hypothesis R_refl : forall h, R h h.
Hypothesis R_trans : forall a b c, R a b -> R b c -> R a c.
Hypothesis good_EINVAL : good (- EINVAL).

Hypothesis send_framed : forall command_id params n,
  framed pre R good (t500rs_send_effect P command_id params n).

#[local] Abbreviation framed := (framed pre R).
#[local] Abbreviation good_flow := (good_flow good).
#[local] Abbreviation early := (early good).

Lemma framed_ret {A} (post : A -> Prop) a : post a -> framed post (ret_ a).
Proof. intros Ha h Hh. cbn. auto. Qed.

Lemma framed_bind {A B} (mid : A -> Prop) (post : B -> Prop) m k :
  framed mid m -> (forall a, mid a -> framed post (k a)) ->
  framed post (bind m k).
Proof.
  intros Hm Hk h Hh. unfold bind.
  destruct (Hm h Hh) as (Ha & Hpre & HR).
  destruct (m h) as [a h1]. cbn [fst snd] in *.
  destruct (Hk a Ha h1 Hpre) as (Hb & Hpre' & HR').
  eauto.
Qed.

Lemma framed_weaken {A} (p q : A -> Prop) m :
  (forall a, p a -> q a) -> framed p m -> framed q m.
Proof. intros Hpq Hm h Hh. destruct (Hm h Hh) as (? & ? & ?). auto. Qed.

Ltac frame_step :=
  match goal with
  | |- framed _ (ret_ _) => apply framed_ret; auto
  | |- framed _ (t500rs_send_effect _ _ _ _) => apply send_framed
  | |- framed _ (bind _ _) =>
      eapply framed_bind; [ | intros ? ? ]
  | |- framed _ (if ?b then _ else _) => destruct b eqn:?
  | |- framed _ (match ?o with Some _ => _ | None => _ end) => destruct o eqn:?
  end.

Lemma framed_upload_constant state : framed good (t500rs_upload_constant P state).
Proof. unfold t500rs_upload_constant. repeat frame_step. Qed.

Lemma framed_upload_ramp state : framed good (t500rs_upload_ramp P state).
Proof. unfold t500rs_upload_ramp. repeat frame_step. Qed.

Lemma framed_upload_periodic state : framed good (t500rs_upload_periodic P state).
Proof. unfold t500rs_upload_periodic. repeat frame_step. Qed.

Lemma framed_upload_condition state ty :
  framed good (t500rs_upload_condition P state ty).
Proof. unfold t500rs_upload_condition. repeat frame_step. Qed.

Lemma framed_upload_envelope state : framed good (t500rs_upload_envelope P state).
Proof. unfold t500rs_upload_envelope. repeat frame_step. Qed.

Lemma framed_upload_combined state : framed good (t500rs_upload_combined P state).
Proof. unfold t500rs_upload_combined. repeat frame_step. Qed.

Lemma framed_upload_switch state : framed good_flow (upload_switch P state).
Proof.
  unfold upload_switch, t500rs_upload_condition_extended, t500rs_upload_inertia.
  repeat first
    [ apply framed_upload_constant | apply framed_upload_ramp
    | apply framed_upload_periodic | apply framed_upload_condition
    | apply framed_upload_envelope | frame_step ].
Qed.

Lemma framed_upload_effect state : framed good (t500rs_upload_effect P state).
Proof.
  unfold t500rs_upload_effect, t500rs_modify_duration.
  destruct (combined state); [apply framed_upload_combined |].
  eapply framed_bind; [apply framed_upload_switch |].
  intros [ret | ret] Hf; cbn in Hf; repeat frame_step.
Qed.

Lemma framed_then_stage (a b : stage) state :
  (forall s, framed early (a s)) -> (forall s, framed early (b s)) ->
  framed early (then_stage a b state).
Proof.
  intros Ha Hb h Hh. unfold then_stage.
  destruct (Ha state h Hh) as (He & Hpre & HR).
  destruct (a state h) as [[r s1] h1]. cbn [fst snd] in *.
  destruct r as [ret |]; [auto |].
  destruct (Hb s1 h1 Hpre) as (He' & Hpre' & HR'). eauto.
Qed.

Ltac early_tac :=
  intros ? Heq; cbn in Heq; try discriminate;
  injection Heq as <-; (split; [assumption | now apply nonzero_true]).

Lemma framed_stage_upload state : framed early (stage_upload P state).
Proof.
  unfold stage_upload. destruct (test_bit _ _).
  - eapply framed_bind; [apply framed_upload_effect |].
    intros ret Hret. destruct (nonzero ret) eqn:Hnz;
      apply framed_ret; early_tac.
  - apply framed_ret; early_tac.
Qed.

Lemma framed_stage_start state : framed early (stage_start P state).
Proof.
  unfold stage_start, t500rs_play_effect. destruct (test_bit _ _).
  - eapply framed_bind; [apply send_framed |].
    intros ret Hret. destruct (nonzero ret) eqn:Hnz;
      apply framed_ret; early_tac.
  - apply framed_ret; early_tac.
Qed.

Lemma framed_stage_stop state : framed early (stage_stop P state).
Proof.
  unfold stage_stop, t500rs_stop_effect. destruct (test_bit _ _).
  - eapply framed_bind; [apply send_framed |].
    intros ret Hret. destruct (nonzero ret) eqn:Hnz;
      apply framed_ret; early_tac.
  - apply framed_ret; early_tac.
Qed.

Lemma framed_timer_slot now state : framed early (timer_slot P now state).
Proof.
  unfold timer_slot.
  apply framed_then_stage; [intros s; apply framed_ret; early_tac |].
  intros s1. apply framed_then_stage; [apply framed_stage_upload |].
  intros s2. apply framed_then_stage;
    [apply framed_stage_start | apply framed_stage_stop].
Qed.

End Frame.

(** ** Two instances of the frame *)

(** Whatever the transport does, a send returns 0 or a negative value
    and only appends to [requests]. *)
Lemma send_effect_nonpos P command_id params n :
  framed (fun _ => True) extends (fun r => r <= 0)
    (t500rs_send_effect P command_id params n).
Proof.
  intros h _.
  pose proof (send_effect_outcome P command_id params n h) as H. cbn zeta in H.
  destruct H as (_ & [(_ & ->) | [(_ & _ & ->) | (_ & _ & Hr & Hreq)]]);
    cbn [fst snd].
  - repeat split; [unfold ENOMEM; lia |].
    exists []. now rewrite next_attempt_requests, app_nil_r.
  - repeat split; [lia |].
    exists []. now rewrite next_attempt_requests, app_nil_r.
  - repeat split; [lia |]. eexists. exact Hreq.
Qed.

(** With a device that is always found, a send returns 0 or -ENOMEM. *)
Lemma send_effect_found P command_id params n :
  framed all_found (fun _ _ => True)
    (fun r => r = 0 \/ r = - ENOMEM \/ r = - EINVAL)
    (t500rs_send_effect P command_id params n).
Proof.
  intros h Hh.
  pose proof (send_effect_outcome P command_id params n h) as H. cbn zeta in H.
  destruct H as (Hs & Hcases).
  assert (all_found (snd (next_attempt h)) /\ device_found (fst (next_attempt h)) = true)
    as [Hinv Hfound].
  { unfold all_found in *.
    destruct (next_attempt_script h) as [[_ ->] | Hcons]; [now split |].
    rewrite Hcons in Hh. inversion Hh; subst. now split. }
  split; [| split; [| exact I]].
  - destruct Hcases as [(_ & ->) | [(_ & Hnf & _) | (_ & _ & Hr & _)]]; cbn; auto.
    congruence.
  - unfold all_found in *. now rewrite Hs.
Qed.

Lemma timer_slot_early_negative P now state h ret :
  fst (fst (timer_slot P now state h)) = Some ret -> ret < 0.
Proof.
  intros H.
  destruct (framed_timer_slot P (fun _ => True) extends (fun r => r <= 0)
              extends_refl extends_trans ltac:(unfold EINVAL; lia)
              (send_effect_nonpos P) now state h I) as (He & _ & _).
  destruct (He ret H). lia.
Qed.

(** ** The blocks of the pass, one by one *)

Lemma with_flags_same s : with_flags (flags s) s = s.
Proof. now destruct s. Qed.

Lemma then_stage_done (a b : stage) s h s' h' :
  then_stage a b s h = ((None, s'), h') ->
  exists s1 h1, a s h = ((None, s1), h1) /\ b s1 h1 = ((None, s'), h').
Proof.
  unfold then_stage. destruct (a s h) as [[[ret |] s1] h1]; [discriminate |].
  intros H. eauto.
Qed.

Lemma stage_upload_done P s h s' h' :
  stage_upload P s h = ((None, s'), h') ->
  s' = with_flags (if test_bit FF_EFFECT_QUEUE_UPLOAD (flags s)
                   then __clear_bit FF_EFFECT_QUEUE_UPLOAD (flags s)
                   else flags s) s
  /\ extends h h'.
Proof.
  unfold stage_upload. destruct (test_bit _ _).
  - unfold bind, ret_. set (s1 := with_flags _ s).
    pose proof (framed_upload_effect P (fun _ => True) extends (fun r => r <= 0)
                  extends_refl extends_trans ltac:(unfold EINVAL; lia)
                  (send_effect_nonpos P) s1 h I) as (_ & _ & Hext).
    destruct (t500rs_upload_effect P s1 h) as [ret h1].
    destruct (nonzero ret); intros [= <- <-]; auto.
  - unfold ret_. intros [= <- <-]. rewrite with_flags_same.
    split; [reflexivity | apply extends_refl].
Qed.

(** A send that returned 0 has put its command on [requests]. *)
Lemma send_effect_zero P command_id params n h :
  nonzero (fst (t500rs_send_effect P command_id params n h)) = false ->
  requests (snd (t500rs_send_effect P command_id params n h))
  = requests h ++ [t500rs_cmd_header P ++ take n params].
Proof.
  intros Hz. apply nonzero_false in Hz.
  pose proof (send_effect_outcome P command_id params n h) as H. cbn zeta in H.
  destruct H as (_ & [(_ & Hr) | [(_ & _ & Hr) | (_ & _ & _ & Hreq)]]);
    [rewrite Hr in Hz; discriminate Hz .. | exact Hreq].
Qed.

Lemma stage_start_done P s h s' h' :
  stage_start P s h = ((None, s'), h') ->
  s' = with_flags (if test_bit FF_EFFECT_QUEUE_START (flags s)
                   then __set_bit FF_EFFECT_PLAYING
                          (__clear_bit FF_EFFECT_QUEUE_START (flags s))
                   else flags s) s
  /\ (if test_bit FF_EFFECT_QUEUE_START (flags s)
      then requests h' = requests h ++ [t500rs_cmd_header P ++ play_params P]
      else h' = h).
Proof.
  unfold stage_start, t500rs_play_effect. destruct (test_bit _ _).
  - unfold bind, ret_.
    pose proof (send_effect_zero P (T500RS_CMD_PLAY P) (play_params P) 8 h) as Hz.
    destruct (t500rs_send_effect _ _ _ _ h) as [ret h1]. cbn [fst snd] in Hz.
    destruct (nonzero ret); intros [= <- <-]. auto.
  - unfold ret_. intros [= <- <-]. now rewrite with_flags_same.
Qed.

Lemma stage_stop_done P s h s' h' :
  stage_stop P s h = ((None, s'), h') ->
  s' = with_flags (if test_bit FF_EFFECT_QUEUE_STOP (flags s)
                   then __clear_bit FF_EFFECT_PLAYING
                          (__clear_bit FF_EFFECT_QUEUE_STOP (flags s))
                   else flags s) s
  /\ (if test_bit FF_EFFECT_QUEUE_STOP (flags s)
      then requests h' = requests h ++ [t500rs_cmd_header P ++ stop_params P]
      else h' = h).
Proof.
  unfold stage_stop, t500rs_stop_effect. destruct (test_bit _ _).
  - unfold bind, ret_.
    pose proof (send_effect_zero P (T500RS_CMD_STOP P) (stop_params P) 8 h) as Hz.
    destruct (t500rs_send_effect _ _ _ _ h) as [ret h1]. cbn [fst snd] in Hz.
    destruct (nonzero ret); intros [= <- <-]. auto.
  - unfold ret_. intros [= <- <-]. now rewrite with_flags_same.
Qed.

Lemma extends_of_if (b : bool) h h' x :
  (if b then requests h' = requests h ++ [x] else h' = h) -> extends h h'.
Proof.
  destruct b; [intros H; eexists; exact H | intros ->; apply extends_refl].
Qed.

(** A slot whose blocks all ran to the end: its flags are settled, and
    a queued start has put the play command on [requests]. *)
Lemma timer_slot_done P now s h s' h' :
  timer_slot P now s h = ((None, s'), h') ->
  s' = with_flags (settle (flags (expire now s))) (expire now s)
  /\ extends h h'
  /\ (test_bit FF_EFFECT_QUEUE_START (flags (expire now s)) = true ->
      exists h1 h2, extends h h1 /\ extends h2 h' /\
        requests h2 = requests h1 ++ [t500rs_cmd_header P ++ play_params P]).
Proof.
  unfold timer_slot. intros H.
  apply then_stage_done in H as (e & h0 & He & H).
  unfold stage_expire, ret_ in He. injection He as <- <-.
  apply then_stage_done in H as (s1 & h1 & Hup & H).
  apply then_stage_done in H as (s2 & h2 & Hstart & Hstop).
  apply stage_upload_done in Hup as (-> & Hext1).
  apply stage_start_done in Hstart as (-> & Hplay).
  apply stage_stop_done in Hstop as (-> & Hstopped).
  cbn [flags with_flags] in *.
  split; [reflexivity |].
  pose proof (extends_of_if _ _ _ _ Hplay) as Hext2.
  pose proof (extends_of_if _ _ _ _ Hstopped) as Hext3.
  split; [eauto using extends_trans |].
  intros Hq. exists h1, h2. repeat split; auto.
  assert (test_bit FF_EFFECT_QUEUE_START
            (if test_bit FF_EFFECT_QUEUE_UPLOAD (flags (expire now s))
             then __clear_bit FF_EFFECT_QUEUE_UPLOAD (flags (expire now s))
             else flags (expire now s)) = true) as Hq'.
  { destruct (test_bit FF_EFFECT_QUEUE_UPLOAD _); [bits |]; exact Hq. }
  now rewrite Hq' in Hplay.
Qed.

(** ** Flags after a pass *)

Ltac split_tests f :=
  repeat (bits;
          match goal with
          | |- context [if test_bit ?b f then _ else _] =>
              destruct (test_bit b f) eqn:?
          end).

Lemma settle_bits f :
  test_bit FF_EFFECT_QUEUE_UPLOAD (settle f) = false
  /\ test_bit FF_EFFECT_QUEUE_START (settle f) = false
  /\ test_bit FF_EFFECT_QUEUE_STOP (settle f) = false
  /\ test_bit FF_EFFECT_PLAYING (settle f)
     = (test_bit FF_EFFECT_QUEUE_START f || test_bit FF_EFFECT_PLAYING f)
       && negb (test_bit FF_EFFECT_QUEUE_STOP f).
Proof.
  unfold settle; cbn zeta. split_tests f; bits;
    repeat match goal with H : test_bit _ f = _ |- _ => rewrite H; clear H end;
    cbn; auto.
Qed.

Lemma expire_fields now s :
  effect (expire now s) = effect s /\ old (expire now s) = old s
  /\ start_time (expire now s) = start_time s
  /\ combined (expire now s) = combined s.
Proof.
  unfold expire; cbn zeta.
  repeat match goal with
         | |- context [if ?b then _ else _] => destruct b
         end; cbn; auto.
Qed.

(** The expiry block leaves the queue flags of the entry points alone
    and never takes a queued start away. *)
Lemma expire_bits now s :
  test_bit FF_EFFECT_QUEUE_UPLOAD (flags (expire now s))
  = test_bit FF_EFFECT_QUEUE_UPLOAD (flags s)
  /\ test_bit FF_EFFECT_QUEUE_STOP (flags (expire now s))
     = test_bit FF_EFFECT_QUEUE_STOP (flags s)
  /\ (test_bit FF_EFFECT_QUEUE_START (flags s) = true ->
      test_bit FF_EFFECT_QUEUE_START (flags (expire now s)) = true).
Proof.
  unfold expire; cbn zeta.
  repeat match goal with
         | |- context [if ?b then _ else _] => destruct b
         end; cbn; bits; auto.
Qed.

Lemma pass_slot_fields now s :
  effect (pass_slot now s) = effect s /\ old (pass_slot now s) = old s
  /\ start_time (pass_slot now s) = start_time s
  /\ combined (pass_slot now s) = combined s.
Proof. unfold pass_slot. cbn. apply expire_fields. Qed.

(** ** The pass over the table *)

Lemma timer_loop_done P now n : forall i mc t h r t' h',
  timer_loop P now n i mc t h = ((r, t'), h') -> 0 <= r ->
  extends h h'
  /\ (forall j, (j < i)%nat -> states t' !! j = states t !! j)
  /\ (forall j s, (i <= j < i + n)%nat -> states t !! j = Some s ->
        states t' !! j = Some (pass_slot now s)
        /\ (test_bit FF_EFFECT_QUEUE_START (flags (expire now s)) = true ->
            exists h1 h2, extends h h1 /\ extends h2 h' /\
              requests h2 = requests h1 ++ [t500rs_cmd_header P ++ play_params P])).
Proof.
  induction n as [| n IH]; intros i mc t h r t' h' H Hr.
  - cbn in H. injection H as <- <- <-.
    split; [apply extends_refl |]. split; [reflexivity |]. intros; lia.
  - cbn [timer_loop] in H. destruct (states t !! i) as [si |] eqn:Hi.
    + unfold bind in H.
      destruct (timer_slot P now si h) as [[r0 s'] h1] eqn:Hslot.
      cbn [fst snd] in H. destruct r0 as [ret |].
      * injection H as <- <- <-.
        pose proof (timer_slot_early_negative P now si h ret) as Hneg.
        rewrite Hslot in Hneg. specialize (Hneg eq_refl). lia.
      * apply IH in H as (Hext & Hlow & Hhigh); [| exact Hr].
        cbn [states] in Hlow, Hhigh.
        apply timer_slot_done in Hslot as (-> & Hext1 & Hplay).
        fold (pass_slot now si) in *.
        split; [eauto using extends_trans |]. split.
        -- intros j Hj. rewrite Hlow by lia.
           apply list_lookup_insert_ne. lia.
        -- intros j s Hj Hs. destruct (decide (j = i)) as [-> | Hne].
           ++ assert (s = si) as -> by congruence.
              split.
              ** rewrite Hlow by lia. apply list_lookup_insert_eq.
                 eapply lookup_lt_Some; eauto.
              ** intros Hq. destruct (Hplay Hq) as (h2 & h3 & ? & ? & ?).
                 exists h2, h3. eauto using extends_trans.
           ++ destruct (Hhigh j s) as (Hj' & Hplay'); [lia | |].
              { rewrite list_lookup_insert_ne by lia. exact Hs. }
              split; [exact Hj' |].
              intros Hq. destruct (Hplay' Hq) as (h2 & h3 & ? & ? & ?).
              exists h2, h3. eauto using extends_trans.
    + apply IH in H as (Hext & Hlow & Hhigh); [| exact Hr].
      split; [exact Hext |]. split; [intros j Hj; apply Hlow; lia |].
      intros j s Hj Hs. destruct (decide (j = i)) as [-> | Hne]; [congruence |].
      apply Hhigh; [lia | exact Hs].
Qed.

(** A pass that returns no error has run every block of every slot. *)
Lemma timer_helper_done P now t h r t' h' j s :
  t500rs_timer_helper P now t h = ((r, t'), h') -> 0 <= r ->
  (j < T500RS_MAX_EFFECTS)%nat -> states t !! j = Some s ->
  states t' !! j = Some (pass_slot now s)
  /\ (test_bit FF_EFFECT_QUEUE_START (flags (expire now s)) = true ->
      exists h1 h2, extends h h1 /\ extends h2 h' /\
        requests h2 = requests h1 ++ [t500rs_cmd_header P ++ play_params P]).
Proof.
  unfold t500rs_timer_helper. intros H Hr Hj Hs.
  apply timer_loop_done in H as (_ & _ & Hhigh); [| exact Hr].
  apply Hhigh; [lia | exact Hs].
Qed.

(** ** Expiry and repeats *)

Lemma expire_idle now s :
  test_bit FF_EFFECT_PLAYING (flags s) = false -> expire now s = s.
Proof. intros H. unfold expire. now rewrite H. Qed.

Lemma expire_due now s :
  test_bit FF_EFFECT_PLAYING (flags s) = true ->
  replay_length (replay (effect s)) <> 0 -> elapsed s now -> 0 < count s ->
  count (expire now s) = count s - 1
  /\ test_bit FF_EFFECT_PLAYING (flags (expire now s)) = false
  /\ test_bit FF_EFFECT_QUEUE_START (flags (expire now s))
     = nonzero (count s - 1) || test_bit FF_EFFECT_QUEUE_START (flags s).
Proof.
  intros Hp Hlen Hel Hc. unfold expire; cbn zeta. rewrite Hp.
  apply nonzero_true in Hlen. rewrite Hlen. cbn [andb].
  unfold elapsed in Hel. apply Z.geb_le in Hel. rewrite Hel.
  cbn [count with_flags].
  assert (nonzero (count s) = true) as -> by (apply nonzero_true; lia).
  cbn [count with_count flags].
  destruct (nonzero (count s - 1)); cbn [count flags with_flags with_count];
    bits; auto.
Qed.

Lemma pass_slot_playing_out now s r :
  replay_length (replay (effect s)) <> 0 -> elapsed s now ->
  playing_out r s -> playing_out (r - 1) (pass_slot now s).
Proof.
  intros Hlen Hel [Hplay Hidle].
  destruct (settle_bits (flags (expire now s))) as (_ & Hqs & _ & Hpl).
  unfold playing_out, pass_slot. cbn [flags count with_flags].
  rewrite Hqs, Hpl. clear Hqs Hpl.
  destruct (test_bit FF_EFFECT_PLAYING (flags s)) eqn:Hp.
  - destruct (Hplay eq_refl) as (Hc & Hr & Hq).
    destruct (expire_due now s Hp Hlen Hel ltac:(lia)) as (Hc' & Hp' & Hq').
    rewrite Hp', Hq', Hc', Hc. rewrite orb_false_r.
    split; [| auto].
    intros Hon. apply andb_true_iff in Hon as [Hon _].
    split; [reflexivity |]. split; [| now left].
    destruct (nonzero (r - 1)) eqn:Hnz.
    + apply nonzero_true in Hnz. lia.
    + apply nonzero_false in Hnz. cbn [orb] in Hon.
      destruct Hq as [Hq | Hq]; [congruence | lia].
  - rewrite (expire_idle now s Hp), Hp, (Hidle eq_refl). cbn.
    split; [discriminate | auto].
Qed.

Lemma playing_out_done s :
  playing_out 0 s ->
  test_bit FF_EFFECT_PLAYING (flags s) = false
  /\ test_bit FF_EFFECT_QUEUE_START (flags s) = false.
Proof.
  intros [Hplay Hidle].
  destruct (test_bit FF_EFFECT_PLAYING (flags s)) eqn:Hp.
  - destruct (Hplay eq_refl) as (_ & Hr & _). lia.
  - auto.
Qed.

(** One pass of [ticks], then the later ones. *)
Lemma ticks_cons P now later t h :
  ticks P (now :: later) t h =
  (let '(r, h1) := t500rs_timer_helper P now t h in
   let '(rest, h2) := ticks P later (snd r) h1 in
   ((fst r :: fst rest, snd rest), h2)).
Proof. reflexivity. Qed.

(** The passes of [ticks], when none of them returns an error, apply
    [pass_slot] to the slot once per pass. *)
Lemma ticks_done P nows : forall t h rets t' h' i s,
  ticks P nows t h = ((rets, t'), h') -> Forall (fun r => 0 <= r) rets ->
  (i < T500RS_MAX_EFFECTS)%nat -> states t !! i = Some s ->
  states t' !! i = Some (fold_left (fun st now => pass_slot now st) nows s).
Proof.
  induction nows as [| now later IH]; intros t h rets t' h' i s H Hrets Hi Hs.
  - cbn in H. injection H as <- <- <-. exact Hs.
  - pose proof (timer_helper_done P now t h) as Hd.
    rewrite ticks_cons in H.
    destruct (t500rs_timer_helper P now t h) as [[r t1] h1].
    cbn [fst snd] in H.
    destruct (ticks P later t1 h1) as [[rest t2] h2] eqn:Hrest.
    cbn [fst snd] in H. injection H as <- <- <-.
    inversion Hrets as [| ? ? Hr Hrest']; subst.
    destruct (Hd r t1 h1 i s eq_refl Hr Hi Hs) as (Hs1 & _).
    cbn [fold_left]. eapply IH; eauto.
Qed.

(** ** The combined-effect encoder *)

Lemma combined_entry_length c params i :
  length (combined_entry c params i) = length params.
Proof.
  unfold combined_entry. destruct (dynamic_weights c);
    now rewrite !length_insert.
Qed.

Lemma combined_fold_length c l : forall params,
  length (fold_left (combined_entry c) l params) = length params.
Proof.
  induction l as [| i l IH]; intros params; [reflexivity |].
  cbn [fold_left]. now rewrite IH, combined_entry_length.
Qed.

Lemma combined_params_length c : length (combined_params c) = 56%nat.
Proof. unfold combined_params. now rewrite combined_fold_length. Qed.

Lemma combined_entry_fills c pre k rest :
  length pre = (8 + k * 3)%nat ->
  combined_entry c (pre ++ 0 :: 0 :: 0 :: rest) k
  = pre ++ entry_bytes c k ++ rest.
Proof.
  intros Hpre. unfold combined_entry, entry_bytes.
  destruct (dynamic_weights c);
    rewrite !insert_app_r_alt by lia;
    replace (8 + k * 3 - length pre)%nat with 0%nat by lia;
    replace (9 + k * 3 - length pre)%nat with 1%nat by lia;
    try replace (10 + k * 3 - length pre)%nat with 2%nat by lia;
    reflexivity.
Qed.

Lemma entry_bytes_length c l :
  length (flat_map (entry_bytes c) l) = (length l * 3)%nat.
Proof. induction l as [| i l IH]; cbn; [reflexivity | now rewrite IH]. Qed.

(** The loop fills the three bytes of constituent [i] at [8 + 3i],
    whether the weights are dynamic or not. *)
Lemma combined_fold_fills c k :
  (k <= 16)%nat ->
  fold_left (combined_entry c) (seq 0 k) (combined_header c ++ replicate 48 0)
  = combined_header c ++ flat_map (entry_bytes c) (seq 0 k)
    ++ replicate (48 - k * 3) 0.
Proof.
  induction k as [| k IH]; intros Hk; [reflexivity |].
  rewrite seq_S, fold_left_app, IH by lia. cbn [fold_left plus].
  replace (48 - k * 3)%nat with (S (S (S (48 - S k * 3)))) by lia.
  cbn [replicate]. rewrite app_assoc, combined_entry_fills.
  - rewrite flat_map_app. cbn [flat_map]. now rewrite app_nil_r, <- !app_assoc.
  - rewrite length_app, entry_bytes_length, length_seq. reflexivity.
Qed.

(** X7. With dynamic weights the payload is the header and then, per
    constituent and in order, id, weight and the packed bounds. *)
Lemma dynamic_payload_layout c :
  dynamic_weights c = true ->
  1 <= num_effects c <= T500RS_MAX_COMBINED_EFFECTS ->
  combined_payload c
  = combined_header c
    ++ flat_map (entry_bytes c) (seq 0 (Z.to_nat (num_effects c))).
Proof.
  unfold T500RS_MAX_COMBINED_EFFECTS. intros Hdyn Hn.
  unfold combined_payload, combined_params, combined_params_size.
  fold (combined_header c). change (Z.to_nat (T500RS_MAX_COMBINED_EFFECTS * 3)) with 48%nat.
  rewrite combined_fold_fills by lia. rewrite Hdyn, app_assoc.
  set (l := combined_header c ++ _).
  replace (Z.to_nat (8 + num_effects c * 3)) with (length l).
  - apply take_app_length.
  - subst l. rewrite length_app, entry_bytes_length, length_seq. cbn [length combined_header].
    lia.
Qed.

(** X8. With static weights the same three-byte layout is cut off
    after [8 + 2n] bytes. *)
Lemma static_payload_layout c :
  dynamic_weights c = false ->
  1 <= num_effects c <= T500RS_MAX_COMBINED_EFFECTS ->
  combined_payload c
  = take (Z.to_nat (8 + num_effects c * 2))
      (combined_header c
       ++ flat_map (entry_bytes c) (seq 0 (Z.to_nat (num_effects c)))).
Proof.
  unfold T500RS_MAX_COMBINED_EFFECTS. intros Hdyn Hn.
  unfold combined_payload, combined_params, combined_params_size.
  fold (combined_header c). change (Z.to_nat (T500RS_MAX_COMBINED_EFFECTS * 3)) with 48%nat.
  rewrite combined_fold_fills by lia. rewrite Hdyn, app_assoc.
  set (l := combined_header c ++ _).
  apply take_app_le.
  subst l. rewrite length_app, entry_bytes_length, length_seq. cbn [length combined_header].
  lia.
Qed.

(** ** The search of the weight update *)

Lemma find_effect_none ids effect_id r : forall i,
  (forall j, (i <= j < i + r)%nat -> rd ids j <> effect_id) ->
  find_effect ids effect_id i r = -1.
Proof.
  induction r as [| r IH]; intros i H; [reflexivity |].
  cbn [find_effect]. destruct (Z.eqb_spec (rd ids i) effect_id) as [He | _].
  - exfalso. apply (H i); [lia | exact He].
  - apply IH. intros j Hj. apply H. lia.
Qed.

Lemma find_effect_first ids effect_id r : forall i k,
  (i <= k < i + r)%nat -> rd ids k = effect_id ->
  (forall j, (i <= j < k)%nat -> rd ids j <> effect_id) ->
  find_effect ids effect_id i r = Z.of_nat k.
Proof.
  induction r as [| r IH]; intros i k Hk He Hbefore; [lia |].
  cbn [find_effect]. destruct (Z.eqb_spec (rd ids i) effect_id) as [Hi | Hi].
  - destruct (decide (k = i)) as [-> | Hne]; [reflexivity |].
    exfalso. apply (Hbefore i); [lia | exact Hi].
  - destruct (decide (k = i)) as [-> | Hne]; [congruence |].
    apply IH; [lia | exact He |]. intros j Hj. apply Hbefore. lia.
Qed.

(** ** The weight update writes before it sends *)

(** For an update that passes the checks, the slot returned holds the
    new weight whatever the send returned. *)
Lemma upload_weight_commits_first P state c update h i :
  combined state = Some c -> dynamic_weights c = true ->
  (i < Z.to_nat (num_effects c))%nat ->
  rd (effect_ids c) i = upd_effect_id update ->
  (forall j, (j < i)%nat -> rd (effect_ids c) j <> upd_effect_id update) ->
  rd (min_weights c) i <= new_weight update <= rd (max_weights c) i ->
  snd (fst (t500rs_upload_weight P state update h))
  = with_combined
      (Some (with_weights (<[i := u8 (new_weight update)]> (weights c)) c))
      state
  /\ fst (fst (t500rs_upload_weight P state update h))
     = fst (t500rs_send_effect P (T500RS_CMD_UPDATE P) (weight_params P update)
              8 h).
Proof.
  intros Hc Hdyn Hi Hid Hfirst Hin. unfold t500rs_upload_weight.
  rewrite Hc, Hdyn. cbn [negb].
  rewrite (find_effect_first _ _ _ 0%nat i)
    by (first [lia | exact Hid | intros j Hj; apply Hfirst; lia]).
  destruct (Z.ltb_spec (Z.of_nat i) 0) as [Hneg | _]; [lia |].
  rewrite Nat2Z.id.
  destruct (Z.ltb_spec (new_weight update) (rd (min_weights c) i)); [lia |].
  destruct (Z.gtb_spec (new_weight update) (rd (max_weights c) i)); [lia |].
  cbn [orb]. unfold bind, ret_.
  destruct (t500rs_send_effect P _ _ _ h) as [r h1]. split; reflexivity.
Qed.

(** ** A transport on which everything works *)

Lemma send_effect_smooth P command_id params n h :
  all_smooth h ->
  exists h', t500rs_send_effect P command_id params n h = (0, h')
    /\ all_smooth h'
    /\ requests h' = requests h ++ [t500rs_cmd_header P ++ take n params].
Proof.
  intros Hh.
  pose proof (send_effect_outcome P command_id params n h) as H. cbn zeta in H.
  destruct H as (Hs & Hcases).
  assert (all_smooth (snd (next_attempt h))
          /\ kzalloc_ok (fst (next_attempt h)) = true
          /\ device_found (fst (next_attempt h)) = true) as (Hinv & Hk & Hf).
  { unfold all_smooth in *.
    destruct (next_attempt_script h) as [[_ ->] | Hcons]; [now repeat split |].
    rewrite Hcons in Hh. inversion Hh as [| ? ? [? ?] ?]; subst. now repeat split. }
  destruct Hcases as [(Hk' & _) | [(_ & Hf' & _) | (_ & _ & Hr & Hreq)]];
    [congruence | congruence |].
  destruct (t500rs_send_effect P command_id params n h) as [r h'].
  cbn [fst snd] in *. subst r. exists h'. repeat split; [| exact Hreq].
  unfold all_smooth in *. now rewrite Hs.
Qed.

(** * The claims *)

(** C10. The upload entry point rejects a periodic descriptor whose
    period is zero before it touches the table: the device entry, and so
    the descriptor, the previous descriptor and the flags of every slot,
    is returned as it was, and the value returned is -EINVAL (whenever
    the device lookup that precedes the test has succeeded). *)
Theorem zero_period_rejected found effect_ old_ t :
  ff_type effect_ = FF_PERIODIC -> period (u_periodic effect_) = 0 ->
  snd (t500rs_upload found effect_ old_ t) = t
  /\ (found = true -> fst (t500rs_upload found effect_ old_ t) = - EINVAL).
Proof.
  intros Hty Hper. unfold t500rs_upload. rewrite Hty, Hper.
  destruct found; cbn; auto. split; [reflexivity | discriminate].
Qed.

Lemma zero_period_rejected_witness :
  snd (t500rs_upload true (plain_effect FF_PERIODIC 3 100) None
         (device_with zero_state)) = device_with zero_state
  /\ (true = true ->
      fst (t500rs_upload true (plain_effect FF_PERIODIC 3 100) None
             (device_with zero_state)) = - EINVAL).
Proof.
  apply (zero_period_rejected true (plain_effect FF_PERIODIC 3 100) None
           (device_with zero_state)); reflexivity.
Defined.

(** C8. A weight update whose target id is not among the constituents
    of the combined record, or whose new weight is below the minimum or
    above the maximum of the constituent found, returns -EINVAL; the
    slot, with every stored weight, is returned as it was and nothing
    is sent. *)
Theorem weight_update_rejected P state c update h :
  combined state = Some c ->
  (forall i, (i < Z.to_nat (num_effects c))%nat ->
     rd (effect_ids c) i <> upd_effect_id update)
  \/ (exists i, (i < Z.to_nat (num_effects c))%nat
        /\ rd (effect_ids c) i = upd_effect_id update
        /\ (forall j, (j < i)%nat -> rd (effect_ids c) j <> upd_effect_id update)
        /\ (new_weight update < rd (min_weights c) i
            \/ rd (max_weights c) i < new_weight update)) ->
  t500rs_upload_weight P state update h = ((- EINVAL, state), h).
Proof.
  intros Hc Hbad. unfold t500rs_upload_weight. rewrite Hc.
  destruct (dynamic_weights c); [| reflexivity]. cbn [negb].
  destruct Hbad as [Habsent | (i & Hi & Hid & Hfirst & Hout)].
  - rewrite find_effect_none by (intros j Hj; apply Habsent; lia).
    reflexivity.
  - rewrite (find_effect_first _ _ _ 0%nat i)
      by (first [lia | exact Hid | intros j Hj; apply Hfirst; lia]).
    destruct (Z.ltb_spec (Z.of_nat i) 0) as [Hneg | _]; [lia |].
    rewrite Nat2Z.id.
    destruct Hout as [Hlow | Hhigh].
    + apply Z.ltb_lt in Hlow. rewrite Hlow. reflexivity.
    + apply Z.gtb_lt in Hhigh. rewrite Hhigh, orb_true_r. reflexivity.
Qed.

Lemma weight_update_rejected_witness :
  t500rs_upload_weight sample_protocol (combined_slot dynamic_pair)
    {| upd_effect_id := 2; new_weight := 0xf8; smooth_transition := false;
       transition_steps := 0 |} quiet
  = ((- EINVAL, combined_slot dynamic_pair), quiet).
Proof.
  apply (weight_update_rejected sample_protocol (combined_slot dynamic_pair)
           dynamic_pair); [reflexivity |].
  right. exists 1%nat. repeat split.
  - vm_compute. lia.
  - intros j Hj. assert (j = 0%nat) as -> by lia. vm_compute. discriminate.
  - right. vm_compute. reflexivity.
Defined.

(** C5. For a combined effect with n constituents, 1 <= n <= 16, the
    payload handed to the sender is exactly 8 + 2n bytes long with
    static weights and 8 + 3n bytes long with dynamic weights, and it is
    what the command on the wire carries behind the header. With n = 0
    or n > 16 the encoder returns -EINVAL and the transport is
    untouched: no allocation is attempted and nothing is sent. *)
Theorem combined_encoding_size P state c h :
  combined state = Some c ->
  (1 <= num_effects c <= T500RS_MAX_COMBINED_EFFECTS ->
   Z.of_nat (length (combined_payload c))
   = 8 + (if dynamic_weights c then 3 else 2) * num_effects c
   /\ t500rs_upload_combined P state h
      = t500rs_send_effect P (T500RS_CMD_UPDATE P) (combined_params c)
          (combined_params_size c) h
   /\ (kzalloc_ok (fst (next_attempt h)) = true ->
       device_found (fst (next_attempt h)) = true ->
       fst (t500rs_upload_combined P state h) = 0
       /\ requests (snd (t500rs_upload_combined P state h))
          = requests h ++ [t500rs_cmd_header P ++ combined_payload c]))
  /\ (num_effects c = 0 \/ num_effects c > T500RS_MAX_COMBINED_EFFECTS ->
      t500rs_upload_combined P state h = (- EINVAL, h)).
Proof.
  intros Hc. unfold t500rs_upload_combined. rewrite Hc.
  unfold T500RS_MAX_COMBINED_EFFECTS. split.
  - intros Hn.
    destruct (Z.eqb_spec (num_effects c) 0) as [? | _]; [lia |].
    destruct (Z.gtb_spec (num_effects c) 16) as [? | _]; [lia |].
    cbn [orb]. split; [| split; [reflexivity |]].
    + unfold combined_payload. rewrite length_take, combined_params_length.
      unfold combined_params_size. destruct (dynamic_weights c); lia.
    + intros Hk Hf.
      pose proof (send_effect_outcome P (T500RS_CMD_UPDATE P) (combined_params c)
                    (combined_params_size c) h) as H. cbn zeta in H.
      destruct H as (_ & [(Hk' & _) | [(_ & Hf' & _) | (_ & _ & Hr & Hreq)]]);
        [congruence | congruence | auto].
  - intros [Hz | Hbig].
    + rewrite Hz. reflexivity.
    + destruct (Z.gtb_spec (num_effects c) 16) as [_ | ?]; [| lia].
      now rewrite orb_true_r.
Qed.

Lemma combined_encoding_size_witness :
  Z.of_nat (length (combined_payload static_pair)) = 8 + 2 * 2
  /\ Z.of_nat (length (combined_payload dynamic_pair)) = 8 + 3 * 2
  /\ requests (snd (t500rs_upload_combined sample_protocol
                      (combined_slot dynamic_pair) quiet))
     = [t500rs_cmd_header sample_protocol ++ combined_payload dynamic_pair]
  /\ t500rs_upload_combined sample_protocol (combined_slot oversized) quiet
     = (- EINVAL, quiet).
Proof.
  split; [| split; [| split]].
  - apply (combined_encoding_size sample_protocol (combined_slot static_pair)
             static_pair quiet eq_refl). vm_compute. split; discriminate.
  - apply (combined_encoding_size sample_protocol (combined_slot dynamic_pair)
             dynamic_pair quiet eq_refl). vm_compute. split; discriminate.
  - apply (combined_encoding_size sample_protocol (combined_slot dynamic_pair)
             dynamic_pair quiet eq_refl); [vm_compute; split; discriminate | |];
      reflexivity.
  - apply (combined_encoding_size sample_protocol (combined_slot oversized)
             oversized quiet eq_refl).
    right. vm_compute. reflexivity.
Defined.

(** C9. Uploading a constant-force descriptor with level 0x40, a zero
    envelope and replay length 0, on a transport that works, returns 0
    and puts exactly three commands on the wire, in this order: the
    envelope command with its zeroed parameters, the constant-level
    command, whose payload ends in 0x40, and the upload trailer, whose
    payload carries T500RS_EFFECT_CONSTANT as effect-type code. *)
Theorem constant_upload_three_commands P state h :
  combined state = None ->
  ff_type (effect state) = FF_CONSTANT ->
  constant_level (u_constant (effect state)) = 0x40 ->
  constant_envelope (u_constant (effect state)) = no_envelope ->
  replay_length (replay (effect state)) = 0 ->
  all_smooth h ->
  fst (t500rs_upload_effect P state h) = 0
  /\ requests (snd (t500rs_upload_effect P state h))
     = requests h
       ++ [t500rs_cmd_header P
             ++ [T500RS_CMD_SET_ENVELOPE; 0x1c; 0; 0; 0; 0; 0; 0; 0];
           t500rs_cmd_header P ++ [T500RS_CMD_SET_CONSTANT; 0x0e; 0; 0x40];
           t500rs_cmd_header P
             ++ [T500RS_CMD_UPLOAD_EFFECT; 0; T500RS_EFFECT_CONSTANT; 0x40;
                 0x17; 0x25; 0; 0xff; 0xff; 0x0e; 0; 0x1c; 0]].
Proof.
  intros Hc Hty Hlevel Henv Hlen Hh.
  unfold t500rs_upload_effect, upload_switch, t500rs_upload_constant.
  rewrite Hc, Hty, Henv, Hlen. change (FF_CONSTANT =? FF_CONSTANT) with true.
  cbn iota. unfold constant_params. rewrite Hlevel. unfold bind.
  destruct (send_effect_smooth P T500RS_CMD_SET_ENVELOPE envelope_params 9 h Hh)
    as (h1 & -> & Hh1 & Hr1).
  change (0 <? 0) with false. cbn iota.
  destruct (send_effect_smooth P T500RS_CMD_SET_CONSTANT
              [T500RS_CMD_SET_CONSTANT; 0x0e; 0x00; u8 0x40] 4 h1 Hh1)
    as (h2 & -> & Hh2 & Hr2).
  change (0 <? 0) with false. cbn iota.
  destruct (send_effect_smooth P T500RS_CMD_UPLOAD_EFFECT
              (upload_params T500RS_EFFECT_CONSTANT) 13 h2 Hh2)
    as (h3 & -> & Hh3 & Hr3).
  cbn. split; [reflexivity |].
  rewrite Hr3, Hr2, Hr1. rewrite <- !app_assoc. reflexivity.
Qed.

Lemma constant_upload_three_commands_witness :
  fst (t500rs_upload_effect sample_protocol
         (slot_of (constant_effect 0 0x40 0) 0 0 0) quiet) = 0
  /\ requests (snd (t500rs_upload_effect sample_protocol
                      (slot_of (constant_effect 0 0x40 0) 0 0 0) quiet))
     = [[0x60; 0; 2; 0x1c; 0; 0; 0; 0; 0; 0; 0];
        [0x60; 0; 3; 0x0e; 0; 0x40];
        [0x60; 0; 1; 0; 0; 0x40; 0x17; 0x25; 0; 0xff; 0xff; 0x0e; 0; 0x1c; 0]].
Proof.
  apply (constant_upload_three_commands sample_protocol
           (slot_of (constant_effect 0 0x40 0) 0 0 0) quiet);
    try reflexivity.
  constructor.
Defined.

(** C4. [t500rs_send_int] returns 0 whenever the device entry is found,
    whether or not the report reaches the wheel. On a transport whose
    device lookups succeed, [t500rs_send_effect] therefore returns 0 or
    -ENOMEM, and -ENOMEM exactly when kzalloc fails; the encoder
    pipeline returns 0, -ENOMEM or the -EINVAL of a rejected
    descriptor; and a block of the timer pass that takes its failure
    branch returns -ENOMEM (start, stop) or one of -ENOMEM and -EINVAL
    (upload): no branch is ever taken on a transport error. *)
Theorem transfer_outcome_unobserved P h :
  all_found h ->
  (forall k tr send_buffer,
     fst (t500rs_send_int
            {| kzalloc_ok := k; device_found := true; transfer_ok := tr |}
            send_buffer h) = 0)
  /\ (forall command_id params n,
        let r := fst (t500rs_send_effect P command_id params n h) in
        (r = 0 /\ kzalloc_ok (fst (next_attempt h)) = true)
        \/ (r = - ENOMEM /\ kzalloc_ok (fst (next_attempt h)) = false))
  /\ (forall state,
        let r := fst (t500rs_upload_effect P state h) in
        r = 0 \/ r = - ENOMEM \/ r = - EINVAL)
  /\ (forall state ret,
        fst (fst (stage_start P state h)) = Some ret -> ret = - ENOMEM)
  /\ (forall state ret,
        fst (fst (stage_stop P state h)) = Some ret -> ret = - ENOMEM)
  /\ (forall now state ret,
        fst (fst (timer_slot P now state h)) = Some ret ->
        ret = - ENOMEM \/ ret = - EINVAL).
Proof.
  intros Hh.
  assert (forall command_id params n,
            let r := fst (t500rs_send_effect P command_id params n h) in
            (r = 0 /\ kzalloc_ok (fst (next_attempt h)) = true)
            \/ (r = - ENOMEM /\ kzalloc_ok (fst (next_attempt h)) = false))
    as Hsend.
  { intros command_id params n. cbn zeta.
    pose proof (send_effect_outcome P command_id params n h) as H. cbn zeta in H.
    assert (device_found (fst (next_attempt h)) = true) as Hfound.
    { unfold all_found in Hh.
      destruct (next_attempt_script h) as [[_ ->] | Hcons]; [reflexivity |].
      rewrite Hcons in Hh. now inversion Hh. }
    destruct H as (_ & [(Hk & ->) | [(_ & Hnf & _) | (Hk & _ & Hr & _)]]);
      [right | congruence | left]; auto. }
  split; [reflexivity |]. split; [exact Hsend |]. split; [| split; [| split]].
  - intros state.
    apply (framed_upload_effect P all_found (fun _ _ => True)
             (fun r => r = 0 \/ r = - ENOMEM \/ r = - EINVAL)); auto.
    apply send_effect_found.
  - intros state ret. unfold stage_start, t500rs_play_effect.
    destruct (test_bit _ _); [| discriminate]. unfold bind, ret_.
    destruct (Hsend (T500RS_CMD_PLAY P) (play_params P) 8%nat)
      as [[Hr _] | [Hr _]]; cbn zeta in Hr;
      destruct (t500rs_send_effect P _ _ _ h) as [r h1]; cbn [fst] in Hr;
      subst r; cbn; [discriminate | intros [= <-]; reflexivity].
  - intros state ret. unfold stage_stop, t500rs_stop_effect.
    destruct (test_bit _ _); [| discriminate]. unfold bind, ret_.
    destruct (Hsend (T500RS_CMD_STOP P) (stop_params P) 8%nat)
      as [[Hr _] | [Hr _]]; cbn zeta in Hr;
      destruct (t500rs_send_effect P _ _ _ h) as [r h1]; cbn [fst] in Hr;
      subst r; cbn; [discriminate | intros [= <-]; reflexivity].
  - intros now state ret Hret.
    destruct (framed_timer_slot P all_found (fun _ _ => True)
                (fun r => r = 0 \/ r = - ENOMEM \/ r = - EINVAL)
                (fun _ => I) (fun _ _ _ _ _ => I)
                (or_intror (or_intror eq_refl)) (send_effect_found P)
                now state h Hh) as (He & _ & _).
    destruct (He ret Hret) as [[? | [? | ?]] ?]; auto. congruence.
Qed.

Lemma transfer_outcome_unobserved_witness :
  fst (t500rs_send_int
         {| kzalloc_ok := true; device_found := true; transfer_ok := false |}
         [0x60; 0x00; 0x41] out_of_memory) = 0
  /\ fst (t500rs_send_effect sample_protocol 0x41 (play_params sample_protocol)
            8 out_of_memory) = - ENOMEM.
Proof.
  destruct (transfer_outcome_unobserved sample_protocol out_of_memory)
    as (Hint & Hsend & _).
  - repeat constructor.
  - split; [apply Hint |].
    destruct (Hsend 0x41 (play_params sample_protocol) 8%nat)
      as [[_ Hk] | [Hr _]]; [discriminate Hk | exact Hr].
Defined.




(** C3, as stated, at a concrete input: slot 0 has QUEUE_START queued;
    a playback-change request with value 0 returns 0 and leaves
    QUEUE_START set, next to the QUEUE_STOP it has queued. *)
Lemma stop_request_keeps_queued_start_cex :
  let s := slot_of (constant_effect 0 0x40 0) (bit FF_EFFECT_QUEUE_START) 0 1 in
  let out := t500rs_play true 100 0%nat 0 (device_with s) in
  test_bit FF_EFFECT_QUEUE_START (flags s) = true
  /\ fst out = 0
  /\ (test_bit FF_EFFECT_QUEUE_START <$> (flags <$> states (snd out) !! 0%nat))
     = Some true
  /\ (test_bit FF_EFFECT_QUEUE_STOP <$> (flags <$> states (snd out) !! 0%nat))
     = Some true.
Proof. vm_compute. repeat split. Qed.

(** C3 (amended). A playback-change request with a non-positive repeat
    value sets QUEUE_STOP on the slot and changes nothing else: a
    queued QUEUE_START stays queued. The stop prevails at the next pass
    of the timer, whose stop block comes after its start block: when
    that pass returns no error the slot has QUEUE_START, QUEUE_STOP and
    PLAYING clear. *)
Theorem stop_request_queues_stop P now effect_id value t s :
  value <= 0 -> (effect_id < T500RS_MAX_EFFECTS)%nat ->
  states t !! effect_id = Some s ->
  let out := t500rs_play true now effect_id value t in
  fst out = 0
  /\ states (snd out) !! effect_id
     = Some (with_flags (__set_bit FF_EFFECT_QUEUE_STOP (flags s)) s)
  /\ (forall later h r t' h',
        t500rs_timer_helper P later (snd out) h = ((r, t'), h') -> 0 <= r ->
        exists s', states t' !! effect_id = Some s'
          /\ test_bit FF_EFFECT_QUEUE_START (flags s') = false
          /\ test_bit FF_EFFECT_QUEUE_STOP (flags s') = false
          /\ test_bit FF_EFFECT_PLAYING (flags s') = false).
Proof.
  intros Hv Hid Hs. cbn zeta. unfold t500rs_play. cbn [negb fst snd states].
  assert (alter (play_slot now value) effect_id (states t) !! effect_id
          = Some (with_flags (__set_bit FF_EFFECT_QUEUE_STOP (flags s)) s))
    as Hs1.
  { rewrite list_lookup_alter_eq, Hs. cbn. unfold play_slot.
    destruct (Z.gtb_spec value 0); [lia | reflexivity]. }
  split; [reflexivity |]. split; [exact Hs1 |].
  intros later h r t' h' Htick Hr.
  destruct (timer_helper_done P later _ h r t' h' effect_id _ Htick Hr Hid Hs1)
    as (Hs' & _).
  eexists. split; [exact Hs' |].
  set (s1 := with_flags _ s) in *.
  destruct (settle_bits (flags (expire later s1))) as (_ & Hqs & Hst & Hpl).
  destruct (expire_bits later s1) as (_ & Hstop & _).
  unfold pass_slot. cbn [flags with_flags].
  split; [exact Hqs |]. split; [exact Hst |].
  rewrite Hpl, Hstop. subst s1. cbn [flags with_flags]. bits.
  reflexivity.
Qed.

Lemma stop_request_queues_stop_witness :
  let s := slot_of (constant_effect 0 0x40 0) (bit FF_EFFECT_QUEUE_START) 0 1 in
  let out := t500rs_play true 100 0%nat 0 (device_with s) in
  let tick := t500rs_timer_helper sample_protocol 108 (snd out) quiet in
  exists s', states (snd (fst tick)) !! 0%nat = Some s'
    /\ test_bit FF_EFFECT_QUEUE_START (flags s') = false
    /\ test_bit FF_EFFECT_QUEUE_STOP (flags s') = false
    /\ test_bit FF_EFFECT_PLAYING (flags s') = false.
Proof.
  intros s out tick.
  destruct (stop_request_queues_stop sample_protocol 100 0%nat 0 (device_with s) s)
    as (_ & _ & Hlater).
  - lia.
  - vm_compute. lia.
  - reflexivity.
  - apply (Hlater 108 quiet (fst (fst tick)) (snd (fst tick)) (snd tick)).
    + reflexivity.
    + vm_compute. discriminate.
Defined.

Lemma elapsed_pass_slot now s later :
  elapsed (pass_slot now s) later <-> elapsed s later.
Proof.
  unfold elapsed.
  destruct (pass_slot_fields now s) as (-> & _ & -> & _). reflexivity.
Qed.

Lemma passes_playing_out nows : forall s r,
  replay_length (replay (effect s)) <> 0 -> Forall (elapsed s) nows ->
  playing_out r s ->
  playing_out (r - Z.of_nat (length nows))
    (fold_left (fun st now => pass_slot now st) nows s).
Proof.
  induction nows as [| now later IH]; intros s r Hlen Hel Hinv.
  - cbn. now rewrite Z.sub_0_r.
  - inversion Hel as [| ? ? Hnow Hlater]; subst. cbn [fold_left length].
    replace (r - Z.of_nat (S (length later)))
      with (r - 1 - Z.of_nat (length later)) by lia.
    apply IH.
    + destruct (pass_slot_fields now s) as (-> & _). exact Hlen.
    + eapply Forall_impl; [exact Hlater |].
      intros x Hx. now apply elapsed_pass_slot.
    + now apply pass_slot_playing_out.
Qed.

(** C7, as stated, at a concrete input: slot 0 has PLAYING set,
    duration 5 and repeat count 1, and a QUEUE_START still queued; one
    pass at time 100, when the duration has run out, returns 0 and
    leaves the slot with PLAYING set. *)
Lemma queued_start_outlives_count_cex :
  let s := slot_of (constant_effect 0 0x40 5)
             (Z.lor (bit FF_EFFECT_PLAYING) (bit FF_EFFECT_QUEUE_START)) 0 1 in
  let out := ticks sample_protocol [100] (device_with s) quiet in
  test_bit FF_EFFECT_PLAYING (flags s) = true
  /\ replay_length (replay (effect s)) = 5
  /\ count s = 1
  /\ elapsed s 100
  /\ fst (fst out) = [0]
  /\ (test_bit FF_EFFECT_PLAYING <$> (flags <$> states (snd (fst out)) !! 0%nat))
     = Some true.
Proof. vm_compute. repeat split. discriminate. Qed.

(** C7 (amended). For a slot with PLAYING set, a nonzero duration and
    repeat count k > 0, on which no QUEUE_START is queued unless
    k >= 2: after k passes of the timer, each made when the duration
    has run out since start_time and each returning no error, and with
    no playback-change request in between, the slot has PLAYING clear
    and no QUEUE_START queued. *)
Theorem repeat_count_plays_out P (k : nat) nows t h rets t' h' i s :
  (i < T500RS_MAX_EFFECTS)%nat -> states t !! i = Some s ->
  test_bit FF_EFFECT_PLAYING (flags s) = true ->
  replay_length (replay (effect s)) <> 0 ->
  count s = Z.of_nat k -> (0 < k)%nat ->
  test_bit FF_EFFECT_QUEUE_START (flags s) = false \/ (2 <= k)%nat ->
  length nows = k -> Forall (elapsed s) nows ->
  ticks P nows t h = ((rets, t'), h') -> Forall (fun r => 0 <= r) rets ->
  exists s', states t' !! i = Some s'
    /\ test_bit FF_EFFECT_PLAYING (flags s') = false
    /\ test_bit FF_EFFECT_QUEUE_START (flags s') = false.
Proof.
  intros Hi Hs Hp Hlen Hc Hk Hq Hn Hel Hticks Hrets.
  eexists. split; [eapply ticks_done; eauto |].
  apply playing_out_done.
  replace 0 with (Z.of_nat k - Z.of_nat (length nows)) by lia.
  apply passes_playing_out; [exact Hlen | exact Hel |].
  split; [| congruence].
  intros _. split; [exact Hc |]. split; [lia |].
  destruct Hq; [now left | right; lia].
Qed.

Lemma repeat_count_plays_out_witness :
  let s := slot_of (constant_effect 0 0x40 5)
             (Z.lor (bit FF_EFFECT_PLAYING) (bit FF_EFFECT_QUEUE_START)) 50 2 in
  let out := ticks sample_protocol [60; 68] (device_with s) quiet in
  exists s', states (snd (fst out)) !! 0%nat = Some s'
    /\ test_bit FF_EFFECT_PLAYING (flags s') = false
    /\ test_bit FF_EFFECT_QUEUE_START (flags s') = false.
Proof.
  intros s out.
  apply (repeat_count_plays_out sample_protocol 2 [60; 68] (device_with s) quiet
           (fst (fst out)) (snd (fst out)) (snd out) 0%nat s).
  - vm_compute. lia.
  - reflexivity.
  - reflexivity.
  - vm_compute. discriminate.
  - reflexivity.
  - lia.
  - right. lia.
  - reflexivity.
  - repeat constructor; vm_compute; discriminate.
  - reflexivity.
  - vm_compute. repeat constructor; discriminate.
Defined.

(** C1, at a failing input: the combined record holds weight 0x30 for
    constituent 2, with bounds [0x10, 0xf0]; the request for weight
    0x50 meets a failing kzalloc. [t500rs_upload_weight] returns
    -ENOMEM, nothing has gone to the wheel, and the stored weight is
    0x50 all the same. *)
Theorem failed_send_keeps_new_weight :
  let update :=
    {| upd_effect_id := 2; new_weight := 0x50; smooth_transition := false;
       transition_steps := 0 |} in
  let out :=
    t500rs_upload_weight sample_protocol (combined_slot dynamic_pair) update
      out_of_memory in
  rd (weights dynamic_pair) 1 = 0x30
  /\ fst (fst out) = - ENOMEM
  /\ requests (snd out) = []
  /\ ((fun c => rd (weights c) 1) <$> combined (snd (fst out))) = Some 0x50.
Proof. vm_compute. repeat split. Qed.

(** C6, at a failing input: two constituents, ids 1 and 2, weights 10
    and 20, static weights. The payload is 12 bytes long; behind the
    8-byte header it holds id 1, weight 10, a zero byte and id 2, and
    the weight of the second constituent is not in it. The loop packs
    with a stride of three bytes whether or not the weights are
    dynamic, the length is computed with a stride of two. *)
Theorem static_payload_drops_weights :
  combined_payload static_pair
  = [T500RS_EFFECT_COMBINE; 0; 0; 0; 0x05; 0x0e; 2; 0; 1; 10; 0; 2]
  /\ combined_payload static_pair
     <> [T500RS_EFFECT_COMBINE; 0; 0; 0; 0x05; 0x0e; 2; 0; 1; 10; 2; 20].
Proof. vm_compute. split; [reflexivity | discriminate]. Qed.

(** * Further properties of the encoders *)

(** One send either requests its command and returns 0, or requests
    nothing and returns a negative value. *)
Lemma send_effect_step P command_id params n h :
  let out := t500rs_send_effect P command_id params n h in
  (fst out = 0
   /\ requests (snd out) = requests h ++ [t500rs_cmd_header P ++ take n params])
  \/ (fst out < 0 /\ requests (snd out) = requests h).
Proof.
  cbn zeta.
  pose proof (send_effect_outcome P command_id params n h) as H. cbn zeta in H.
  destruct H as (_ & [(_ & ->) | [(_ & _ & ->) | (_ & _ & Hr & Hreq)]]);
    cbn [fst snd]; rewrite ?next_attempt_requests;
    [right | right | left]; split; auto; unfold ENOMEM; lia.
Qed.

(** X1. A descriptor of type FF_PERIODIC is never encoded:
    [t500rs_upload_periodic] looks for the waveform in
    [state->effect.type], which is FF_PERIODIC and none of the waveform
    codes, so the switch of [t500rs_upload_effect] is left with -EINVAL
    and nothing sent, and with replay length 0 that is what
    [t500rs_upload_effect] returns. *)
Theorem periodic_never_encoded P state h :
  combined state = None -> ff_type (effect state) = FF_PERIODIC ->
  t500rs_upload_periodic P state h = (- EINVAL, h)
  /\ upload_switch P state h = (Break (- EINVAL), h)
  /\ (replay_length (replay (effect state)) = 0 ->
      t500rs_upload_effect P state h = (- EINVAL, h)).
Proof.
  intros Hc Hty.
  assert (t500rs_upload_periodic P state h = (- EINVAL, h)) as Hper.
  { unfold t500rs_upload_periodic. rewrite Hty. reflexivity. }
  assert (upload_switch P state h = (Break (- EINVAL), h)) as Hsw.
  { unfold upload_switch. rewrite Hty. cbn [Z.eqb FF_PERIODIC FF_CONSTANT
      FF_RAMP FF_SPRING FF_DAMPER FF_FRICTION FF_INERTIA Pos.eqb].
    unfold bind. rewrite Hper. reflexivity. }
  split; [exact Hper |]. split; [exact Hsw |].
  intros Hlen. unfold t500rs_upload_effect. rewrite Hc. unfold bind.
  rewrite Hsw, Hlen. reflexivity.
Qed.

Lemma periodic_never_encoded_witness :
  t500rs_upload_effect sample_protocol
    (slot_of (plain_effect FF_PERIODIC 0 0) 0 0 0) quiet = (- EINVAL, quiet).
Proof.
  apply (periodic_never_encoded sample_protocol
           (slot_of (plain_effect FF_PERIODIC 0 0) 0 0 0) quiet);
    reflexivity.
Defined.

(** X2. A simple slot whose effect type is none of constant, ramp,
    spring, damper, friction, inertia and periodic is rejected by
    [t500rs_upload_effect] with -EINVAL before anything is sent,
    whatever its replay length. *)
Theorem unknown_type_rejected P state h :
  combined state = None ->
  ~ In (ff_type (effect state))
      [FF_CONSTANT; FF_RAMP; FF_SPRING; FF_DAMPER; FF_FRICTION; FF_INERTIA;
       FF_PERIODIC] ->
  t500rs_upload_effect P state h = (- EINVAL, h).
Proof.
  intros Hc Hty. unfold t500rs_upload_effect, upload_switch. rewrite Hc.
  cbn [In] in Hty. unfold bind.
  repeat match goal with
         | |- context [ff_type (effect state) =? ?k] =>
             destruct (Z.eqb_spec (ff_type (effect state)) k);
             [exfalso; apply Hty; intuition congruence |]
         end.
  reflexivity.
Qed.

Lemma unknown_type_rejected_witness :
  t500rs_upload_effect sample_protocol (slot_of (plain_effect 0x50 0 250) 0 0 0)
    quiet = (- EINVAL, quiet).
Proof.
  apply (unknown_type_rejected sample_protocol
           (slot_of (plain_effect 0x50 0 250) 0 0 0) quiet); [reflexivity |].
  cbn. intros H. repeat destruct H as [H | H]; try discriminate H. exact H.
Defined.

(** X3. [t500rs_upload_constant] stops at the first send that fails:
    the commands it has requested are the first k of envelope,
    constant level, upload trailer, in that order, it returns 0 exactly
    when all three were requested, and it never returns a positive
    value. *)
Theorem constant_upload_stops_at_first_failure P state h :
  let out := t500rs_upload_constant P state h in
  exists k, (k <= 3)%nat
    /\ requests (snd out) = requests h ++ take k (constant_commands P state)
    /\ (fst out = 0 <-> k = 3%nat)
    /\ fst out <= 0.
Proof.
  cbn zeta. unfold t500rs_upload_constant, bind, ret_, constant_commands.
  destruct (send_effect_step P T500RS_CMD_SET_ENVELOPE envelope_params 9 h)
    as [[Hr1 Hq1] | [Hr1 Hq1]];
    destruct (t500rs_send_effect P T500RS_CMD_SET_ENVELOPE envelope_params 9 h)
      as [r1 h1]; cbn [fst snd] in *.
  2: { destruct (Z.ltb_spec r1 0); [| lia]. exists 0%nat. cbn [take fst snd].
       rewrite app_nil_r. repeat split; try lia; auto. }
  subst r1. cbn [Z.ltb Z.compare].
  destruct (send_effect_step P T500RS_CMD_SET_CONSTANT (constant_params state) 4 h1)
    as [[Hr2 Hq2] | [Hr2 Hq2]];
    destruct (t500rs_send_effect P T500RS_CMD_SET_CONSTANT (constant_params state) 4 h1)
      as [r2 h2]; cbn [fst snd] in *.
  2: { destruct (Z.ltb_spec r2 0); [| lia]. exists 1%nat. cbn [take fst snd].
       rewrite Hq2, Hq1. repeat split; try lia; auto. }
  subst r2. cbn [Z.ltb Z.compare].
  destruct (send_effect_step P T500RS_CMD_UPLOAD_EFFECT
              (upload_params T500RS_EFFECT_CONSTANT) 13 h2)
    as [[Hr3 Hq3] | [Hr3 Hq3]].
  - exists 3%nat. rewrite Hq3, Hq2, Hq1, <- !app_assoc.
    repeat split; try lia; auto.
  - exists 2%nat. rewrite Hq3, Hq2, Hq1, <- !app_assoc.
    repeat split; try lia; auto.
Qed.

(** X4. A spring effect is uploaded as three fixed commands, the
    condition parameters first, then the zeroed envelope, then the
    upload trailer with T500RS_EFFECT_SPRING: no field of the
    descriptor other than its type and replay length has any part in
    them. *)
Theorem spring_upload_fixed_commands P state h :
  combined state = None -> ff_type (effect state) = FF_SPRING ->
  replay_length (replay (effect state)) = 0 -> all_smooth h ->
  fst (t500rs_upload_effect P state h) = 0
  /\ requests (snd (t500rs_upload_effect P state h))
     = requests h
       ++ [t500rs_cmd_header P
             ++ [T500RS_CMD_SET_CONDITION; 0x0e; 0; 0x64; 0x64; 0; 0; 0; 0;
                 0x64; 0x64];
           t500rs_cmd_header P
             ++ [T500RS_CMD_SET_ENVELOPE; 0x1c; 0; 0; 0; 0; 0; 0; 0];
           t500rs_cmd_header P
             ++ [T500RS_CMD_UPLOAD_EFFECT; 0; T500RS_EFFECT_SPRING; 0x40;
                 0x17; 0x25; 0; 0xff; 0xff; 0x0e; 0; 0x1c; 0]].
Proof.
  intros Hc Hty Hlen Hh.
  unfold t500rs_upload_effect, upload_switch, t500rs_upload_condition.
  rewrite Hc, Hty, Hlen. cbn [Z.eqb FF_SPRING FF_CONSTANT FF_RAMP Pos.eqb].
  unfold bind.
  destruct (send_effect_smooth P T500RS_CMD_SET_CONDITION condition_params 11 h Hh)
    as (h1 & -> & Hh1 & Hr1).
  change (0 <? 0) with false. cbn iota.
  destruct (send_effect_smooth P T500RS_CMD_SET_ENVELOPE envelope_params 9 h1 Hh1)
    as (h2 & -> & Hh2 & Hr2).
  change (0 <? 0) with false. cbn iota.
  destruct (send_effect_smooth P T500RS_CMD_UPLOAD_EFFECT
              (upload_params T500RS_EFFECT_SPRING) 13 h2 Hh2)
    as (h3 & -> & Hh3 & Hr3).
  cbn. split; [reflexivity |].
  rewrite Hr3, Hr2, Hr1. rewrite <- !app_assoc. reflexivity.
Qed.

Lemma spring_upload_fixed_commands_witness :
  fst (t500rs_upload_effect sample_protocol
         (slot_of (plain_effect FF_SPRING 2 0) 0 0 0) quiet) = 0
  /\ requests (snd (t500rs_upload_effect sample_protocol
                      (slot_of (plain_effect FF_SPRING 2 0) 0 0 0) quiet))
     = [[0x60; 0; 5; 0x0e; 0; 0x64; 0x64; 0; 0; 0; 0; 0x64; 0x64];
        [0x60; 0; 2; 0x1c; 0; 0; 0; 0; 0; 0; 0];
        [0x60; 0; 1; 0; 0x40; 0x40; 0x17; 0x25; 0; 0xff; 0xff; 0x0e; 0; 0x1c; 0]].
Proof.
  apply (spring_upload_fixed_commands sample_protocol
           (slot_of (plain_effect FF_SPRING 2 0) 0 0 0) quiet);
    try reflexivity.
  constructor.
Defined.

Lemma u8_range x : 0 <= u8 x < 256.
Proof. unfold u8. apply Z.mod_pos_bound. lia. Qed.

(** X5. A damper or friction effect goes out as one command of 15
    bytes and nothing else (no envelope, no upload trailer): the type
    code T500RS_EFFECT_DAMPER_2 or T500RS_EFFECT_FRICTION_2, five fixed
    bytes, the six scaled condition values, and the three factors,
    (0x64, 0x32, 0) for a damper and (0x32, 0, 0x64) for friction. Every
    byte of it lies in 0..255. *)
Theorem extended_condition_single_command P state h :
  combined state = None ->
  ff_type (effect state) = FF_DAMPER \/ ff_type (effect state) = FF_FRICTION ->
  replay_length (replay (effect state)) = 0 -> all_smooth h ->
  let damper := ff_type (effect state) =? FF_DAMPER in
  let code := if damper then T500RS_EFFECT_DAMPER_2 else T500RS_EFFECT_FRICTION_2 in
  let payload := condition_extended_params state code in
  fst (t500rs_upload_effect P state h) = 0
  /\ requests (snd (t500rs_upload_effect P state h))
     = requests h ++ [t500rs_cmd_header P ++ payload]
  /\ length payload = 15%nat
  /\ Forall (fun b => 0 <= b < 256) payload
  /\ take 6 payload = [code; 0; 0; 0; 0x05; 0x0e]
  /\ drop 12 payload = if damper then [0x64; 0x32; 0] else [0x32; 0; 0x64].
Proof.
  intros Hc Hty Hlen Hh. cbn zeta.
  unfold t500rs_upload_effect, upload_switch, t500rs_upload_condition_extended.
  rewrite Hc, Hlen. unfold bind.
  destruct Hty as [Hty | Hty]; rewrite Hty;
    cbn [Z.eqb FF_DAMPER FF_FRICTION FF_SPRING FF_CONSTANT FF_RAMP Pos.eqb];
    match goal with
    | |- context [t500rs_send_effect P ?c ?p 15 h] =>
        destruct (send_effect_smooth P c p 15 h Hh) as (h1 & -> & Hh1 & Hr1)
    end;
    cbn [fst snd nonzero Z.eqb negb ret_];
    (split; [reflexivity |]); (split; [exact Hr1 |]);
    (split; [reflexivity |]); (split; [| split; reflexivity]);
    unfold condition_extended_params; cbn [Z.eqb Pos.eqb
      T500RS_EFFECT_DAMPER_2 T500RS_EFFECT_FRICTION_2];
    repeat (constructor; [first [apply u8_range | lia] |]); constructor.
Qed.

Lemma extended_condition_single_command_witness :
  requests (snd (t500rs_upload_effect sample_protocol
                   (slot_of (plain_effect FF_FRICTION 1 0) 0 0 0) quiet))
  = [[0x60; 0; 0x0c; 0; 0; 0; 0x05; 0x0e; 0; 0; 0; 0; 0; 0; 0x32; 0; 0x64]].
Proof.
  destruct (extended_condition_single_command sample_protocol
              (slot_of (plain_effect FF_FRICTION 1 0) 0 0 0) quiet
              eq_refl (or_intror eq_refl) eq_refl ltac:(constructor))
    as (_ & Hreq & _).
  exact Hreq.
Defined.

(** X6. A constant effect whose envelope has a nonzero attack or fade
    length is uploaded as five commands: the three of the plain
    constant effect, then the zeroed envelope command once more and a
    second upload trailer whose type byte is the low byte of
    FF_CONSTANT (0x52), the input-layer tag, not the wheel's code. The
    attack and fade values themselves are in none of the commands. *)
Theorem constant_with_envelope_five_commands P state h :
  combined state = None -> ff_type (effect state) = FF_CONSTANT ->
  attack_length (constant_envelope (u_constant (effect state))) <> 0
  \/ fade_length (constant_envelope (u_constant (effect state))) <> 0 ->
  replay_length (replay (effect state)) = 0 -> all_smooth h ->
  fst (t500rs_upload_effect P state h) = 0
  /\ requests (snd (t500rs_upload_effect P state h))
     = requests h ++ constant_commands P state
       ++ [t500rs_cmd_header P ++ envelope_params;
           t500rs_cmd_header P
             ++ [T500RS_CMD_UPLOAD_EFFECT; 0; 0x52; 0x40; 0x17; 0x25; 0;
                 0xff; 0xff; 0x0e; 0; 0x1c; 0]].
Proof.
  intros Hc Hty Henv Hlen Hh.
  assert (nonzero (attack_length (constant_envelope (u_constant (effect state))))
          || nonzero (fade_length (constant_envelope (u_constant (effect state))))
          = true) as Hb.
  { apply orb_true_iff. destruct Henv as [H | H]; [left | right];
      now apply nonzero_true. }
  unfold t500rs_upload_effect, upload_switch, t500rs_upload_constant,
    t500rs_upload_envelope, constant_commands.
  rewrite Hc, Hty, Hb, Hlen. change (FF_CONSTANT =? FF_CONSTANT) with true.
  cbn iota. unfold bind.
  destruct (send_effect_smooth P T500RS_CMD_SET_ENVELOPE envelope_params 9 h Hh)
    as (h1 & -> & Hh1 & Hr1).
  change (0 <? 0) with false. cbn iota.
  destruct (send_effect_smooth P T500RS_CMD_SET_CONSTANT (constant_params state)
              4 h1 Hh1) as (h2 & -> & Hh2 & Hr2).
  change (0 <? 0) with false. cbn iota.
  destruct (send_effect_smooth P T500RS_CMD_UPLOAD_EFFECT
              (upload_params T500RS_EFFECT_CONSTANT) 13 h2 Hh2)
    as (h3 & -> & Hh3 & Hr3).
  change (nonzero 0) with false. cbn iota.
  destruct (send_effect_smooth P T500RS_CMD_SET_ENVELOPE envelope_params 9 h3 Hh3)
    as (h4 & -> & Hh4 & Hr4).
  change (0 <? 0) with false. cbn iota.
  destruct (send_effect_smooth P T500RS_CMD_UPLOAD_EFFECT
              (upload_params FF_CONSTANT) 13 h4 Hh4)
    as (h5 & -> & Hh5 & Hr5).
  cbn. split; [reflexivity |].
  rewrite Hr5, Hr4, Hr3, Hr2, Hr1. rewrite <- !app_assoc. reflexivity.
Qed.

Lemma constant_with_envelope_five_commands_witness :
  let e := constant_effect 0 0x40 0 in
  let e' :=
    {| ff_type := ff_type e; ff_id := ff_id e; replay := replay e;
       u_constant :=
         {| constant_level := 0x40;
            constant_envelope :=
              {| attack_length := 100; attack_level := 0x7fff;
                 fade_length := 0; fade_level := 0 |} |};
       u_ramp := u_ramp e; u_periodic := u_periodic e;
       u_condition0 := u_condition0 e |} in
  length (requests (snd (t500rs_upload_effect sample_protocol
                           (slot_of e' 0 0 0) quiet))) = 5%nat.
Proof.
  intros e e'.
  assert (attack_length (constant_envelope (u_constant (effect (slot_of e' 0 0 0))))
          <> 0) as Hattack by (cbn; discriminate).
  destruct (constant_with_envelope_five_commands sample_protocol
              (slot_of e' 0 0 0) quiet eq_refl eq_refl (or_introl Hattack)
              eq_refl ltac:(constructor)) as (_ & Hreq).
  rewrite Hreq. reflexivity.
Defined.

(** Witnesses for the two layouts of the combined payload. *)
Lemma dynamic_payload_layout_witness :
  combined_payload dynamic_pair
  = [T500RS_EFFECT_COMBINE; 0; 0; 0; 0x05; 0x0e; 2; 1;
     1; 0x20; 0x1f; 2; 0x30; 0x1f].
Proof.
  rewrite (dynamic_payload_layout dynamic_pair); [reflexivity .. |].
  vm_compute. split; discriminate.
Defined.

Lemma static_payload_layout_witness :
  combined_payload static_pair
  = take 12 [T500RS_EFFECT_COMBINE; 0; 0; 0; 0x05; 0x0e; 2; 0;
             1; 10; 0; 2; 20; 0].
Proof.
  rewrite (static_payload_layout static_pair); [reflexivity .. |].
  vm_compute. split; discriminate.
Defined.

(** ** The packed bounds and the weight update *)

Lemma testbit_15 n : 0 <= n -> Z.testbit 15 n = (n <? 4).
Proof.
  intros Hn. change 15 with (Z.ones 4).
  destruct (Z.ltb_spec n 4).
  - apply Z.ones_spec_low. lia.
  - apply Z.ones_spec_high. lia.
Qed.

Lemma testbit_240 n : 0 <= n -> Z.testbit 240 n = (4 <=? n) && (n <? 8).
Proof.
  intros Hn. change 240 with (Z.shiftl (Z.ones 4) 4).
  rewrite Z.shiftl_spec by lia.
  destruct (Z.leb_spec 4 n); cbn [andb].
  - destruct (Z.ltb_spec n 8).
    + apply Z.ones_spec_low. lia.
    + apply Z.ones_spec_high. lia.
  - apply Z.testbit_neg_r. lia.
Qed.

Lemma testbit_u8 x n : 0 <= n -> Z.testbit (u8 x) n = Z.testbit x n && (n <? 8).
Proof.
  intros Hn. unfold u8. change 256 with (2 ^ 8).
  destruct (Z.ltb_spec n 8).
  - rewrite Z.mod_pow2_bits_low by lia. now rewrite andb_true_r.
  - rewrite Z.mod_pow2_bits_high by lia. now rewrite andb_false_r.
Qed.

(** X9. The byte that carries the bounds of a constituent with dynamic
    weights holds the high nibble of the minimum in its high nibble and
    the high nibble of the maximum in its low nibble: both bounds can be
    read back from it, rounded down to a multiple of 16. *)
Theorem packed_bounds_round_trip c i :
  dynamic_weights c = true ->
  exists b, entry_bytes c i !! 2%nat = Some b
    /\ 0 <= b < 256
    /\ Z.land b 0xF0 = Z.land (rd (min_weights c) i) 0xF0
    /\ Z.shiftl (Z.land b 0x0F) 4 = Z.land (rd (max_weights c) i) 0xF0.
Proof.
  intros Hdyn. unfold entry_bytes. rewrite Hdyn. eexists.
  split; [reflexivity |]. split; [apply u8_range |].
  set (mn := rd (min_weights c) i). set (mx := rd (max_weights c) i).
  split; apply Z.bits_inj'; intros n Hn.
  - rewrite !Z.land_spec, testbit_u8, Z.lor_spec, !Z.land_spec,
      Z.shiftr_spec, testbit_240, testbit_15 by lia.
    destruct (Z.leb_spec 4 n), (Z.ltb_spec n 8), (Z.ltb_spec n 4);
      try lia; cbn; rewrite ?andb_false_r, ?andb_true_r, ?orb_false_r;
      reflexivity.
  - rewrite Z.land_spec, testbit_240 by lia.
    destruct (Z.leb_spec 4 n).
    + rewrite Z.shiftl_spec, Z.land_spec, testbit_u8, Z.lor_spec, !Z.land_spec,
        Z.shiftr_spec, testbit_240, testbit_15 by lia.
      replace (n - 4 + 4) with n by lia.
      destruct (Z.leb_spec 4 (n - 4)), (Z.ltb_spec (n - 4) 8),
        (Z.ltb_spec (n - 4) 4), (Z.ltb_spec n 8);
        try lia; cbn; rewrite ?andb_false_r, ?andb_true_r, ?orb_false_r;
        reflexivity.
    + rewrite Z.shiftl_spec_low by lia. cbn. now rewrite andb_false_r.
Qed.

Lemma packed_bounds_round_trip_witness :
  exists b, entry_bytes dynamic_pair 1 !! 2%nat = Some b
    /\ 0 <= b < 256
    /\ Z.land b 0xF0 = Z.land (rd (min_weights dynamic_pair) 1) 0xF0
    /\ Z.shiftl (Z.land b 0x0F) 4 = Z.land (rd (max_weights dynamic_pair) 1) 0xF0.
Proof. apply (packed_bounds_round_trip dynamic_pair 1). reflexivity. Defined.

Lemma rd_insert l k x i :
  rd (<[k := x]> l) i = if decide (k = i /\ (k < length l)%nat) then x else rd l i.
Proof. unfold rd. rewrite list_lookup_insert. now destruct (decide _). Qed.

Lemma find_effect_found ids effect_id r : forall i,
  0 <= find_effect ids effect_id i r ->
  exists k, find_effect ids effect_id i r = Z.of_nat k
    /\ (i <= k < i + r)%nat /\ rd ids k = effect_id.
Proof.
  induction r as [| r IH]; intros i H; cbn [find_effect] in *; [lia |].
  destruct (Z.eqb_spec (rd ids i) effect_id) as [He | _].
  - exists i. repeat split; [lia | lia | exact He].
  - destruct (IH (S i) H) as (k & Hk & Hrange & Hid).
    exists k. repeat split; [exact Hk | lia | lia | exact Hid].
Qed.

(** X10. The weight update keeps the stored weights within their
    bounds: if every constituent of the combined record has
    0 <= min <= weight <= max <= 255, the same holds of the record in
    the slot that [t500rs_upload_weight] returns, whatever the update
    asks for and whatever the send returns; the ids, the bounds and the
    number of constituents are not changed. *)
Theorem weight_update_keeps_bounds P state c update h :
  combined state = Some c -> weights_bounded c ->
  exists c', combined (snd (fst (t500rs_upload_weight P state update h))) = Some c'
    /\ weights_bounded c'
    /\ num_effects c' = num_effects c /\ effect_ids c' = effect_ids c
    /\ min_weights c' = min_weights c /\ max_weights c' = max_weights c
    /\ dynamic_weights c' = dynamic_weights c.
Proof.
  intros Hc Hb. unfold t500rs_upload_weight. rewrite Hc.
  destruct (dynamic_weights c) eqn:Hdyn; cbn [negb];
    [| exists c; cbn; rewrite Hc; auto 10].
  set (found := find_effect _ _ _ _).
  destruct (Z.ltb_spec found 0) as [_ | Hfound];
    [exists c; cbn; rewrite Hc; auto 10 |].
  destruct (find_effect_found _ _ _ _ Hfound) as (k & Hk & Hrange & Hid).
  fold found in Hk. rewrite Hk, Nat2Z.id.
  destruct (Z.ltb_spec (new_weight update) (rd (min_weights c) k)) as [_ | Hlow];
    [exists c; cbn; rewrite Hc; auto 10 |].
  destruct (Z.gtb_spec (new_weight update) (rd (max_weights c) k)) as [_ | Hhigh];
    [exists c; cbn; rewrite Hc; auto 10 |].
  cbn [orb]. unfold bind, ret_.
  destruct (t500rs_send_effect P _ _ _ h) as [r h1]. cbn [fst snd combined with_combined].
  eexists. split; [reflexivity |]. cbn. split; [| auto 10].
  intros i Hi. cbn [min_weights max_weights weights with_weights num_effects] in *.
  destruct (Hb i Hi) as (H0 & Hw & H255). split; [exact H0 |]. split; [| exact H255].
  rewrite rd_insert. destruct (decide _) as [[-> _] | _]; [| exact Hw].
  unfold u8. rewrite Z.mod_small by lia. lia.
Qed.

Lemma weight_update_keeps_bounds_witness :
  exists c',
    combined (snd (fst (t500rs_upload_weight sample_protocol
                          (combined_slot dynamic_pair)
                          {| upd_effect_id := 2; new_weight := 0x50;
                             smooth_transition := true; transition_steps := 4 |}
                          out_of_memory))) = Some c'
    /\ weights_bounded c'
    /\ num_effects c' = 2 /\ effect_ids c' = effect_ids dynamic_pair
    /\ min_weights c' = min_weights dynamic_pair
    /\ max_weights c' = max_weights dynamic_pair
    /\ dynamic_weights c' = true.
Proof.
  apply (weight_update_keeps_bounds sample_protocol (combined_slot dynamic_pair)
           dynamic_pair); [reflexivity |].
  intros i Hi. change (Z.to_nat (num_effects dynamic_pair)) with 2%nat in Hi.
  destruct i as [| [| i]]; [vm_compute; intuition discriminate .. | lia].
Defined.

(** X11. An update that passes the checks, on a transport that works:
    [t500rs_upload_weight] returns 0, requests one command of eight
    bytes (the weight-update code, three zero bytes, the constituent
    id, the new weight, the step count of a smooth transition or 0, and
    a zero byte), and the record differs from the old one in the weight
    of the constituent found, and in nothing else. *)
Theorem weight_update_accepted P state c update h i :
  combined state = Some c -> dynamic_weights c = true ->
  (i < Z.to_nat (num_effects c))%nat ->
  rd (effect_ids c) i = upd_effect_id update ->
  (forall j, (j < i)%nat -> rd (effect_ids c) j <> upd_effect_id update) ->
  rd (min_weights c) i <= new_weight update <= rd (max_weights c) i ->
  all_smooth h ->
  let out := t500rs_upload_weight P state update h in
  fst (fst out) = 0
  /\ snd (fst out)
     = with_combined
         (Some (with_weights (<[i := u8 (new_weight update)]> (weights c)) c))
         state
  /\ requests (snd out)
     = requests h
       ++ [t500rs_cmd_header P
             ++ [u8 (T500RS_WEIGHT_UPDATE P); 0; 0; 0;
                 u8 (upd_effect_id update); u8 (new_weight update);
                 if smooth_transition update
                 then u8 (transition_steps update) else 0;
                 0]].
Proof.
  intros Hc Hdyn Hi Hid Hfirst Hin Hh. cbn zeta.
  destruct (upload_weight_commits_first P state c update h i Hc Hdyn Hi Hid
              Hfirst Hin) as (Hstate & Hret).
  split; [| split; [exact Hstate |]].
  - rewrite Hret.
    destruct (send_effect_smooth P (T500RS_CMD_UPDATE P) (weight_params P update)
                8 h Hh) as (h1 & -> & _). reflexivity.
  - unfold t500rs_upload_weight. rewrite Hc, Hdyn. cbn [negb].
    rewrite (find_effect_first _ _ _ 0%nat i)
      by (first [lia | exact Hid | intros j Hj; apply Hfirst; lia]).
    destruct (Z.ltb_spec (Z.of_nat i) 0) as [Hneg | _]; [lia |].
    rewrite Nat2Z.id.
    destruct (Z.ltb_spec (new_weight update) (rd (min_weights c) i)); [lia |].
    destruct (Z.gtb_spec (new_weight update) (rd (max_weights c) i)); [lia |].
    cbn [orb]. unfold bind, ret_.
    destruct (send_effect_smooth P (T500RS_CMD_UPDATE P) (weight_params P update)
                8 h Hh) as (h1 & -> & _ & Hreq).
    exact Hreq.
Qed.

Lemma weight_update_accepted_witness :
  let update :=
    {| upd_effect_id := 2; new_weight := 0x50; smooth_transition := true;
       transition_steps := 4 |} in
  let out :=
    t500rs_upload_weight sample_protocol (combined_slot dynamic_pair) update quiet in
  fst (fst out) = 0
  /\ requests (snd out) = [[0x60; 0; 0x10; 0; 0; 0; 2; 0x50; 4; 0]].
Proof.
  intros update out.
  destruct (weight_update_accepted sample_protocol (combined_slot dynamic_pair)
              dynamic_pair update quiet 1%nat) as (Hret & _ & Hreq).
  - reflexivity.
  - reflexivity.
  - vm_compute. lia.
  - reflexivity.
  - intros j Hj. assert (j = 0%nat) as -> by lia. vm_compute. discriminate.
  - vm_compute. split; discriminate.
  - constructor.
  - split; [exact Hret | exact Hreq].
Defined.

(** * Further properties of the timer pass *)

Lemma settle_update f :
  test_bit FF_EFFECT_QUEUE_UPDATE (settle f) = test_bit FF_EFFECT_QUEUE_UPDATE f.
Proof.
  unfold settle; cbn zeta. split_tests f; bits; reflexivity.
Qed.

Lemma expire_only_consumes now s : only_consumes s (expire now s).
Proof.
  unfold only_consumes, expire; cbn zeta.
  destruct (test_bit FF_EFFECT_PLAYING (flags s) && _);
    [| repeat split; auto].
  destruct (_ >=? _); [| repeat split; auto].
  cbn [count with_flags].
  destruct (nonzero (count s)) eqn:Hc; cbn [count with_count flags with_flags].
  - apply nonzero_true in Hc.
    destruct (nonzero (count s - 1));
      cbn [effect old start_time combined count flags with_flags with_count];
      bits; repeat split; auto; intros H; try discriminate H;
      apply andb_true_iff in H; tauto.
  - rewrite Hc. cbn [effect old start_time combined count flags with_flags];
      bits; repeat split; auto; intros H; try discriminate H;
      apply andb_true_iff in H; tauto.
Qed.

(** The flags behind the expiry block only lose queue bits. *)
Lemma only_consumes_flags s e f :
  only_consumes s e ->
  (test_bit FF_EFFECT_QUEUE_UPLOAD f = true ->
   test_bit FF_EFFECT_QUEUE_UPLOAD (flags e) = true) ->
  (test_bit FF_EFFECT_QUEUE_STOP f = true ->
   test_bit FF_EFFECT_QUEUE_STOP (flags e) = true) ->
  (test_bit FF_EFFECT_QUEUE_UPDATE f = true ->
   test_bit FF_EFFECT_QUEUE_UPDATE (flags e) = true) ->
  only_consumes s (with_flags f e).
Proof.
  intros (? & ? & ? & ? & ? & ? & ? & ?) Hu Hs Hd.
  unfold only_consumes. cbn [effect old start_time combined count flags with_flags].
  repeat split; auto.
Qed.

Lemma pass_slot_only_consumes now s : only_consumes s (pass_slot now s).
Proof.
  unfold pass_slot. apply only_consumes_flags; [apply expire_only_consumes | ..].
  - destruct (settle_bits (flags (expire now s))) as (-> & _). discriminate.
  - destruct (settle_bits (flags (expire now s))) as (_ & _ & -> & _). discriminate.
  - now rewrite settle_update.
Qed.

(** Each block hands on the slot it was given with some queue bits
    taken away and, at most, PLAYING and QUEUE_START changed. *)
Lemma stage_flags_only (a : stage) :
  (forall s h, exists f, snd (fst (a s h)) = with_flags f s
     /\ (test_bit FF_EFFECT_QUEUE_UPLOAD f = true ->
         test_bit FF_EFFECT_QUEUE_UPLOAD (flags s) = true)
     /\ (test_bit FF_EFFECT_QUEUE_STOP f = true ->
         test_bit FF_EFFECT_QUEUE_STOP (flags s) = true)
     /\ (test_bit FF_EFFECT_QUEUE_UPDATE f = true ->
         test_bit FF_EFFECT_QUEUE_UPDATE (flags s) = true)) ->
  forall s e h, only_consumes s e -> only_consumes s (snd (fst (a e h))).
Proof.
  intros Ha s e h He. destruct (Ha e h) as (f & -> & Hu & Hs & Hd).
  now apply only_consumes_flags.
Qed.

Ltac mono_bits :=
  bits; repeat split; intros Hbit;
  first [ exact Hbit | discriminate Hbit
        | apply andb_true_iff in Hbit; tauto ].

Lemma stage_upload_flags P s h :
  exists f, snd (fst (stage_upload P s h)) = with_flags f s
    /\ (test_bit FF_EFFECT_QUEUE_UPLOAD f = true ->
        test_bit FF_EFFECT_QUEUE_UPLOAD (flags s) = true)
    /\ (test_bit FF_EFFECT_QUEUE_STOP f = true ->
        test_bit FF_EFFECT_QUEUE_STOP (flags s) = true)
    /\ (test_bit FF_EFFECT_QUEUE_UPDATE f = true ->
        test_bit FF_EFFECT_QUEUE_UPDATE (flags s) = true).
Proof.
  unfold stage_upload. destruct (test_bit FF_EFFECT_QUEUE_UPLOAD (flags s)) eqn:Hb.
  - unfold bind, ret_. destruct (t500rs_upload_effect P _ h) as [r h1].
    exists (__clear_bit FF_EFFECT_QUEUE_UPLOAD (flags s)).
    split; [now destruct (nonzero r) |]. mono_bits.
  - exists (flags s). rewrite with_flags_same.
    repeat split; auto; intros; congruence.
Qed.

Lemma stage_start_flags P s h :
  exists f, snd (fst (stage_start P s h)) = with_flags f s
    /\ (test_bit FF_EFFECT_QUEUE_UPLOAD f = true ->
        test_bit FF_EFFECT_QUEUE_UPLOAD (flags s) = true)
    /\ (test_bit FF_EFFECT_QUEUE_STOP f = true ->
        test_bit FF_EFFECT_QUEUE_STOP (flags s) = true)
    /\ (test_bit FF_EFFECT_QUEUE_UPDATE f = true ->
        test_bit FF_EFFECT_QUEUE_UPDATE (flags s) = true).
Proof.
  unfold stage_start. destruct (test_bit FF_EFFECT_QUEUE_START (flags s)) eqn:Hb.
  - unfold bind, ret_. destruct (t500rs_play_effect P _ h) as [r h1].
    eexists. split; [now destruct (nonzero r) |]. mono_bits.
  - exists (flags s). rewrite with_flags_same.
    repeat split; auto; intros; congruence.
Qed.

Lemma stage_stop_flags P s h :
  exists f, snd (fst (stage_stop P s h)) = with_flags f s
    /\ (test_bit FF_EFFECT_QUEUE_UPLOAD f = true ->
        test_bit FF_EFFECT_QUEUE_UPLOAD (flags s) = true)
    /\ (test_bit FF_EFFECT_QUEUE_STOP f = true ->
        test_bit FF_EFFECT_QUEUE_STOP (flags s) = true)
    /\ (test_bit FF_EFFECT_QUEUE_UPDATE f = true ->
        test_bit FF_EFFECT_QUEUE_UPDATE (flags s) = true).
Proof.
  unfold stage_stop. destruct (test_bit FF_EFFECT_QUEUE_STOP (flags s)) eqn:Hb.
  - unfold bind, ret_. destruct (t500rs_stop_effect P _ h) as [r h1].
    eexists. split; [now destruct (nonzero r) |]. mono_bits.
  - exists (flags s). rewrite with_flags_same.
    repeat split; auto; intros; congruence.
Qed.

Lemma then_stage_only_consumes (a b : stage) s :
  (forall e h, only_consumes s e -> only_consumes s (snd (fst (a e h)))) ->
  (forall e h, only_consumes s e -> only_consumes s (snd (fst (b e h)))) ->
  forall e h, only_consumes s e -> only_consumes s (snd (fst (then_stage a b e h))).
Proof.
  intros Ha Hb e h He. unfold then_stage.
  specialize (Ha e h He). destruct (a e h) as [[[ret |] s1] h1]; cbn [fst snd] in *.
  - exact Ha.
  - now apply Hb.
Qed.

(** Whether its blocks ran to the end or not, the loop body only
    consumes. *)
Lemma timer_slot_only_consumes P now s h :
  only_consumes s (snd (fst (timer_slot P now s h))).
Proof.
  unfold timer_slot, then_stage at 1, stage_expire, ret_.
  apply then_stage_only_consumes; [| | apply expire_only_consumes].
  - apply stage_flags_only, stage_upload_flags.
  - apply then_stage_only_consumes.
    + apply stage_flags_only, stage_start_flags.
    + apply stage_flags_only, stage_stop_flags.
Qed.

Lemma only_consumes_refl s : only_consumes s s.
Proof. unfold only_consumes. repeat split; auto. Qed.

(** The shape of every run of the loop: either each slot in reach was
    taken through all its blocks and the value returned is the running
    maximum of the repeat counts, or the loop returned from slot [k],
    with the slots before [k] done and those after [k] not looked at. *)
Lemma timer_loop_cases P now n : forall i mc t h,
  let out := timer_loop P now n i mc t h in
  let t' := snd (fst out) in
  length (states t') = length (states t)
  /\ hrtimer_active t' = hrtimer_active t
  /\ (forall j, (j < i)%nat -> states t' !! j = states t !! j)
  /\ (forall j, (i + n <= j)%nat -> states t' !! j = states t !! j)
  /\ ((fst (fst out)
       = fold_left (fun m s => track_max s m) (take n (drop i (states t'))) mc
       /\ forall j s, (i <= j < i + n)%nat -> states t !! j = Some s ->
            states t' !! j = Some (pass_slot now s))
      \/ (exists k s h1, (i <= k < i + n)%nat /\ states t !! k = Some s
            /\ fst (fst (timer_slot P now s h1)) = Some (fst (fst out))
            /\ states t' !! k = Some (snd (fst (timer_slot P now s h1)))
            /\ (forall j s0, (i <= j < k)%nat -> states t !! j = Some s0 ->
                  states t' !! j = Some (pass_slot now s0))
            /\ (forall j, (k < j)%nat -> states t' !! j = states t !! j))).
Proof.
  induction n as [| n IH]; intros i mc t h; cbn zeta.
  - cbn. repeat split; auto. left. split; [reflexivity | intros; lia].
  - cbn [timer_loop]. destruct (states t !! i) as [si |] eqn:Hi.
    + unfold bind.
      destruct (timer_slot P now si h) as [[r0 s'] h1] eqn:Hslot.
      cbn [fst snd].
      assert (i < length (states t))%nat as Hlen by (eapply lookup_lt_Some; eauto).
      destruct r0 as [ret |].
      * cbn [ret_ fst snd states hrtimer_active].
        rewrite length_insert.
        split; [reflexivity |]. split; [reflexivity |].
        split; [intros j Hj; apply list_lookup_insert_ne; lia |].
        split; [intros j Hj; apply list_lookup_insert_ne; lia |].
        right. exists i, si, h. rewrite Hslot. cbn [fst snd].
        repeat split; try lia; auto;
          first [ now apply list_lookup_insert_eq
                | intros j Hj; apply list_lookup_insert_ne; lia
                | intros; lia ].
      * specialize (IH (S i) (track_max s' mc)
                      {| states := <[i:=s']> (states t);
                         hrtimer_active := hrtimer_active t |} h1).
        cbn zeta in IH. cbn [states hrtimer_active] in IH.
        destruct (timer_loop P now n (S i) _ _ h1) as [[r t'] h'].
        cbn [fst snd] in *. rewrite length_insert in IH.
        destruct IH as (Hl & Ha & Hlow & Hhigh & Hcases).
        assert (states t' !! i = Some s') as Hi'.
        { rewrite Hlow by lia. now apply list_lookup_insert_eq. }
        apply timer_slot_done in Hslot as (Hs' & _).
        fold (pass_slot now si) in Hs'.
        split; [exact Hl |]. split; [exact Ha |].
        split; [intros j Hj; rewrite Hlow by lia;
                apply list_lookup_insert_ne; lia |].
        split; [intros j Hj; rewrite Hhigh by lia;
                apply list_lookup_insert_ne; lia |].
        destruct Hcases as [(Hr & Hall) | (k & s & h2 & Hk & Hsk & Hret & Hk' & Hbefore & Hafter)].
        -- left. split.
           ++ rewrite (drop_S _ _ _ Hi'). cbn [take fold_left]. exact Hr.
           ++ intros j s Hj Hs. destruct (decide (j = i)) as [-> | Hne].
              ** rewrite Hi'. congruence.
              ** apply Hall; [lia |]. rewrite list_lookup_insert_ne by lia. exact Hs.
        -- right. exists k, s, h2.
           rewrite list_lookup_insert_ne in Hsk by lia.
           repeat split; try lia; auto.
           ++ intros j s0 Hj Hs0. destruct (decide (j = i)) as [-> | Hne].
              ** rewrite Hi'. congruence.
              ** apply Hbefore; [lia |].
                 rewrite list_lookup_insert_ne by lia. exact Hs0.
           ++ intros j Hj. rewrite Hafter by lia.
              apply list_lookup_insert_ne. lia.
    + specialize (IH (S i) mc t h). cbn zeta in IH.
      destruct (timer_loop P now n (S i) mc t h) as [[r t'] h'].
      cbn [fst snd] in *.
      destruct IH as (Hl & Ha & Hlow & Hhigh & Hcases).
      apply lookup_ge_None in Hi.
      split; [exact Hl |]. split; [exact Ha |].
      split; [intros j Hj; apply Hlow; lia |].
      split; [intros j Hj; apply Hhigh; lia |].
      destruct Hcases as [(Hr & Hall) | (k & s & h2 & Hk & Hsk & Hret & Hk' & Hbefore & Hafter)].
      * left. split.
        -- rewrite drop_ge in Hr by lia. rewrite drop_ge by lia.
           rewrite take_nil in *. exact Hr.
        -- intros j s Hj Hs. destruct (decide (j = i)) as [-> | Hne].
           ++ apply lookup_lt_Some in Hs. lia.
           ++ apply Hall; [lia | exact Hs].
      * right. exists k, s, h2. repeat split; try lia; auto.
        intros j s0 Hj Hs0. destruct (decide (j = i)) as [-> | Hne].
        -- apply lookup_lt_Some in Hs0. lia.
        -- apply Hbefore; [lia | exact Hs0].
Qed.

(** The pass, as a whole, only consumes. *)
Lemma timer_helper_only_consumes P now t h :
  let t' := snd (fst (t500rs_timer_helper P now t h)) in
  length (states t') = length (states t)
  /\ hrtimer_active t' = hrtimer_active t
  /\ forall j s, states t !! j = Some s ->
       exists s', states t' !! j = Some s' /\ only_consumes s s'.
Proof.
  cbn zeta. unfold t500rs_timer_helper.
  pose proof (timer_loop_cases P now T500RS_MAX_EFFECTS 0 0 t h) as H.
  cbn zeta in H.
  destruct (timer_loop P now T500RS_MAX_EFFECTS 0 0 t h) as [[r t'] h'].
  cbn [fst snd] in *.
  destruct H as (Hl & Ha & _ & Hhigh & Hcases).
  split; [exact Hl |]. split; [exact Ha |].
  intros j s Hs.
  destruct (Nat.lt_ge_cases j T500RS_MAX_EFFECTS) as [Hj | Hj].
  2: { exists s. rewrite Hhigh by lia. split; [exact Hs | apply only_consumes_refl]. }
  destruct Hcases as [(_ & Hall) | (k & sk & h1 & Hk & Hsk & _ & Hk' & Hbefore & Hafter)].
  - exists (pass_slot now s). split; [apply Hall; [lia | exact Hs] |].
    apply pass_slot_only_consumes.
  - destruct (Nat.lt_trichotomy j k) as [Hlt | [-> | Hgt]].
    + exists (pass_slot now s). split; [apply Hbefore; [lia | exact Hs] |].
      apply pass_slot_only_consumes.
    + assert (sk = s) as -> by congruence.
      eexists. split; [exact Hk' |]. apply timer_slot_only_consumes.
    + exists s. rewrite Hafter by lia.
      split; [exact Hs | apply only_consumes_refl].
Qed.


(** X12. Whatever a pass of the timer returns, it only consumes: every
    slot keeps its descriptor, its previous descriptor, its start time
    and its combined record; its repeat count is left alone or reduced
    by one; QUEUE_UPLOAD, QUEUE_STOP and QUEUE_UPDATE are never set by
    the pass; and the table keeps its length. *)
Theorem pass_only_consumes P now t h :
  let t' := snd (fst (t500rs_timer_helper P now t h)) in
  length (states t') = length (states t)
  /\ hrtimer_active t' = hrtimer_active t
  /\ forall j s, states t !! j = Some s ->
       exists s', states t' !! j = Some s' /\ only_consumes s s'.
Proof. exact (timer_helper_only_consumes P now t h). Qed.

(** X13. A pass either takes every slot through all its blocks, or it
    returns a negative value from some slot k: the slots before k have
    been taken through their blocks, the slots after k are exactly as
    they were (what was queued on them is still queued and nothing was
    sent for them), and [t500rs_timer] does not restart the timer. *)
Theorem pass_stops_at_first_failure P now t h :
  let out := t500rs_timer_helper P now t h in
  let t' := snd (fst out) in
  (forall j s, (j < T500RS_MAX_EFFECTS)%nat -> states t !! j = Some s ->
     states t' !! j = Some (pass_slot now s))
  \/ (exists k s, (k < T500RS_MAX_EFFECTS)%nat /\ states t !! k = Some s
        /\ fst (fst out) < 0
        /\ (forall j s0, (j < k)%nat -> states t !! j = Some s0 ->
              states t' !! j = Some (pass_slot now s0))
        /\ (forall j, (k < j)%nat -> states t' !! j = states t !! j)
        /\ fst (fst (t500rs_timer P now t h)) = HRTIMER_NORESTART).
Proof.
  cbn zeta. unfold t500rs_timer, bind. unfold t500rs_timer_helper.
  pose proof (timer_loop_cases P now T500RS_MAX_EFFECTS 0 0 t h) as H.
  cbn zeta in H.
  destruct (timer_loop P now T500RS_MAX_EFFECTS 0 0 t h) as [[r t'] h'].
  cbn [fst snd] in *.
  destruct H as (_ & _ & _ & _ & [(_ & Hall) | (k & sk & h1 & Hk & Hsk & Hret & _ & Hbefore & Hafter)]).
  - left. intros j s Hj Hs. apply Hall; [lia | exact Hs].
  - right. exists k, sk. apply timer_slot_early_negative in Hret.
    repeat split; try lia; auto.
    + intros j s0 Hj Hs0. apply Hbefore; [lia | exact Hs0].
    + destruct (Z.gtb_spec r 0); [lia | reflexivity].
Qed.

Lemma timer_slot_idle P now s h : idle s -> timer_slot P now s h = ((None, s), h).
Proof.
  intros (Hu & Hq & Hs & Hp).
  unfold timer_slot, then_stage, stage_expire, stage_upload, stage_start,
    stage_stop, ret_.
  rewrite (expire_idle now s Hp), Hu, Hq, Hs. reflexivity.
Qed.

Lemma timer_loop_idle P now n : forall i mc t h,
  Forall idle (states t) ->
  exists r, timer_loop P now n i mc t h = ((r, t), h).
Proof.
  induction n as [| n IH]; intros i mc t h Hidle.
  - eexists. reflexivity.
  - cbn [timer_loop]. destruct (states t !! i) as [si |] eqn:Hi.
    + unfold bind.
      rewrite timer_slot_idle by (eapply Forall_lookup_1; eauto).
      cbn [fst snd]. rewrite list_insert_id by exact Hi.
      destruct t as [sts act]. cbn [states hrtimer_active] in *.
      apply IH. exact Hidle.
    + apply IH. exact Hidle.
Qed.

(** X14. On a table where nothing is queued and nothing is playing, a
    pass of the timer changes nothing and sends nothing: the device
    entry and the transport come back as they were (no allocation is
    even attempted). *)
Theorem idle_pass_is_silent P now t h :
  Forall idle (states t) ->
  snd (fst (t500rs_timer_helper P now t h)) = t
  /\ snd (t500rs_timer_helper P now t h) = h.
Proof.
  intros Hidle. unfold t500rs_timer_helper.
  destruct (timer_loop_idle P now T500RS_MAX_EFFECTS 0 0 t h Hidle) as [r ->].
  split; reflexivity.
Qed.

Lemma idle_pass_is_silent_witness :
  let t := device_with (slot_of (constant_effect 0 0x40 0) (bit FF_EFFECT_QUEUE_UPDATE) 0 3) in
  snd (fst (t500rs_timer_helper sample_protocol 100 t out_of_memory)) = t
  /\ snd (t500rs_timer_helper sample_protocol 100 t out_of_memory) = out_of_memory.
Proof.
  intros t. apply (idle_pass_is_silent sample_protocol 100 t out_of_memory).
  repeat constructor.
Defined.

(** The running maximum, for repeat counts that fit an int. *)
Lemma fold_track_max l : forall mc,
  Forall count_in_range l -> 0 <= mc < 2 ^ 31 ->
  let r := fold_left (fun m s => track_max s m) l mc in
  mc <= r < 2 ^ 31
  /\ Forall (fun s => count s <= r) l
  /\ (r = mc \/ exists s, s ∈ l /\ r = count s).
Proof.
  induction l as [| s l IH]; intros mc Hl Hmc; cbn zeta.
  - cbn. split; [lia |]. split; [constructor | now left].
  - inversion Hl as [| ? ? Hs Hl']; subst. cbn [fold_left].
    unfold count_in_range in Hs.
    assert (track_max s mc = Z.max (count s) mc) as Htm.
    { unfold track_max, ulong, int32.
      rewrite (Z.mod_small mc) by lia.
      destruct (Z.gtb_spec (count s) mc).
      - rewrite Z.mod_small by lia. lia.
      - lia. }
    rewrite Htm.
    destruct (IH (Z.max (count s) mc) Hl' ltac:(lia)) as (Hr & Hall & Hex).
    cbn zeta in *. split; [lia |]. split.
    + constructor; [lia | exact Hall].
    + destruct Hex as [Hr' | (s' & Hin & Hr')].
      * destruct (Z.max_spec (count s) mc) as [[_ Hm] | [_ Hm]].
        -- left. lia.
        -- right. exists s. split; [constructor | lia].
      * right. exists s'. split; [now constructor | exact Hr'].
Qed.

(** [t500rs_timer], by the outcome of the pass. *)
Lemma t500rs_timer_unfold P now t h :
  t500rs_timer P now t h =
  (let '(r, h1) := t500rs_timer_helper P now t h in
   ((if fst r >? 0
     then (HRTIMER_RESTART,
           {| states := states (snd r); hrtimer_active := true |})
     else (HRTIMER_NORESTART,
           {| states := states (snd r); hrtimer_active := false |})), h1)).
Proof.
  unfold t500rs_timer, bind.
  destruct (t500rs_timer_helper P now t h) as [r h1].
  destruct (fst r >? 0); reflexivity.
Qed.

(** [timer_loop_cases], for a named outcome. *)
Lemma timer_loop_cases_eq P now n i mc t h r t' h' :
  timer_loop P now n i mc t h = ((r, t'), h') ->
  length (states t') = length (states t)
  /\ hrtimer_active t' = hrtimer_active t
  /\ (forall j, (j < i)%nat -> states t' !! j = states t !! j)
  /\ (forall j, (i + n <= j)%nat -> states t' !! j = states t !! j)
  /\ ((r = fold_left (fun m s => track_max s m) (take n (drop i (states t'))) mc
       /\ forall j s, (i <= j < i + n)%nat -> states t !! j = Some s ->
            states t' !! j = Some (pass_slot now s))
      \/ (exists k s h1, (i <= k < i + n)%nat /\ states t !! k = Some s
            /\ fst (fst (timer_slot P now s h1)) = Some r
            /\ states t' !! k = Some (snd (fst (timer_slot P now s h1)))
            /\ (forall j s0, (i <= j < k)%nat -> states t !! j = Some s0 ->
                  states t' !! j = Some (pass_slot now s0))
            /\ (forall j, (k < j)%nat -> states t' !! j = states t !! j))).
Proof.
  intros Hout. pose proof (timer_loop_cases P now n i mc t h) as H.
  cbn zeta in H. rewrite Hout in H. exact H.
Qed.

(** The pass is the loop over the first T500RS_MAX_EFFECTS slots. *)
Lemma t500rs_timer_helper_eq P now t h :
  t500rs_timer_helper P now t h
  = timer_loop P now T500RS_MAX_EFFECTS 0 0 t h.
Proof. reflexivity. Qed.

(** [timer_helper_only_consumes], for a named outcome. *)
Lemma timer_helper_consumes_eq P now t h r t' h' :
  t500rs_timer_helper P now t h = ((r, t'), h') ->
  length (states t') = length (states t)
  /\ forall j s, states t !! j = Some s ->
       exists s', states t' !! j = Some s' /\ only_consumes s s'.
Proof.
  intros Hout. pose proof (timer_helper_only_consumes P now t h) as H.
  cbn zeta in H. rewrite Hout in H. cbn [fst snd] in H.
  destruct H as (Hl & _ & H). split; assumption.
Qed.

(** What a pass that returns no error returns: the largest repeat count
    left among the first T500RS_MAX_EFFECTS slots, or 0. *)
Lemma timer_helper_max P now t h r t' h' :
  t500rs_timer_helper P now t h = ((r, t'), h') -> 0 <= r ->
  Forall count_in_range (states t) ->
  r = fold_left (fun m s => track_max s m)
        (take T500RS_MAX_EFFECTS (states t')) 0
  /\ Forall count_in_range (states t').
Proof.
  intros Hout Hr Hrange.
  destruct (timer_helper_consumes_eq P now t h r t' h' Hout) as (Hlen & Hcons).
  rewrite t500rs_timer_helper_eq in Hout.
  destruct (timer_loop_cases_eq P now T500RS_MAX_EFFECTS 0 0 t h r t' h' Hout)
    as (_ & _ & _ & _ & [(Hfold & _) | (k & sk & h1 & _ & _ & Hret & _)]).
  2: { apply timer_slot_early_negative in Hret. lia. }
  rewrite drop_0 in Hfold. split; [exact Hfold |].
  apply Forall_lookup_2. intros j s' Hs'.
  destruct (lookup_lt_is_Some_2 (states t) j) as [s Hs].
  { rewrite <- Hlen. eapply lookup_lt_Some; eauto. }
  destruct (Hcons j s Hs) as (s'' & Hs'' & Hoc).
  assert (s'' = s') as -> by congruence.
  pose proof (Forall_lookup_1 _ _ _ _ Hrange Hs) as Hc.
  destruct Hoc as (_ & _ & _ & _ & Hcount & _).
  unfold count_in_range in *. lia.
Qed.

(** X15. For repeat counts that fit an int: when the pass returns no
    error, the value it returns is positive, and [t500rs_timer]
    restarts the timer, exactly when some slot among the first
    T500RS_MAX_EFFECTS is left with a positive repeat count. *)
Theorem timer_restarts_while_count_left P now t h :
  Forall count_in_range (states t) ->
  0 <= fst (fst (t500rs_timer_helper P now t h)) ->
  let t' := snd (fst (t500rs_timer_helper P now t h)) in
  fst (fst (t500rs_timer P now t h)) = HRTIMER_RESTART
  <-> exists j s', (j < T500RS_MAX_EFFECTS)%nat /\ states t' !! j = Some s'
        /\ 0 < count s'.
Proof.
  rewrite t500rs_timer_unfold.
  destruct (t500rs_timer_helper P now t h) as [[r t'] h'] eqn:Hout.
  intros Hrange Hr. cbn [fst snd] in Hr |- *.
  destruct (timer_helper_max P now t h r t' h' Hout Hr Hrange)
    as (Hfold & Hrange').
  destruct (fold_track_max (take T500RS_MAX_EFFECTS (states t')) 0
              ltac:(now apply Forall_take) ltac:(lia)) as (Hb & Hall & Hex).
  cbn zeta in Hb, Hall, Hex. rewrite <- Hfold in Hb, Hall, Hex.
  split.
  - intros Hrestart. destruct (Z.gtb_spec r 0); [| discriminate Hrestart].
    destruct Hex as [-> | (s' & Hin & ->)]; [lia |].
    apply list_elem_of_lookup in Hin as [j Hj].
    apply lookup_take_Some in Hj as [Hj Hlt].
    exists j, s'. repeat split; auto.
  - intros (j & s' & Hj & Hs' & Hc).
    assert (take T500RS_MAX_EFFECTS (states t') !! j = Some s') as Hin.
    { apply lookup_take_Some. split; [exact Hs' | exact Hj]. }
    pose proof (Forall_lookup_1 _ _ _ _ Hall Hin) as Hle. cbn beta in Hle.
    destruct (Z.gtb_spec r 0); [reflexivity | lia].
Qed.

Lemma timer_restarts_while_count_left_witness :
  let t := device_with (slot_of (constant_effect 0 0x40 0) (bit FF_EFFECT_QUEUE_START) 0 2) in
  let t' := snd (fst (t500rs_timer_helper sample_protocol 100 t quiet)) in
  fst (fst (t500rs_timer sample_protocol 100 t quiet)) = HRTIMER_RESTART
  <-> exists j s', (j < T500RS_MAX_EFFECTS)%nat /\ states t' !! j = Some s'
        /\ 0 < count s'.
Proof.
  intros t t'.
  apply (timer_restarts_while_count_left sample_protocol 100 t quiet).
  - repeat constructor; vm_compute; intuition discriminate.
  - vm_compute. discriminate.
Defined.

Lemma expire_infinite now s :
  replay_length (replay (effect s)) = 0 -> expire now s = s.
Proof.
  intros H. unfold expire. rewrite H. cbn. now rewrite andb_false_r.
Qed.

(** X16. An effect with replay length 0 is never expired: over any
    number of passes of the timer that return no error, whatever the
    times at which they are made, a slot that is playing, with no stop
    queued, is still playing afterwards, with its repeat count and its
    start time as they were. *)
Theorem infinite_effect_keeps_playing P nows t h rets t' h' i s :
  (i < T500RS_MAX_EFFECTS)%nat -> states t !! i = Some s ->
  replay_length (replay (effect s)) = 0 ->
  test_bit FF_EFFECT_PLAYING (flags s) = true ->
  test_bit FF_EFFECT_QUEUE_STOP (flags s) = false ->
  ticks P nows t h = ((rets, t'), h') -> Forall (fun r => 0 <= r) rets ->
  exists s', states t' !! i = Some s'
    /\ test_bit FF_EFFECT_PLAYING (flags s') = true
    /\ count s' = count s /\ start_time s' = start_time s.
Proof.
  intros Hi Hs Hlen Hp Hstop Hticks Hrets.
  eexists. split; [eapply ticks_done; eauto |].
  clear Hticks Hrets Hs Hi. revert s Hlen Hp Hstop.
  induction nows as [| now later IH]; intros s Hlen Hp Hstop; [cbn; auto |].
  cbn [fold_left].
  assert (pass_slot now s = with_flags (settle (flags s)) s) as Hpass.
  { unfold pass_slot. now rewrite expire_infinite. }
  destruct (settle_bits (flags s)) as (_ & _ & Hst & Hpl).
  destruct (IH (pass_slot now s)) as (Hp' & Hc' & Ht').
  - rewrite Hpass. exact Hlen.
  - rewrite Hpass. cbn [flags with_flags]. rewrite Hpl, Hp, Hstop.
    now rewrite orb_true_r.
  - rewrite Hpass. exact Hst.
  - rewrite Hp', Hc', Ht', Hpass. auto.
Qed.

Lemma infinite_effect_keeps_playing_witness :
  let s := slot_of (constant_effect 0 0x40 0) (bit FF_EFFECT_PLAYING) 5 1 in
  let out := ticks sample_protocol [100; 100000; 7] (device_with s) quiet in
  exists s', states (snd (fst out)) !! 0%nat = Some s'
    /\ test_bit FF_EFFECT_PLAYING (flags s') = true
    /\ count s' = count s /\ start_time s' = start_time s.
Proof.
  intros s out.
  apply (infinite_effect_keeps_playing sample_protocol [100; 100000; 7]
           (device_with s) quiet (fst (fst out)) (snd (fst out)) (snd out)
           0%nat s).
  - vm_compute. lia.
  - reflexivity.
  - reflexivity.
  - reflexivity.
  - reflexivity.
  - reflexivity.
  - vm_compute. repeat constructor; discriminate.
Defined.

(** * Further properties of the entry points *)

(** The slot a start request leaves behind. *)
Lemma play_slot_started now value s :
  0 < value ->
  let s' := play_slot now value s in
  count s' = value /\ start_time s' = now
  /\ effect s' = effect s /\ old s' = old s /\ combined s' = combined s
  /\ test_bit FF_EFFECT_QUEUE_START (flags s') = true
  /\ test_bit FF_EFFECT_QUEUE_STOP (flags s') = false
  /\ test_bit FF_EFFECT_PLAYING (flags s') = test_bit FF_EFFECT_PLAYING (flags s)
  /\ test_bit FF_EFFECT_QUEUE_UPLOAD (flags s')
     = test_bit FF_EFFECT_QUEUE_UPLOAD (flags s)
  /\ test_bit FF_EFFECT_QUEUE_UPDATE (flags s')
     = test_bit FF_EFFECT_QUEUE_UPDATE (flags s).
Proof.
  intros Hv. cbn zeta. unfold play_slot. destruct (Z.gtb_spec value 0); [| lia].
  cbn [count start_time effect old combined flags with_flags with_count
       with_start_time].
  repeat (split; [reflexivity |]).
  destruct (test_bit FF_EFFECT_QUEUE_STOP
              (__set_bit FF_EFFECT_QUEUE_START (flags s))) eqn:Hstop;
    bits; bits.
  - repeat split; auto.
  - rewrite test_set_bit in Hstop by (vm_compute; discriminate).
    cbn in Hstop. repeat split; auto.
Qed.

(** X17. A playback-change request with a positive value, on a device
    that is found: it returns 0, stores the value as repeat count and
    the current time as start time, sets QUEUE_START, clears a queued
    QUEUE_STOP (a start cancels a queued stop), leaves PLAYING,
    QUEUE_UPLOAD, QUEUE_UPDATE, the descriptor and the combined record
    as they were, touches no other slot, and leaves the timer active.
    When the device is not found it returns -1 and changes nothing. *)
Theorem play_request_queues_start now effect_id value t s :
  0 < value -> states t !! effect_id = Some s ->
  let out := t500rs_play true now effect_id value t in
  fst out = 0 /\ hrtimer_active (snd out) = true
  /\ (forall j, j <> effect_id -> states (snd out) !! j = states t !! j)
  /\ (exists s', states (snd out) !! effect_id = Some s'
        /\ count s' = value /\ start_time s' = now
        /\ effect s' = effect s /\ old s' = old s /\ combined s' = combined s
        /\ test_bit FF_EFFECT_QUEUE_START (flags s') = true
        /\ test_bit FF_EFFECT_QUEUE_STOP (flags s') = false
        /\ test_bit FF_EFFECT_PLAYING (flags s')
           = test_bit FF_EFFECT_PLAYING (flags s)
        /\ test_bit FF_EFFECT_QUEUE_UPLOAD (flags s')
           = test_bit FF_EFFECT_QUEUE_UPLOAD (flags s)
        /\ test_bit FF_EFFECT_QUEUE_UPDATE (flags s')
           = test_bit FF_EFFECT_QUEUE_UPDATE (flags s))
  /\ t500rs_play false now effect_id value t = (-1, t).
Proof.
  intros Hv Hs. cbn zeta. unfold t500rs_play. cbn [negb fst snd states hrtimer_active].
  split; [reflexivity |]. split; [reflexivity |].
  split; [intros j Hj; now apply list_lookup_alter_ne |].
  split; [| reflexivity].
  rewrite list_lookup_alter_eq, Hs. cbn [fmap option_fmap option_map].
  eexists. split; [reflexivity |].
  exact (play_slot_started now value s Hv).
Qed.

Lemma play_request_queues_start_witness :
  let s := slot_of (constant_effect 0 0x40 0) (bit FF_EFFECT_QUEUE_STOP) 0 0 in
  let out := t500rs_play true 100 0%nat 3 (device_with s) in
  exists s', states (snd out) !! 0%nat = Some s'
    /\ count s' = 3 /\ start_time s' = 100
    /\ test_bit FF_EFFECT_QUEUE_START (flags s') = true
    /\ test_bit FF_EFFECT_QUEUE_STOP (flags s') = false.
Proof.
  intros s out.
  destruct (play_request_queues_start 100 0%nat 3 (device_with s) s)
    as (_ & _ & _ & (s' & Hs' & Hc & Ht & _ & _ & _ & Hq & Hst & _) & _).
  - lia.
  - reflexivity.
  - exists s'. auto.
Defined.

(** X18. Request, then pass: after a playback-change request with a
    positive value on a slot that is not playing, a pass of the timer
    that returns no error leaves the slot playing, with QUEUE_START and
    QUEUE_STOP clear, the repeat count and the start time of the
    request (the pass is made whenever it is made: the start time is
    the time of the request), and the play command sent. *)
Theorem play_then_pass_starts P now later effect_id value t s h r t' h' :
  0 < value -> (effect_id < T500RS_MAX_EFFECTS)%nat ->
  states t !! effect_id = Some s ->
  test_bit FF_EFFECT_PLAYING (flags s) = false ->
  t500rs_timer_helper P later (snd (t500rs_play true now effect_id value t)) h
  = ((r, t'), h') ->
  0 <= r ->
  exists s', states t' !! effect_id = Some s'
    /\ test_bit FF_EFFECT_PLAYING (flags s') = true
    /\ test_bit FF_EFFECT_QUEUE_START (flags s') = false
    /\ test_bit FF_EFFECT_QUEUE_STOP (flags s') = false
    /\ count s' = value /\ start_time s' = now
    /\ exists before after,
         requests h'
         = requests h ++ before
           ++ [t500rs_cmd_header P ++ play_params P] ++ after.
Proof.
  intros Hv Hid Hs Hp Htick Hr.
  assert (states (snd (t500rs_play true now effect_id value t)) !! effect_id
          = Some (play_slot now value s)) as Hs1.
  { unfold t500rs_play. cbn [negb snd states].
    now rewrite list_lookup_alter_eq, Hs. }
  set (s1 := play_slot now value s) in *.
  destruct (play_slot_started now value s Hv)
    as (Hc & Ht & _ & _ & _ & Hq & Hst & Hpl & _).
  cbn zeta in *. fold s1 in Hc, Ht, Hq, Hst, Hpl.
  rewrite Hp in Hpl.
  destruct (timer_helper_done P later _ h r t' h' effect_id s1 Htick Hr Hid Hs1)
    as (Hs' & Hplay).
  rewrite (expire_idle later s1 Hpl) in Hplay.
  exists (pass_slot later s1). split; [exact Hs' |].
  unfold pass_slot. rewrite (expire_idle later s1 Hpl).
  destruct (settle_bits (flags s1)) as (_ & Hqs & Hstop & Hplaying).
  cbn [flags count start_time with_flags].
  rewrite Hplaying, Hq, Hst. repeat split; auto.
  destruct (Hplay Hq) as (h1 & h2 & [l1 H1] & [l2 H2] & Hsent).
  exists l1, l2. rewrite H2, Hsent, H1. now rewrite <- !app_assoc.
Qed.

Lemma play_then_pass_starts_witness :
  let s := slot_of (constant_effect 0 0x40 0) 0 0 0 in
  let t := snd (t500rs_play true 100 0%nat 2 (device_with s)) in
  let out := t500rs_timer_helper sample_protocol 108 t quiet in
  exists s', states (snd (fst out)) !! 0%nat = Some s'
    /\ test_bit FF_EFFECT_PLAYING (flags s') = true
    /\ test_bit FF_EFFECT_QUEUE_START (flags s') = false
    /\ test_bit FF_EFFECT_QUEUE_STOP (flags s') = false
    /\ count s' = 2 /\ start_time s' = 100
    /\ exists before after,
         requests (snd out)
         = requests quiet ++ before
           ++ [t500rs_cmd_header sample_protocol ++ play_params sample_protocol]
           ++ after.
Proof.
  intros s t out.
  apply (play_then_pass_starts sample_protocol 100 108 0%nat 2 (device_with s)
           s quiet (fst (fst out)) (snd (fst out)) (snd out)).
  - lia.
  - vm_compute. lia.
  - reflexivity.
  - reflexivity.
  - reflexivity.
  - vm_compute. discriminate.
Defined.

(** X19. An upload that is accepted, on a device that is found: it
    returns 0, the slot addressed by the effect id holds the new
    descriptor (and the previous one when one is given), QUEUE_UPLOAD is
    set, QUEUE_UPDATE is set exactly when a previous descriptor is
    given, and QUEUE_START, QUEUE_STOP, PLAYING, the repeat count, the
    start time and the combined record are as before. No other slot is
    touched and the timer is left as it is: the upload does not start
    it. *)
Theorem upload_stores_descriptor effect_ old_ t s :
  ff_type effect_ <> FF_PERIODIC \/ period (u_periodic effect_) <> 0 ->
  states t !! Z.to_nat (ff_id effect_) = Some s ->
  let out := t500rs_upload true effect_ old_ t in
  fst out = 0 /\ hrtimer_active (snd out) = hrtimer_active t
  /\ (forall j, j <> Z.to_nat (ff_id effect_) ->
        states (snd out) !! j = states t !! j)
  /\ exists s', states (snd out) !! Z.to_nat (ff_id effect_) = Some s'
       /\ effect s' = effect_
       /\ old s' = match old_ with Some o => o | None => old s end
       /\ test_bit FF_EFFECT_QUEUE_UPLOAD (flags s') = true
       /\ test_bit FF_EFFECT_QUEUE_UPDATE (flags s')
          = match old_ with Some _ => true | None => false end
       /\ test_bit FF_EFFECT_QUEUE_START (flags s')
          = test_bit FF_EFFECT_QUEUE_START (flags s)
       /\ test_bit FF_EFFECT_QUEUE_STOP (flags s')
          = test_bit FF_EFFECT_QUEUE_STOP (flags s)
       /\ test_bit FF_EFFECT_PLAYING (flags s')
          = test_bit FF_EFFECT_PLAYING (flags s)
       /\ count s' = count s /\ start_time s' = start_time s
       /\ combined s' = combined s.
Proof.
  intros Hok Hs. cbn zeta. unfold t500rs_upload. cbn [negb].
  assert ((ff_type effect_ =? FF_PERIODIC) && (period (u_periodic effect_) =? 0)
          = false) as ->.
  { apply andb_false_iff. destruct Hok as [H | H]; [left | right];
      now apply Z.eqb_neq. }
  cbn [fst snd states hrtimer_active].
  split; [reflexivity |]. split; [reflexivity |].
  split; [intros j Hj; apply list_lookup_alter_ne; congruence |].
  rewrite list_lookup_alter_eq, Hs. cbn [fmap option_fmap option_map].
  eexists. split; [reflexivity |]. unfold upload_slot.
  cbn [effect old flags count start_time combined].
  destruct old_; bits; repeat split; reflexivity.
Qed.

Lemma upload_stores_descriptor_witness :
  let out :=
    t500rs_upload true (constant_effect 3 0x40 250) None (device_with zero_state) in
  fst out = 0
  /\ (effect <$> states (snd out) !! 3%nat) = Some (constant_effect 3 0x40 250).
Proof.
  intros out.
  destruct (upload_stores_descriptor (constant_effect 3 0x40 250) None
              (device_with zero_state) zero_state)
    as (Hret & _ & _ & (s' & Hs' & He & _)).
  - left. vm_compute. discriminate.
  - reflexivity.
  - split; [exact Hret |]. fold out in Hs'.
    change (Z.to_nat (ff_id (constant_effect 3 0x40 250))) with 3%nat in Hs'.
    rewrite Hs'. cbn. now rewrite He.
Defined.

Lemma periodic_upload_effect P state h :
  combined state = None -> ff_type (effect state) = FF_PERIODIC ->
  replay_length (replay (effect state)) = 0 ->
  t500rs_upload_effect P state h = (- EINVAL, h).
Proof.
  intros Hc Hty Hlen.
  unfold t500rs_upload_effect, upload_switch, t500rs_upload_periodic, bind.
  rewrite Hc, Hty, Hlen. reflexivity.
Qed.

(** The loop passes over idle slots without a trace. *)
Lemma timer_loop_skip_idle P now d : forall m i mc t h,
  (forall j s, (i <= j < i + d)%nat -> states t !! j = Some s -> idle s) ->
  exists mc',
    timer_loop P now (d + m) i mc t h = timer_loop P now m (i + d) mc' t h.
Proof.
  induction d as [| d IH]; intros m i mc t h Hidle.
  - exists mc. now rewrite Nat.add_0_r.
  - cbn [plus timer_loop]. replace (i + S d)%nat with (S i + d)%nat by lia.
    destruct (states t !! i) as [si |] eqn:Hi.
    + unfold bind. rewrite timer_slot_idle by (apply (Hidle i); [lia | exact Hi]).
      cbn [fst snd]. rewrite list_insert_id by exact Hi.
      destruct t as [sts act]. cbn [states hrtimer_active] in *.
      apply IH. intros j s Hj. apply Hidle. lia.
    + apply IH. intros j s Hj. apply Hidle. lia.
Qed.

(** X20. A periodic descriptor with a nonzero period is accepted by the
    upload entry point and thrown away by the timer: with replay length
    0, on a simple slot with only idle slots before it, [t500rs_upload]
    returns 0, and the pass that follows returns -EINVAL without
    sending anything or attempting an allocation; the slot keeps the
    descriptor but its QUEUE_UPLOAD flag is cleared, so no later pass
    tries again. *)
Theorem periodic_upload_is_dropped P effect_ old_ t s now h :
  ff_type effect_ = FF_PERIODIC -> period (u_periodic effect_) <> 0 ->
  replay_length (replay effect_) = 0 ->
  (Z.to_nat (ff_id effect_) < T500RS_MAX_EFFECTS)%nat ->
  states t !! Z.to_nat (ff_id effect_) = Some s -> combined s = None ->
  (forall j sj, (j < Z.to_nat (ff_id effect_))%nat -> states t !! j = Some sj ->
     idle sj) ->
  let up := t500rs_upload true effect_ old_ t in
  let out := t500rs_timer_helper P now (snd up) h in
  fst up = 0
  /\ fst (fst out) = - EINVAL /\ snd out = h
  /\ exists s', states (snd (fst out)) !! Z.to_nat (ff_id effect_) = Some s'
       /\ effect s' = effect_
       /\ test_bit FF_EFFECT_QUEUE_UPLOAD (flags s') = false.
Proof.
  intros Hty Hper Hlen Hk Hs Hc Hidle. cbn zeta.
  set (k := Z.to_nat (ff_id effect_)) in *.
  unfold t500rs_upload. cbn [negb].
  assert ((ff_type effect_ =? FF_PERIODIC) && (period (u_periodic effect_) =? 0)
          = false) as ->.
  { apply andb_false_iff. right. now apply Z.eqb_neq. }
  cbn [fst snd]. fold k. split; [reflexivity |].
  set (t1 := {| states := alter (upload_slot effect_ old_) k (states t);
                hrtimer_active := hrtimer_active t |}).
  set (s1 := upload_slot effect_ old_ s).
  assert (states t1 !! k = Some s1) as Hs1.
  { subst t1 s1. cbn [states]. now rewrite list_lookup_alter_eq, Hs. }
  unfold t500rs_timer_helper.
  replace T500RS_MAX_EFFECTS with (k + S (15 - k))%nat
    by (unfold T500RS_MAX_EFFECTS in *; lia).
  destruct (timer_loop_skip_idle P now k (S (15 - k)) 0 0 t1 h) as [mc' ->].
  { intros j sj Hj Hsj. apply (Hidle j); [lia |].
    subst t1. cbn [states] in Hsj.
    rewrite list_lookup_alter_ne in Hsj by lia. exact Hsj. }
  cbn [plus timer_loop]. rewrite Hs1. unfold bind.
  set (s2 := with_flags (__clear_bit FF_EFFECT_QUEUE_UPLOAD (flags s1)) s1).
  assert (timer_slot P now s1 h = ((Some (- EINVAL), s2), h)) as ->.
  { unfold timer_slot, then_stage, stage_expire, stage_upload, ret_, bind.
    rewrite expire_infinite by (subst s1; exact Hlen).
    assert (test_bit FF_EFFECT_QUEUE_UPLOAD (flags s1) = true) as ->.
    { subst s1. unfold upload_slot. cbn [flags]. now bits. }
    fold s2.
    rewrite (periodic_upload_effect P s2 h)
      by (subst s2 s1; cbn; assumption).
    reflexivity. }
  cbn [fst snd ret_ states].
  split; [reflexivity |]. split; [reflexivity |].
  exists s2. split.
  - apply list_lookup_insert_eq. eapply lookup_lt_Some. exact Hs1.
  - subst s2 s1. cbn [effect flags with_flags upload_slot].
    split; [reflexivity |]. now bits.
Qed.

Lemma periodic_upload_is_dropped_witness :
  let e := {| ff_type := FF_PERIODIC; ff_id := 1;
              replay := {| replay_length := 0; replay_delay := 0 |};
              u_constant := u_constant (plain_effect 0 0 0);
              u_ramp := u_ramp (plain_effect 0 0 0);
              u_periodic := {| waveform := FF_SINE; period := 20; magnitude := 0x4000 |};
              u_condition0 := u_condition0 (plain_effect 0 0 0) |} in
  let up := t500rs_upload true e None (device_with zero_state) in
  let out := t500rs_timer_helper sample_protocol 100 (snd up) quiet in
  fst up = 0 /\ fst (fst out) = - EINVAL /\ snd out = quiet.
Proof.
  intros e up out.
  destruct (periodic_upload_is_dropped sample_protocol e None
              (device_with zero_state) zero_state 100 quiet)
    as (Hup & Hret & Hh & _).
  - reflexivity.
  - cbn. discriminate.
  - reflexivity.
  - vm_compute. lia.
  - reflexivity.
  - reflexivity.
  - intros j sj Hj Hsj. change (Z.to_nat (ff_id e)) with 1%nat in Hj.
    assert (j = 0%nat) as -> by lia. injection Hsj as <-.
    repeat split.
  - auto.
Defined.

(** * Properties of the sysfs attributes *)

(** X21. The three levels never exceed 100: if they are at most 100,
    they are at most 100 after any run of writes to the three level
    attributes, whatever is written and whether or not it parses. *)
Theorem level_writes_stay_capped wrs g :
  levels_capped g -> levels_capped (level_stores wrs g).
Proof.
  unfold level_stores. revert g.
  induction wrs as [| wr wrs IH]; intros g Hg; [exact Hg |].
  cbn [fold_left]. apply IH. destruct Hg as (Hs & Hd & Hf).
  unfold levels_capped.
  destruct wr as [ret value | ret value | ret value]; cbn [level_store];
    unfold spring_level_store, damper_level_store, friction_level_store;
    destruct (nonzero ret); cbn [snd spring_level damper_level friction_level];
    auto; destruct (Z.gtb_spec value 100); repeat split; lia.
Qed.

Lemma level_writes_stay_capped_witness :
  levels_capped
    (level_stores [WriteSpring 0 250; WriteDamper (-22) 7; WriteFriction 0 35]
       {| spring_level := 30; damper_level := 30; friction_level := 30 |}).
Proof.
  apply (level_writes_stay_capped
           [WriteSpring 0 250; WriteDamper (-22) 7; WriteFriction 0 35]).
  repeat split; vm_compute; discriminate.
Defined.

Lemma clamp_range_bounds value : 40 <= clamp_range value <= 1080.
Proof.
  unfold clamp_range.
  destruct (Z.ltb_spec value 40);
    [| destruct (Z.gtb_spec value 1080)]; cbn; lia.
Qed.

(** X22. A range write that parses, on a device that is found: the
    range stored is the value written, clamped to 40..1080;
    [range_store] returns [count]; the one command requested is the
    buffer 0x08, 0x11, lo, hi and zeros, where lo + 256 * hi is the
    stored range times 0x3c, so the stored range can be read back from
    the command; and the send buffer is all zeros again afterwards. *)
Theorem range_store_round_trip value count w h :
  send_buffer w = replicate T500RS_BUFFER_LENGTH 0 ->
  device_found (fst (next_attempt h)) = true ->
  let out := range_store 0 value true count w h in
  fst (fst out) = count
  /\ range (snd (fst out)) = clamp_range value
  /\ 40 <= range (snd (fst out)) <= 1080
  /\ (40 <= value <= 1080 -> range (snd (fst out)) = value)
  /\ send_buffer (snd (fst out)) = replicate T500RS_BUFFER_LENGTH 0
  /\ exists lo hi,
       requests (snd out)
       = requests h ++ [[0x08; 0x11; lo; hi] ++ replicate 60 0]
       /\ 0 <= lo < 256 /\ 0 <= hi < 256
       /\ (lo + 256 * hi) / 0x3c = range (snd (fst out))
       /\ (lo + 256 * hi) mod 0x3c = 0.
Proof.
  intros Hbuf Hfound. cbn zeta. unfold range_store, bind, ret_.
  cbn [nonzero Z.eqb negb].
  pose proof (next_attempt_requests h) as Hreq.
  destruct (next_attempt h) as [a h1]. cbn [fst snd] in *.
  unfold t500rs_send_int. rewrite Hfound. cbn [nonzero Z.eqb negb fst snd range send_buffer requests].
  pose proof (clamp_range_bounds value) as Hc.
  set (c := clamp_range value) in *.
  assert (uint (c * 60) = c * 60) as Hu by (unfold uint; apply Z.mod_small; lia).
  rewrite Hu, Hbuf.
  assert (u16 (c * 60 / 60) = c) as Hr.
  { rewrite Z.div_mul by lia. unfold u16. apply Z.mod_small. lia. }
  split; [reflexivity |]. split; [exact Hr |]. rewrite Hr.
  split; [exact Hc |]. split.
  { intros Hv. subst c. unfold clamp_range.
    destruct (Z.ltb_spec value 40); [lia |].
    destruct (Z.gtb_spec value 1080); lia. }
  split; [reflexivity |].
  exists (u8 (Z.land (c * 60) 255)), (u8 (Z.shiftr (c * 60) 8)).
  rewrite Hreq. split; [reflexivity |].
  split; [apply u8_range |]. split; [apply u8_range |].
  change 255 with (Z.ones 8). rewrite Z.land_ones, Z.shiftr_div_pow2 by lia.
  unfold u8. change (2 ^ 8) with 256.
  rewrite Z.mod_mod by lia.
  rewrite (Z.mod_small (c * 60 / 256)) by (split; [apply Z.div_pos; lia | apply Z.div_lt_upper_bound; lia]).
  replace (c * 60 mod 256 + 256 * (c * 60 / 256)) with (c * 60)
    by (rewrite (Z.div_mod (c * 60) 256) at 1 by lia; lia).
  split; [apply Z.div_mul; lia | apply Z.mod_mul; lia].
Qed.

Lemma range_store_round_trip_witness :
  let w := {| range := 900; send_buffer := replicate T500RS_BUFFER_LENGTH 0 |} in
  let out := range_store 0 1024 true 5 w quiet in
  fst (fst out) = 5 /\ range (snd (fst out)) = 1024
  /\ requests (snd out) = [[0x08; 0x11; 0x00; 0xf0] ++ replicate 60 0].
Proof.
  intros w out.
  destruct (range_store_round_trip 1024 5 w quiet eq_refl eq_refl)
    as (Hret & _ & _ & Hsame & _).
  split; [exact Hret |]. split; [apply Hsame; lia | reflexivity].
Defined.

(** X23. A range write that fails changes no stored range and requests
    nothing: text that does not parse returns the error of kstrtouint,
    a device that is not found, by [range_store] itself or by
    [t500rs_send_int], returns -1. The stored range is written only
    after the send has returned 0. *)
Theorem range_store_failure_keeps_range ret value found count w h :
  ret <> 0 \/ found = false \/ device_found (fst (next_attempt h)) = false ->
  let out := range_store ret value found count w h in
  fst (fst out) = (if nonzero ret then ret else -1)
  /\ range (snd (fst out)) = range w
  /\ requests (snd out) = requests h.
Proof.
  intros Hfail. cbn zeta. unfold range_store, bind, ret_.
  destruct (nonzero ret) eqn:Hret; [auto |].
  apply nonzero_false in Hret.
  destruct found; cbn [negb]; [| auto].
  destruct Hfail as [? | [? | Hnf]]; [contradiction | discriminate |].
  pose proof (next_attempt_requests h) as Hreq.
  destruct (next_attempt h) as [a h1]. cbn [fst snd] in *.
  unfold t500rs_send_int. rewrite Hnf. cbn. auto.
Qed.

Lemma range_store_failure_keeps_range_witness :
  let w := {| range := 900; send_buffer := replicate T500RS_BUFFER_LENGTH 0 |} in
  let h := {| script := [{| kzalloc_ok := true; device_found := false;
                            transfer_ok := true |}];
              requests := []; delivered := [] |} in
  let out := range_store 0 360 true 4 w h in
  fst (fst out) = -1 /\ range (snd (fst out)) = 900 /\ requests (snd out) = [].
Proof.
  intros w h.
  apply (range_store_failure_keeps_range 0 360 true 4 w h).
  right. right. reflexivity.
Defined.

(** * Ramp and inertia *)

(** X24. A ramp effect with a zero envelope and replay length 0, on a
    transport that works, is uploaded as three commands: the zeroed
    envelope, the ramp command with the low bytes of the start and end
    levels, and the upload trailer with T500RS_EFFECT_RAMP. *)
Theorem ramp_upload_three_commands P state h :
  combined state = None -> ff_type (effect state) = FF_RAMP ->
  ramp_envelope (u_ramp (effect state)) = no_envelope ->
  replay_length (replay (effect state)) = 0 -> all_smooth h ->
  fst (t500rs_upload_effect P state h) = 0
  /\ requests (snd (t500rs_upload_effect P state h))
     = requests h
       ++ [t500rs_cmd_header P
             ++ [T500RS_CMD_SET_ENVELOPE; 0x1c; 0; 0; 0; 0; 0; 0; 0];
           t500rs_cmd_header P
             ++ [u8 (T500RS_CMD_SET_RAMP P); 0x0e; 0;
                 start_level (u_ramp (effect state)) mod 256;
                 end_level (u_ramp (effect state)) mod 256];
           t500rs_cmd_header P
             ++ [T500RS_CMD_UPLOAD_EFFECT; 0; T500RS_EFFECT_RAMP; 0x40;
                 0x17; 0x25; 0; 0xff; 0xff; 0x0e; 0; 0x1c; 0]].
Proof.
  intros Hc Hty Henv Hlen Hh.
  unfold t500rs_upload_effect, upload_switch, t500rs_upload_ramp.
  rewrite Hc, Hty, Henv, Hlen.
  cbn [Z.eqb FF_RAMP FF_CONSTANT Pos.eqb]. unfold bind.
  destruct (send_effect_smooth P T500RS_CMD_SET_ENVELOPE envelope_params 9 h Hh)
    as (h1 & -> & Hh1 & Hr1).
  change (0 <? 0) with false. cbn iota.
  destruct (send_effect_smooth P (T500RS_CMD_SET_RAMP P) (ramp_params P state)
              5 h1 Hh1) as (h2 & -> & Hh2 & Hr2).
  change (0 <? 0) with false. cbn iota.
  destruct (send_effect_smooth P T500RS_CMD_UPLOAD_EFFECT
              (upload_params T500RS_EFFECT_RAMP) 13 h2 Hh2)
    as (h3 & -> & Hh3 & Hr3).
  cbn. split; [reflexivity |].
  rewrite Hr3, Hr2, Hr1. rewrite <- !app_assoc. reflexivity.
Qed.

Lemma ramp_upload_three_commands_witness :
  let e := {| ff_type := FF_RAMP; ff_id := 0;
              replay := {| replay_length := 0; replay_delay := 0 |};
              u_constant := u_constant (plain_effect 0 0 0);
              u_ramp := {| start_level := -1; end_level := 0x7f;
                           ramp_envelope := no_envelope |};
              u_periodic := u_periodic (plain_effect 0 0 0);
              u_condition0 := u_condition0 (plain_effect 0 0 0) |} in
  requests (snd (t500rs_upload_effect sample_protocol (slot_of e 0 0 0) quiet))
  = [[0x60; 0; 2; 0x1c; 0; 0; 0; 0; 0; 0; 0];
     [0x60; 0; 4; 0x0e; 0; 0xff; 0x7f];
     [0x60; 0; 1; 0; 0x24; 0x40; 0x17; 0x25; 0; 0xff; 0xff; 0x0e; 0; 0x1c; 0]].
Proof.
  intros e.
  destruct (ramp_upload_three_commands sample_protocol (slot_of e 0 0 0) quiet
              eq_refl eq_refl eq_refl eq_refl ltac:(constructor)) as (_ & Hreq).
  exact Hreq.
Defined.

(** X25. An inertia effect with replay length 0, on a transport that
    works, is uploaded as one command of eight bytes: the code 0x41,
    0, 0, 0, 3, 0x0e, and the high bytes of the right and of the left
    coefficient of the first condition. The center, from which the
    resistance is computed, is not in the command. *)
Theorem inertia_upload_single_command P state h :
  combined state = None -> ff_type (effect state) = FF_INERTIA ->
  replay_length (replay (effect state)) = 0 -> all_smooth h ->
  fst (t500rs_upload_effect P state h) = 0
  /\ requests (snd (t500rs_upload_effect P state h))
     = requests h
       ++ [t500rs_cmd_header P
             ++ [T500RS_EFFECT_INERTIA; 0; 0; 0; 0x03; 0x0e;
                 Z.shiftr (right_coeff (u_condition0 (effect state))) 8 mod 256;
                 Z.shiftr (left_coeff (u_condition0 (effect state))) 8 mod 256]].
Proof.
  intros Hc Hty Hlen Hh.
  unfold t500rs_upload_effect, upload_switch, t500rs_upload_inertia.
  rewrite Hc, Hty, Hlen.
  cbn [Z.eqb FF_INERTIA FF_CONSTANT FF_RAMP FF_SPRING FF_DAMPER FF_FRICTION
       Pos.eqb]. unfold bind.
  match goal with
  | |- context [t500rs_send_effect P ?c ?p 8 h] =>
      destruct (send_effect_smooth P c p 8 h Hh) as (h1 & -> & Hh1 & Hr1)
  end.
  cbn. split; [reflexivity | exact Hr1].
Qed.

Lemma inertia_upload_single_command_witness :
  let e := {| ff_type := FF_INERTIA; ff_id := 0;
              replay := {| replay_length := 0; replay_delay := 0 |};
              u_constant := u_constant (plain_effect 0 0 0);
              u_ramp := u_ramp (plain_effect 0 0 0);
              u_periodic := u_periodic (plain_effect 0 0 0);
              u_condition0 :=
                {| right_saturation := 0; left_saturation := 0;
                   right_coeff := 0x4000; left_coeff := -0x4000;
                   deadband := 0; center := 0x1234 |} |} in
  requests (snd (t500rs_upload_effect sample_protocol (slot_of e 0 0 0) quiet))
  = [[0x60; 0; 0x41; 0; 0; 0; 3; 0x0e; 0x40; 0xc0]].
Proof.
  intros e.
  destruct (inertia_upload_single_command sample_protocol (slot_of e 0 0 0) quiet
              eq_refl eq_refl eq_refl ltac:(constructor)) as (_ & Hreq).
  exact Hreq.
Defined.
